(** * CodeGuardian: usage resolution and confidence-gated rewriting

    A shallow embedding of the TypeScript sources

      - [src/parser.ts]                        (symbol extraction, unused imports)
      - [src/detectors/unused-imports.ts]      (per-project import detection)
      - [src/detectors/unused-dependencies.ts] (manifest against reference scan)
      - [src/fixer.ts]                         (the rewriting pass)
      - [src/analyzers/complexity.ts]          (complexity of files, hotspots)
      - [src/analyzer.ts], [src/cli.ts]        (the analysis and the clean command)
      - [src/config.ts]                        (project detection, configuration file)
      - [src/reporters/console-reporter.ts]    (shortened paths)

    Conventions of the embedding.

      - A JavaScript string is a [string]: a sequence of code units below 256.
      - A [number] holding a line, a column or a counter is a [Z] or a [nat];
        a confidence is a rational [Q].  Every confidence the code compares is
        compared with the literal [0.8]; no double lies strictly between the
        rational 4/5 and the double nearest to it, so the comparison on [Q]
        decides exactly as the comparison on doubles does.
      - A [Set<string>] and a [Map<string, _>] keep insertion order and are
        lists without repeated keys; a [Record<string, string>] of the
        manifest is the list of its entries in [Object.entries] order.
      - The file system is a finite map from paths to entries; reading and
        writing can fail, as [fs.readFileSync] and [fs.writeFileSync] can.
      - The collaborators the code calls but does not define (Babel's parser,
        [JSON.parse], [JSON.stringify], the glob results, the test runner) are
        section variables. *)

From Stdlib Require Import String Ascii List ZArith QArith Bool Lia Permutation Sorted.
From stdpp Require Import base option gmap strings.

Close Scope Q_scope.
Set Warnings "-register-all".
Import ListNotations.
Open Scope string_scope.
Open Scope list_scope.

(** ** JavaScript string primitives *)

Module JsString.

Definition dquote : ascii := ascii_of_nat 34.
Definition squote : ascii := ascii_of_nat 39.
Definition newline : ascii := ascii_of_nat 10.

(** [s.startsWith(p)] *)
Definition startsWith (s p : string) : bool := String.prefix p s.

(** [s.endsWith(p)] *)
Fixpoint endsWith (s p : string) : bool :=
  String.eqb s p ||
  match s with
  | EmptyString => false
  | String _ t => endsWith t p
  end.

(** [s.includes(sub)] *)
Fixpoint includes (s sub : string) : bool :=
  String.prefix sub s ||
  match s with
  | EmptyString => false
  | String _ t => includes t sub
  end.

(** [s.slice(n)] for [0 <= n] *)
Fixpoint drop (n : nat) (s : string) : string :=
  match n, s with
  | O, _ => s
  | S _, EmptyString => EmptyString
  | S n', String _ t => drop n' t
  end.

(** [s.slice(0, n)] for [0 <= n] *)
Fixpoint take (n : nat) (s : string) : string :=
  match n, s with
  | O, _ => EmptyString
  | S _, EmptyString => EmptyString
  | S n', String c t => String c (take n' t)
  end.

(** [s.replace(pat, repl)] with a string pattern: the first occurrence only. *)
Fixpoint replace_first (pat repl s : string) : string :=
  if String.prefix pat s then repl +:+ drop (String.length pat) s
  else match s with
       | EmptyString => EmptyString
       | String c t => String c (replace_first pat repl t)
       end.

(** [s.split(sep)] for a one-character separator. *)
Fixpoint split (sep : ascii) (s : string) : list string :=
  match s with
  | EmptyString => [EmptyString]
  | String c t =>
      if Ascii.eqb c sep then EmptyString :: split sep t
      else match split sep t with
           | h :: r => String c h :: r
           | [] => [String c EmptyString]
           end
  end.

(** [parts.join(sep)] *)
Definition join (sep : string) (parts : list string) : string :=
  String.concat sep parts.

(** Truthiness of a string value: every string but the empty one. *)
Definition truthy (s : string) : bool := negb (String.eqb s "").

End JsString.

(** ** Regular expressions

    The regular expressions of the sources, as data, with the backtracking
    semantics of ECMAScript: alternatives and quantifiers are tried in
    priority order and the first successful path wins. *)

Module Regex.

Inductive regex : Type :=
| RChar (p : ascii -> bool)          (* one character of a class *)
| REmpty
| RSeq (r1 r2 : regex)
| RAlt (r1 r2 : regex)
| RStar (lazy : bool) (r : regex)    (* r* and r*? *)
| RGroup (r : regex)                 (* capturing group 1 *)
| RWordB                             (* \b *)
| REnd.                              (* $ without the m flag *)

Definition RPlus (lazy : bool) (r : regex) : regex := RSeq r (RStar lazy r).
Definition ROpt (r : regex) : regex := RAlt r REmpty.

Fixpoint RLit (s : string) : regex :=
  match s with
  | EmptyString => REmpty
  | String c t => RSeq (RChar (Ascii.eqb c)) (RLit t)
  end.

Definition code (c : ascii) : nat := nat_of_ascii c.

(** [\s]: tab, line feed, vertical tab, form feed, carriage return, space,
    no-break space. *)
Definition is_space (c : ascii) : bool :=
  let n := code c in
  (((9 <=? n) && (n <=? 13)) || (n =? 32) || (n =? 160))%nat.

(** [\w]: ASCII letters, digits and underscore. *)
Definition is_word (c : ascii) : bool :=
  let n := code c in
  (((48 <=? n) && (n <=? 57)) || ((65 <=? n) && (n <=? 90)) ||
   (n =? 95) || ((97 <=? n) && (n <=? 122)))%nat.

(** [.]: anything but a line terminator. *)
Definition is_dot (c : ascii) : bool :=
  let n := code c in negb ((n =? 10) || (n =? 13))%nat.

(** The class of every character but the two quote characters. *)
Definition not_quote (c : ascii) : bool :=
  negb (Ascii.eqb c JsString.squote || Ascii.eqb c JsString.dquote).

Definition ws : regex := RChar is_space.
Definition chr (c : ascii) : regex := RChar (Ascii.eqb c).
Definition quote : regex := RChar (fun c => negb (not_quote c)).

(** The matcher's position: the character before it (for [\b]), the input
    still to read, and the text of group 1 when it has matched. *)
Record mstate : Type := MState {
  ms_prev : option ascii;
  ms_rest : string;
  ms_cap : option string
}.

Definition word_before (s : mstate) : bool :=
  match ms_prev s with Some c => is_word c | None => false end.

Definition word_after (s : mstate) : bool :=
  match ms_rest s with String c _ => is_word c | EmptyString => false end.

Definition consumed (s s1 : mstate) : bool :=
  (String.length (ms_rest s1) <? String.length (ms_rest s))%nat.

(** Matching in continuation-passing style.  An iteration of a quantifier
    that consumes nothing is rejected, as the ECMAScript semantics does. *)
Fixpoint rmatch {A : Type} (r : regex) (s : mstate)
    (k : mstate -> option A) {struct r} : option A :=
  match r with
  | RChar p =>
      match ms_rest s with
      | String c t =>
          if p c then k (MState (Some c) t (ms_cap s)) else None
      | EmptyString => None
      end
  | REmpty => k s
  | RSeq r1 r2 => rmatch r1 s (fun s1 => rmatch r2 s1 k)
  | RAlt r1 r2 =>
      match rmatch r1 s k with
      | Some x => Some x
      | None => rmatch r2 s k
      end
  | RStar lazy r1 =>
      (fix loop (fuel : nat) (s : mstate) {struct fuel} : option A :=
         let again (_ : unit) :=
           match fuel with
           | O => None
           | S fuel' =>
               rmatch r1 s
                 (fun s1 => if consumed s s1 then loop fuel' s1 else None)
           end in
         if lazy then
           match k s with Some x => Some x | None => again tt end
         else
           match again tt with Some x => Some x | None => k s end)
        (String.length (ms_rest s)) s
  | RGroup r1 =>
      rmatch r1 s
        (fun s1 =>
           let n := (String.length (ms_rest s) - String.length (ms_rest s1))%nat in
           k (MState (ms_prev s1) (ms_rest s1)
                (Some (JsString.take n (ms_rest s)))))
  | RWordB => if xorb (word_before s) (word_after s) then k s else None
  | REnd =>
      match ms_rest s with
      | EmptyString => k s
      | String _ _ => None
      end
  end.

(** A successful match: the text skipped before it, and the position after. *)
Record found : Type := Found {
  f_pre : string;
  f_end : mstate
}.

(** The leftmost match at or after the current position. *)
Fixpoint rexec (r : regex) (prev : option ascii) (s : string) : option found :=
  match rmatch r (MState prev s None) Some with
  | Some e => Some (Found EmptyString e)
  | None =>
      match s with
      | EmptyString => None
      | String c t =>
          match rexec r (Some c) t with
          | Some f => Some (Found (String c (f_pre f)) (f_end f))
          | None => None
          end
      end
  end.

(** [re.test(s)] and [s.match(re) !== null] for a regex without the g flag. *)
Definition rtest (r : regex) (s : string) : bool :=
  match rexec r None s with Some _ => true | None => false end.

(** [s.replace(re, repl)] for a regex with the g flag and a replacement
    without [$] patterns.  After an empty match the scan advances by one
    character, which is copied. *)
Fixpoint replace_from (fuel : nat) (r : regex) (repl : string)
    (prev : option ascii) (s : string) : string :=
  match fuel with
  | O => s
  | S fuel' =>
      match rexec r prev s with
      | None => s
      | Some f =>
          let rest := ms_rest (f_end f) in
          let after := JsString.drop (String.length (f_pre f)) s in
          if (String.length rest <? String.length after)%nat then
            f_pre f +:+ repl +:+ replace_from fuel' r repl (ms_prev (f_end f)) rest
          else
            match rest with
            | EmptyString => f_pre f +:+ repl
            | String c t =>
                f_pre f +:+ repl +:+ String c (replace_from fuel' r repl (Some c) t)
            end
      end
  end.

Definition replace_all (r : regex) (repl : string) (s : string) : string :=
  replace_from (S (String.length s)) r repl None s.

(** The loop [while ((m = re.exec(s)) !== null) { ... m[1] ... }] for a
    regex with the g flag: the texts of group 1 of the successive matches.
    None of the regexes scanned this way can match the empty string. *)
Fixpoint captures_from (fuel : nat) (r : regex)
    (prev : option ascii) (s : string) : list string :=
  match fuel with
  | O => []
  | S fuel' =>
      match rexec r prev s with
      | None => []
      | Some f =>
          let rest := ms_rest (f_end f) in
          let c := match ms_cap (f_end f) with Some c => c | None => EmptyString end in
          if (String.length rest <? String.length s)%nat then
            c :: captures_from fuel' r (ms_prev (f_end f)) rest
          else [c]
      end
  end.

Definition captures (r : regex) (s : string) : list string :=
  captures_from (S (String.length s)) r None s.

End Regex.

Import Regex.

(** ** The file system *)

Record Entry : Type := mkEntry {
  e_data : string;
  e_readable : bool;
  e_writable : bool
}.

Abbreviation FS := (gmap string Entry).

Module Fs.

(** [fs.existsSync(p)] *)
Definition existsSync (fs : FS) (p : string) : bool :=
  match fs !! p with Some _ => true | None => false end.

(** [fs.readFileSync(p, 'utf-8')]; [None] when it throws. *)
Definition readFileSync (fs : FS) (p : string) : option string :=
  match fs !! p with
  | Some e => if e_readable e then Some (e_data e) else None
  | None => None
  end.

(** [fs.writeFileSync(p, data)]; [None] when it throws. *)
Definition writeFileSync (fs : FS) (p : string) (data : string) : option FS :=
  match fs !! p with
  | Some e =>
      if e_writable e
      then Some (<[p := mkEntry data (e_readable e) true]> fs)
      else None
  | None => Some (<[p := mkEntry data true true]> fs)
  end.

End Fs.

(** ** Insertion-ordered sets of strings ([Set<string>]) *)

Module JsSet.

Definition t : Type := list string.

Definition empty : t := [].

Definition has (s : t) (x : string) : bool :=
  existsb (String.eqb x) s.

Definition add (x : string) (s : t) : t :=
  if has s x then s else s ++ [x].

End JsSet.

(** ** The syntax tree Babel hands to the visitor

    The node kinds the visitors of [parseCode] look at have a constructor of
    their own, with the members the visitors read and the children the
    traversal descends into (for an identifier its type annotation and its
    decorators, for a function its type parameters and return type); so do
    the two kinds of JSX names, which the traversal enters without calling
    the [Identifier] visitor.  The children of a JSX element are its opening
    element, its children proper and its closing element, in this order,
    and likewise for a fragment.  Every other kind is an [Other] node carrying
    its type and its children in traversal order.  The source of an import
    or export declaration, a string literal no visitor is keyed by, is kept
    as its value. *)

Module Ast.

Record Loc : Type := mkLoc { start_line : Z; start_column : Z }.

Inductive Node : Type :=
| Identifier (name : string) (typeAnnotation : option Node) (decorators : list Node)
| StringLiteral (value : string)
| ImportDeclaration (specifiers : list Node) (source : string) (attributes : list Node)
| ImportDefaultSpecifier (local : Node) (loc : option Loc)
| ImportNamespaceSpecifier (local : Node) (loc : option Loc)
| ImportSpecifier (imported local : Node) (loc : option Loc)
| ExportNamedDeclaration (declaration : option Node) (specifiers : list Node)
    (attributes : list Node)
| ExportSpecifier (local exported : Node)
| ExportDefaultDeclaration (declaration : Node)
| VariableDeclaration (declarations : list Node)
| VariableDeclarator (id : Node) (init : option Node)
| FunctionDeclaration (id : option Node) (typeParameters : option Node)
    (params : list Node) (returnType : option Node) (body : Node)
| ObjectProperty (key value : Node) (computed : bool) (decorators : list Node)
| MemberExpression (object property : Node) (computed : bool)
| JSXElement (children : list Node)
| JSXFragment (children : list Node)
| JSXMemberExpression (object property : Node)
| JSXIdentifier (name : string)
| Other (type : string) (children : list Node).

(** [node.type] *)
Definition node_type (n : Node) : string :=
  match n with
  | Identifier _ _ _ => "Identifier"
  | StringLiteral _ => "StringLiteral"
  | ImportDeclaration _ _ _ => "ImportDeclaration"
  | ImportDefaultSpecifier _ _ => "ImportDefaultSpecifier"
  | ImportNamespaceSpecifier _ _ => "ImportNamespaceSpecifier"
  | ImportSpecifier _ _ _ => "ImportSpecifier"
  | ExportNamedDeclaration _ _ _ => "ExportNamedDeclaration"
  | ExportSpecifier _ _ => "ExportSpecifier"
  | ExportDefaultDeclaration _ => "ExportDefaultDeclaration"
  | VariableDeclaration _ => "VariableDeclaration"
  | VariableDeclarator _ _ => "VariableDeclarator"
  | FunctionDeclaration _ _ _ _ _ => "FunctionDeclaration"
  | ObjectProperty _ _ _ _ => "ObjectProperty"
  | MemberExpression _ _ _ => "MemberExpression"
  | JSXElement _ => "JSXElement"
  | JSXFragment _ => "JSXFragment"
  | JSXMemberExpression _ _ => "JSXMemberExpression"
  | JSXIdentifier _ => "JSXIdentifier"
  | Other ty _ => ty
  end.

(** [node.name] of an identifier; the empty string stands for [undefined]. *)
Definition ident_name (n : Node) : string :=
  match n with Identifier x _ _ => x | _ => "" end.

Definition loc_line (l : option Loc) : Z :=
  match l with Some l => start_line l | None => 0%Z end.

Definition loc_column (l : option Loc) : Z :=
  match l with Some l => start_column l | None => 0%Z end.

End Ast.

Import Ast.

(** ** [src/parser.ts] *)

Record ImportInfo : Type := mkImportInfo {
  ii_name : string;
  ii_source : string;
  ii_line : Z;
  ii_column : Z;
  ii_isDefault : bool;
  ii_isNamespace : bool
}.

Record FileAnalysis : Type := mkFileAnalysis {
  imports : list ImportInfo;
  usedIdentifiers : JsSet.t;
  exports : JsSet.t;
  hasJSX : bool
}.

Record UnusedImport : Type := mkUnusedImport {
  ui_file : string;
  ui_line : Z;
  ui_column : Z;
  ui_importName : string;
  ui_source : string;
  ui_confidence : Q
}.

Inductive SourceType : Type := SourceModule | SourceUnambiguous.

Module Visitor.

Definition initial : FileAnalysis := mkFileAnalysis [] JsSet.empty JsSet.empty false.

Definition push_import (i : ImportInfo) (a : FileAnalysis) : FileAnalysis :=
  mkFileAnalysis (imports a ++ [i]) (usedIdentifiers a) (exports a) (hasJSX a).

Definition add_used (x : string) (a : FileAnalysis) : FileAnalysis :=
  mkFileAnalysis (imports a) (JsSet.add x (usedIdentifiers a)) (exports a) (hasJSX a).

Definition add_export (x : string) (a : FileAnalysis) : FileAnalysis :=
  mkFileAnalysis (imports a) (usedIdentifiers a) (JsSet.add x (exports a)) (hasJSX a).

Definition set_jsx (a : FileAnalysis) : FileAnalysis :=
  mkFileAnalysis (imports a) (usedIdentifiers a) (exports a) true.

(** The body of [path.node.specifiers.forEach] in the [ImportDeclaration]
    visitor. *)
Definition import_of_specifier (source : string) (specifier : Node)
    (a : FileAnalysis) : FileAnalysis :=
  let '(name, isDefault, isNamespace, loc) :=
    match specifier with
    | ImportDefaultSpecifier local loc => (ident_name local, true, false, loc)
    | ImportNamespaceSpecifier local loc => (ident_name local, false, true, loc)
    | ImportSpecifier _ local loc => (ident_name local, false, false, loc)
    | _ => ("", false, false, None)
    end in
  if JsString.truthy name
  then push_import
         (mkImportInfo name source (loc_line loc) (loc_column loc) isDefault isNamespace) a
  else a.

Definition visit_ImportDeclaration (n : Node) (a : FileAnalysis) : FileAnalysis :=
  match n with
  | ImportDeclaration specifiers source _ =>
      fold_left (fun a sp => import_of_specifier source sp a) specifiers a
  | _ => a
  end.

Definition export_of_declarator (decl : Node) (a : FileAnalysis) : FileAnalysis :=
  match decl with
  | VariableDeclarator (Identifier x _ _) _ => add_export x a
  | _ => a
  end.

Definition export_of_specifier (spec : Node) (a : FileAnalysis) : FileAnalysis :=
  match spec with
  | ExportSpecifier _ (Identifier x _ _) => add_export x a
  | ExportSpecifier _ (StringLiteral v) => add_export v a
  | _ => a
  end.

Definition visit_ExportNamedDeclaration (n : Node) (a : FileAnalysis) : FileAnalysis :=
  match n with
  | ExportNamedDeclaration declaration specifiers _ =>
      let a1 :=
        match declaration with
        | Some (VariableDeclaration declarations) =>
            fold_left (fun a d => export_of_declarator d a) declarations a
        | Some (FunctionDeclaration (Some i) _ _ _ _) => add_export (ident_name i) a
        | _ => a
        end in
      fold_left (fun a sp => export_of_specifier sp a) specifiers a1
  | _ => a
  end.

(** The two early returns of the [Identifier] visitor: [parent] is
    [path.parent] and [is_key] tells whether [path.parent.key === path.node]. *)
Definition skipped (parent : option Node) (is_key : bool) : bool :=
  match parent with
  | Some p =>
      (String.eqb (node_type p) "ImportSpecifier"
       || String.eqb (node_type p) "ImportDefaultSpecifier"
       || String.eqb (node_type p) "ImportNamespaceSpecifier")
      || match p with
         | ObjectProperty _ _ computed _ => is_key && negb computed
         | _ => false
         end
  | None => false
  end.

Definition visit_Identifier (parent : option Node) (is_key : bool)
    (n : Node) (a : FileAnalysis) : FileAnalysis :=
  match n with
  | Identifier name _ _ => if skipped parent is_key then a else add_used name a
  | _ => a
  end.

(** The visitor object handed to [traverse]: the callback keyed by the
    node's type runs when the node is entered. *)
Definition enter (parent : option Node) (is_key : bool)
    (n : Node) (a : FileAnalysis) : FileAnalysis :=
  match n with
  | ImportDeclaration _ _ _ => visit_ImportDeclaration n a
  | ExportNamedDeclaration _ _ _ => visit_ExportNamedDeclaration n a
  | ExportDefaultDeclaration _ => add_export "default" a
  | JSXElement _ => set_jsx a
  | JSXFragment _ => set_jsx a
  | Identifier _ _ _ => visit_Identifier parent is_key n a
  | _ => a
  end.

(** [traverse(ast, visitor)]: depth first, parents before children,
    children in field order. *)
Fixpoint traverse (parent : option Node) (is_key : bool)
    (n : Node) (a : FileAnalysis) {struct n} : FileAnalysis :=
  let a := enter parent is_key n a in
  let sub := fun c a => traverse (Some n) false c a in
  let subs := fun cs a => fold_left (fun a c => traverse (Some n) false c a) cs a in
  let subo := fun o a => match o with Some c => traverse (Some n) false c a | None => a end in
  match n with
  | Identifier _ typeAnnotation decorators => subs decorators (subo typeAnnotation a)
  | StringLiteral _ => a
  | ImportDeclaration specifiers _ attributes => subs attributes (subs specifiers a)
  | ImportDefaultSpecifier local _ => sub local a
  | ImportNamespaceSpecifier local _ => sub local a
  | ImportSpecifier imported local _ => sub local (sub imported a)
  | ExportNamedDeclaration declaration specifiers attributes =>
      subs attributes (subs specifiers (subo declaration a))
  | ExportSpecifier local exported => sub exported (sub local a)
  | ExportDefaultDeclaration declaration => sub declaration a
  | VariableDeclaration declarations => subs declarations a
  | VariableDeclarator id init => subo init (sub id a)
  | FunctionDeclaration id typeParameters params returnType body =>
      sub body (subo returnType (subs params (subo typeParameters (subo id a))))
  | ObjectProperty key value _ decorators =>
      subs decorators (sub value (traverse (Some n) true key a))
  | MemberExpression object property _ => sub property (sub object a)
  | JSXElement children => subs children a
  | JSXFragment children => subs children a
  | JSXMemberExpression object property => sub property (sub object a)
  | JSXIdentifier _ => a
  | Other _ children => subs children a
  end.

End Visitor.

Section Parser.

(** [parser.parse(code, { sourceType, plugins })]; [None] when it throws. *)
Variable babel_parse : string -> SourceType -> list string -> option Node.

(** The grammar extensions [parseCode] selects from the file name. *)
Definition pluginsFor (filePath : string) : list string :=
  let isTSX := JsString.endsWith filePath ".tsx" in
  let isTS := JsString.endsWith filePath ".ts" || isTSX in
  let isJSX := JsString.endsWith filePath ".jsx" || isTSX in
  ["classProperties"; "decorators-legacy"]
    ++ (if isTS then ["typescript"] else [])
    ++ (if isJSX || isTSX then ["jsx"] else []).

(** The two parse attempts of [parseCode]: as a module first, and on
    failure once more with the source type left to the parser. *)
Definition parseAst (code : string) (filePath : string) : option Node :=
  let plugins := pluginsFor filePath in
  match babel_parse code SourceModule plugins with
  | Some ast => Some ast
  | None => babel_parse code SourceUnambiguous plugins
  end.

(** [parseCode(code, filePath)]; [None] when it throws, which is when both
    parse attempts do. *)
Definition parseCode (code : string) (filePath : string) : option FileAnalysis :=
  match parseAst code filePath with
  | Some ast => Some (Visitor.traverse None false ast Visitor.initial)
  | None => None
  end.

(** [parseFile(filePath)]; [None] is [null]. *)
Definition parseFile (fs : FS) (filePath : string) : option FileAnalysis :=
  match Fs.readFileSync fs filePath with
  | Some content => parseCode content filePath
  | None => None
  end.

(** The three tests of [findUnusedImports] on one import. *)
Definition isUsed (analysis : FileAnalysis) (imp : ImportInfo) : bool :=
  let isUsed := JsSet.has (usedIdentifiers analysis) (ii_name imp) in
  let isUsed :=
    if String.eqb (ii_name imp) "React" && hasJSX analysis then true else isUsed in
  let isUsed :=
    if ii_isNamespace imp then
      if existsb (fun identifier => JsString.startsWith identifier (ii_name imp +:+ "."))
           (usedIdentifiers analysis)
      then true else isUsed
    else isUsed in
  isUsed.

Definition findUnusedImports (fs : FS) (filePath : string) : list UnusedImport :=
  match parseFile fs filePath with
  | None => []
  | Some analysis =>
      fold_left
        (fun unusedImports imp =>
           if negb (isUsed analysis imp) then
             unusedImports ++
               [mkUnusedImport filePath (ii_line imp) (ii_column imp)
                  (ii_name imp) (ii_source imp) (95 # 100)]
           else unusedImports)
        (imports analysis) []
  end.

(** [UnusedImportsDetector.detect]; [files] is what the glob returned. *)
Definition UnusedImportsDetector_detect (fs : FS) (files : list string)
    : list UnusedImport :=
  fold_left (fun all file => all ++ findUnusedImports fs file) files [].

End Parser.

(** ** Values shared by the detectors and the fixer ([src/types.ts]) *)

Inductive DependencyType : Type := dependency | devDependency | peerDependency.

Record UnusedDependency : Type := mkUnusedDependency {
  ud_name : string;
  ud_version : string;
  ud_type : DependencyType;
  ud_confidence : Q;
  ud_reason : string
}.

(** The fields of [AnalysisResult] the fixer reads. *)
Record AnalysisResult : Type := mkAnalysisResult {
  unusedImports : list UnusedImport;
  unusedDependencies : list UnusedDependency
}.

Record FixResult : Type := mkFixResult {
  success : bool;
  filesModified : list string;
  importsRemoved : nat;
  dependenciesRemoved : list string;
  errors : list string
}.

(** [a < b] on confidences. *)
Definition Qltb (a b : Q) : bool := negb (Qle_bool b a).

(** The safe-mode floor, the literal [0.8] of [src/fixer.ts]. *)
Definition floor : Q := 8 # 10.

(** What a [throw] carries. *)
Inductive exn : Type :=
| Error (message : string)
| SystemError (path : string)      (* thrown by the fs module *)
| SyntaxError.                     (* thrown by JSON.parse *)

Inductive result (A : Type) : Type :=
| Ok (a : A)
| Throw (e : exn).

Arguments Ok {A} a.
Arguments Throw {A} e.

(** ** Paths ([path.posix]) *)

Module Path.

(** One segment of [normalizeString]; [kept] holds the segments kept so
    far, the last one first.  An empty segment and [.] are dropped, [..]
    removes the segment before it, or is kept where there is none to remove
    and the path may climb above its start. *)
Definition push (allowAboveRoot : bool) (kept : list string) (segment : string)
    : list string :=
  if String.eqb segment "" || String.eqb segment "." then kept
  else if String.eqb segment ".." then
    match kept with
    | last :: kept' =>
        if String.eqb last ".." then (if allowAboveRoot then ".." :: kept else kept)
        else kept'
    | [] => if allowAboveRoot then [".."] else []
    end
  else segment :: kept.

(** [path.normalize(path)] *)
Definition normalize (path : string) : string :=
  if String.eqb path "" then "."
  else
    let isAbsolute := JsString.startsWith path "/" in
    let trailingSeparator := JsString.endsWith path "/" in
    let kept := fold_left (push (negb isAbsolute)) (JsString.split "/" path) [] in
    let path := JsString.join "/" (rev kept) in
    if String.eqb path "" then
      if isAbsolute then "/" else if trailingSeparator then "./" else "."
    else
      let path := if trailingSeparator then path +:+ "/" else path in
      if isAbsolute then "/" +:+ path else path.

(** [path.join(dir, name)]: the arguments that are not empty, joined by a
    separator and normalised. *)
Definition join (dir name : string) : string :=
  let joined :=
    if String.eqb dir "" then name
    else if String.eqb name "" then dir
    else dir +:+ "/" +:+ name in
  if String.eqb joined "" then "." else normalize joined.

End Path.

(** ** The manifest

    A [Record<string, string>] is the list of its own entries; the members
    of the manifest other than the three dependency maps are carried along
    untouched. *)

Abbreviation StringRecord := (list (string * string)).

Module Rec.

(** [record[key]] *)
Fixpoint get (r : StringRecord) (key : string) : option string :=
  match r with
  | [] => None
  | (k, v) :: r' => if String.eqb k key then Some v else get r' key
  end.

(** [delete record[key]] *)
Definition delete (key : string) (r : StringRecord) : StringRecord :=
  List.filter (fun kv => negb (String.eqb (fst kv) key)) r.

(** The names every object inherits from [Object.prototype]; each is bound
    there to a function or an object, which is truthy. *)
Definition inherited : list string :=
  ["constructor"; "__defineGetter__"; "__defineSetter__"; "hasOwnProperty";
   "__lookupGetter__"; "__lookupSetter__"; "isPrototypeOf";
   "propertyIsEnumerable"; "toString"; "valueOf"; "__proto__"; "toLocaleString"].

(** Truthiness of [record?.[key]], for an optional record: the value of the
    record's own entry when it has one, else what it inherits. *)
Definition truthy_at (r : option StringRecord) (key : string) : bool :=
  match r with
  | Some r =>
      match get r key with
      | Some v => JsString.truthy v
      | None => existsb (String.eqb key) inherited
      end
  | None => false
  end.

End Rec.

Record PackageJson : Type := mkPackageJson {
  pj_dependencies : option StringRecord;
  pj_devDependencies : option StringRecord;
  pj_peerDependencies : option StringRecord;
  pj_others : StringRecord
}.

(** ** [src/detectors/unused-dependencies.ts] *)

Module Scan.

Definition cat (rs : list regex) : regex := fold_right RSeq REmpty rs.

Definition ws_plus : regex := RPlus false ws.
Definition ws_star : regex := RStar false ws.

(** The quoted specifier common to the three patterns: a quote, group 1
    made of one or more characters that are not quotes, and a quote. *)
Definition specifier : list regex :=
  [quote; RGroup (RPlus false (RChar not_quote)); quote].

(** The pattern of an import-from statement: the word import, white
    space, as few characters of a line as possible, white space, the word
    from, white space and the quoted specifier. *)
Definition es6ImportRegex : regex :=
  cat ([RLit "import"; ws_plus; RStar true (RChar is_dot); ws_plus;
        RLit "from"; ws_plus] ++ specifier).

(** The pattern of a require call: the word require, optional white
    space, an opening parenthesis, optional white space, the quoted
    specifier, optional white space and a closing parenthesis. *)
Definition requireRegex : regex :=
  cat ([RLit "require"; ws_star; chr "("; ws_star] ++ specifier ++ [ws_star; chr ")"]).

(** The pattern of a dynamic import: as [requireRegex], on the word import. *)
Definition dynamicImportRegex : regex :=
  cat ([RLit "import"; ws_star; chr "("; ws_star] ++ specifier ++ [ws_star; chr ")"]).

End Scan.

(** Texts in which the scan is followed by hand. *)
Module Text.

(** The character before the position reached after reading [s]. *)
Fixpoint prev_after (prev : option ascii) (s : string) : option ascii :=
  match s with
  | EmptyString => prev
  | String c t => prev_after (Some c) t
  end.

(** Every character of [s] is in the class [p]. *)
Fixpoint all_chars (p : ascii -> bool) (s : string) : bool :=
  match s with
  | EmptyString => true
  | String c t => p c && all_chars p t
  end.

(** [t] is empty or starts outside the class [p]. *)
Definition stops (p : ascii -> bool) (t : string) : bool :=
  match t with
  | EmptyString => true
  | String c _ => negb (p c)
  end.

Definition no_space (c : ascii) : bool := negb (is_space c).

(** The statement [import x from 'spec'] followed by [rest]. *)
Definition importFrom (x spec rest : string) : string :=
  "import " +:+ x +:+ " from '" +:+ spec +:+ "'" +:+ rest.

End Text.

(** [extractPackageName(importPath)]; [None] is [null]. *)
Definition extractPackageName (importPath : string) : option string :=
  if JsString.startsWith importPath "." || JsString.startsWith importPath "/" then None
  else if JsString.startsWith importPath "@" then
    match JsString.split "/" importPath with
    | p0 :: p1 :: _ => Some (p0 +:+ "/" +:+ p1)
    | p0 :: [] => Some p0
    | [] => None
    end
  else
    match JsString.split "/" importPath with
    | p0 :: _ => Some p0
    | [] => None
    end.

(** One of the three [while] loops of [extractImports]. *)
Definition scan_with (r : regex) (content : string) (usedPackages : JsSet.t) : JsSet.t :=
  fold_left
    (fun used importPath =>
       match extractPackageName importPath with
       | Some packageName =>
           if JsString.truthy packageName then JsSet.add packageName used else used
       | None => used
       end)
    (captures r content) usedPackages.

(** [extractImports(content, usedPackages)] *)
Definition extractImports (content : string) (usedPackages : JsSet.t) : JsSet.t :=
  scan_with Scan.dynamicImportRegex content
    (scan_with Scan.requireRegex content
       (scan_with Scan.es6ImportRegex content usedPackages)).

(** [isPackageUsed(packageName, usedPackages)] *)
Definition isPackageUsed (packageName : string) (usedPackages : JsSet.t) : bool :=
  if JsSet.has usedPackages packageName then true
  else if JsString.includes packageName "/" then
    let basePackage := hd "" (JsString.split "/" packageName) in
    existsb (fun used => JsString.startsWith used (basePackage +:+ "/")) usedPackages
  else false.

Definition knownTools : list string :=
  ["typescript"; "eslint"; "prettier"; "webpack"; "vite"; "rollup"; "jest";
   "vitest"; "mocha"; "chai"; "@types/"; "ts-node"; "nodemon"; "rimraf";
   "cross-env"].

(** [isKnownToolPackage(name)] *)
Definition isKnownToolPackage (name : string) : bool :=
  existsb (fun tool => JsString.startsWith name tool || String.eqb name tool) knownTools.

Definition or_empty (r : option StringRecord) : StringRecord :=
  match r with Some r => r | None => [] end.

Section Manifest.

(** [JSON.parse] on the text of a manifest; [None] when it throws. *)
Variable JSON_parse : string -> option PackageJson.

(** The scan loop of [detect]: a file that cannot be read is passed over. *)
Definition scanFiles (fs : FS) (allFiles : list string) : JsSet.t :=
  fold_left
    (fun usedPackages file =>
       match Fs.readFileSync fs file with
       | Some content => extractImports content usedPackages
       | None => usedPackages
       end)
    allFiles JsSet.empty.

Definition checkDependencies (usedPackages : JsSet.t) (dependencies : StringRecord)
    (acc : list UnusedDependency) : list UnusedDependency :=
  fold_left
    (fun unused entry =>
       let '(name, version) := entry in
       if negb (isPackageUsed name usedPackages) then
         unused ++ [mkUnusedDependency name version dependency (85 # 100)
                      "Not imported in any source file"]
       else unused)
    dependencies acc.

Definition checkDevDependencies (usedPackages : JsSet.t) (devDependencies : StringRecord)
    (acc : list UnusedDependency) : list UnusedDependency :=
  fold_left
    (fun unused entry =>
       let '(name, version) := entry in
       if isKnownToolPackage name then unused
       else if negb (isPackageUsed name usedPackages) then
         unused ++ [mkUnusedDependency name version devDependency (75 # 100)
                      "Not imported in any source file"]
       else unused)
    devDependencies acc.

(** [UnusedDependenciesDetector.detect(projectRoot)]; [files] and
    [configFiles] are what the two globs returned. *)
Definition UnusedDependenciesDetector_detect (fs : FS) (projectRoot : string)
    (files configFiles : list string) : result (list UnusedDependency) :=
  let packageJsonPath := Path.join projectRoot "package.json" in
  if negb (Fs.existsSync fs packageJsonPath) then
    Throw (Error "package.json not found")
  else
    match Fs.readFileSync fs packageJsonPath with
    | None => Throw (SystemError packageJsonPath)
    | Some text =>
        match JSON_parse text with
        | None => Throw SyntaxError
        | Some packageJson =>
            let dependencies := or_empty (pj_dependencies packageJson) in
            let devDependencies := or_empty (pj_devDependencies packageJson) in
            let allFiles := files ++ configFiles in
            let usedPackages := scanFiles fs allFiles in
            Ok (checkDevDependencies usedPackages devDependencies
                  (checkDependencies usedPackages dependencies []))
        end
    end.

End Manifest.

(** ** [src/fixer.ts] *)

Record FixerOptions : Type := mkFixerOptions {
  safeMode : bool;
  requireTests : bool
}.

(** [new AutoFixer()] without options. *)
Definition defaultOptions : FixerOptions := mkFixerOptions true false.

Module Patterns.

(** A comma, optional white space, a comma. *)
Definition commaComma : regex := Scan.cat [chr ","; Scan.ws_star; chr ","].
(** A comma, optional white space, a closing brace. *)
Definition commaBrace : regex := Scan.cat [chr ","; Scan.ws_star; chr "}"].
(** An opening brace, optional white space, a comma. *)
Definition braceComma : regex := Scan.cat [chr "{"; Scan.ws_star; chr ","].
(** The word import, white space, empty braces, white space, the word from. *)
Definition emptyBraces : regex :=
  Scan.cat [RLit "import"; Scan.ws_plus; chr "{"; Scan.ws_star; chr "}";
            Scan.ws_plus; RLit "from"].
(** The word import, white space, the word from. *)
Definition importFrom : regex :=
  Scan.cat [RLit "import"; Scan.ws_plus; RLit "from"].

(** The source text of an identifier name read as a pattern: a dollar sign
    is the end-of-input assertion, every other character of an identifier
    name stands for itself. *)
Fixpoint ofName (name : string) : regex :=
  match name with
  | EmptyString => REmpty
  | String c t =>
      RSeq (if Ascii.eqb c "$" then REnd else chr c) (ofName t)
  end.

(** [new RegExp(`\\b${importName}\\b,?\\s*`, 'g')] *)
Definition nameRegex (importName : string) : regex :=
  Scan.cat [RWordB; ofName importName; RWordB; ROpt (chr ","); Scan.ws_star].

End Patterns.

(** [isOnlyImportOnLine(line, importName)] *)
Definition isOnlyImportOnLine (line importName : string) : bool :=
  let withoutImport :=
    replace_all Patterns.commaComma "," (JsString.replace_first importName "" line) in
  rtest Patterns.emptyBraces withoutImport || rtest Patterns.importFrom withoutImport.

(** [removeImportFromLine(line, importName)] *)
Definition removeImportFromLine (line importName : string) : string :=
  replace_all Patterns.commaComma ","
    (replace_all Patterns.braceComma "{ "
       (replace_all Patterns.commaBrace " }"
          (replace_all (Patterns.nameRegex importName) "" line))).

(** [Map<string, UnusedImport[]>], in insertion order. *)
Abbreviation ByFile := (list (string * list UnusedImport)).

(** [list = byFile.get(k) || []; list.push(v); byFile.set(k, list)] *)
Fixpoint byFile_push (k : string) (v : UnusedImport) (m : ByFile) : ByFile :=
  match m with
  | [] => [(k, [v])]
  | (k', l) :: m' =>
      if String.eqb k' k then (k', l ++ [v]) :: m'
      else (k', l) :: byFile_push k v m'
  end.

(** Whether the fixer passes over a finding of this confidence. *)
Definition skips (opts : FixerOptions) (confidence : Q) : bool :=
  safeMode opts && Qltb confidence floor.

(** The grouping loop of [fixUnusedImports]. *)
Definition groupByFile (opts : FixerOptions) (imps : list UnusedImport) : ByFile :=
  fold_left
    (fun byFile imp =>
       if skips opts (ui_confidence imp) then byFile
       else byFile_push (ui_file imp) imp byFile)
    imps [].

(** [imports.sort((a, b) => b.line - a.line)]: a stable sort, larger lines
    first. *)
Fixpoint insertDesc (x : UnusedImport) (l : list UnusedImport) : list UnusedImport :=
  match l with
  | [] => [x]
  | y :: l' =>
      if (ui_line x <? ui_line y)%Z then y :: insertDesc x l'
      else x :: y :: l'
  end.

Definition sortDesc (l : list UnusedImport) : list UnusedImport :=
  fold_right insertDesc [] l.

(** [lines.splice(i, 1)] *)
Definition splice1 (i : nat) (lines : list string) : list string :=
  firstn i lines ++ skipn (S i) lines.

(** The state of the loop over one file's findings: the lines, the
    [modified] flag and the running [importsRemoved]. *)
Record EditState : Type := mkEditState {
  es_lines : list string;
  es_modified : bool;
  es_removed : nat
}.

(** The body of [for (const imp of sortedImports)]. *)
Definition applyImport (st : EditState) (imp : UnusedImport) : EditState :=
  let lineIndex := (ui_line imp - 1)%Z in
  if (0 <=? lineIndex)%Z && (lineIndex <? Z.of_nat (length (es_lines st)))%Z then
    match nth_error (es_lines st) (Z.to_nat lineIndex) with
    | Some line =>
        if JsString.includes line (ui_importName imp)
           && JsString.includes line (ui_source imp) then
          if isOnlyImportOnLine line (ui_importName imp) then
            mkEditState (splice1 (Z.to_nat lineIndex) (es_lines st)) true
              (S (es_removed st))
          else
            let newLine := removeImportFromLine line (ui_importName imp) in
            if negb (String.eqb newLine line) then
              mkEditState (<[Z.to_nat lineIndex := newLine]> (es_lines st)) true
                (S (es_removed st))
            else st
        else st
    | None => st
    end
  else st.

Definition set_importsRemoved (n : nat) (r : FixResult) : FixResult :=
  mkFixResult (success r) (filesModified r) n (dependenciesRemoved r) (errors r).

Definition push_file (f : string) (r : FixResult) : FixResult :=
  mkFixResult (success r) (filesModified r ++ [f]) (importsRemoved r)
    (dependenciesRemoved r) (errors r).

Definition push_dependency (d : string) (r : FixResult) : FixResult :=
  mkFixResult (success r) (filesModified r) (importsRemoved r)
    (dependenciesRemoved r ++ [d]) (errors r).

Definition push_error (e : string) (r : FixResult) : FixResult :=
  mkFixResult (success r) (filesModified r) (importsRemoved r)
    (dependenciesRemoved r) (errors r ++ [e]).

Definition set_failed (r : FixResult) : FixResult :=
  mkFixResult false (filesModified r) (importsRemoved r)
    (dependenciesRemoved r) (errors r).

(** The file system together with the [fixResult] object under construction. *)
Abbreviation World := (FS * FixResult)%type.

(** The body of [for (const [filePath, imports] of byFile.entries())]: the
    counter is advanced as lines are edited, before the write is attempted. *)
Definition fixFile (w : World) (group : string * list UnusedImport) : World :=
  let '(fs, fixResult) := w in
  let '(filePath, imports) := group in
  let failed := push_error ("Failed to fix imports in " +:+ filePath) in
  match Fs.readFileSync fs filePath with
  | None => (fs, failed fixResult)
  | Some content =>
      let lines := JsString.split JsString.newline content in
      let sortedImports := sortDesc imports in
      let st :=
        fold_left applyImport sortedImports
          (mkEditState lines false (importsRemoved fixResult)) in
      let fixResult := set_importsRemoved (es_removed st) fixResult in
      if es_modified st then
        match Fs.writeFileSync fs filePath (JsString.join "
" (es_lines st)) with
        | Some fs' => (fs', push_file filePath fixResult)
        | None => (fs, failed fixResult)
        end
      else (fs, fixResult)
  end.

(** [fixUnusedImports(result, fixResult)] *)
Definition fixUnusedImports (opts : FixerOptions) (result : AnalysisResult)
    (w : World) : World :=
  fold_left fixFile (groupByFile opts (unusedImports result)) w.

Definition set_dependencies (d : option StringRecord) (p : PackageJson) : PackageJson :=
  mkPackageJson d (pj_devDependencies p) (pj_peerDependencies p) (pj_others p).

Definition set_devDependencies (d : option StringRecord) (p : PackageJson) : PackageJson :=
  mkPackageJson (pj_dependencies p) d (pj_peerDependencies p) (pj_others p).

(** The state of [result.unusedDependencies.forEach]: the manifest in
    memory, the [modified] flag and the names pushed so far. *)
Record DepState : Type := mkDepState {
  ds_packageJson : PackageJson;
  ds_modified : bool;
  ds_removed : list string
}.

(** The body of [result.unusedDependencies.forEach]. *)
Definition applyDependency (opts : FixerOptions) (st : DepState)
    (dep : UnusedDependency) : DepState :=
  let packageJson := ds_packageJson st in
  if skips opts (ud_confidence dep) then st
  else
    match ud_type dep with
    | dependency =>
        if Rec.truthy_at (pj_dependencies packageJson) (ud_name dep) then
          mkDepState
            (set_dependencies
               (option_map (Rec.delete (ud_name dep)) (pj_dependencies packageJson))
               packageJson)
            true (ds_removed st ++ [ud_name dep])
        else st
    | devDependency =>
        if Rec.truthy_at (pj_devDependencies packageJson) (ud_name dep) then
          mkDepState
            (set_devDependencies
               (option_map (Rec.delete (ud_name dep)) (pj_devDependencies packageJson))
               packageJson)
            true (ds_removed st ++ [ud_name dep])
        else st
    | peerDependency => st
    end.

Definition set_dependenciesRemoved (l : list string) (r : FixResult) : FixResult :=
  mkFixResult (success r) (filesModified r) (importsRemoved r) l (errors r).

(** [rollback(files)]: the method only prints a warning. *)
Definition rollback (fs : FS) (files : list string) : FS := fs.

(** [runTests()] as the source has it: the method answers [true]. *)
Definition runTests_stub (fs : FS) : bool := true.

Section Fixer.

Variable JSON_parse : string -> option PackageJson.
Variable JSON_stringify : PackageJson -> string.

(** The test-runner collaborator behind [runTests()]. *)
Variable runTests : FS -> bool.

(** [process.cwd()] *)
Variable cwd : string.

(** [fixUnusedDependencies(result, fixResult)]: names are pushed as the
    entries are deleted in memory, before the write is attempted. *)
Definition fixUnusedDependencies (opts : FixerOptions) (result : AnalysisResult)
    (w : World) : World :=
  let '(fs, fixResult) := w in
  let packageJsonPath := Path.join cwd "package.json" in
  let failed := push_error "Failed to fix dependencies in package.json" in
  match Fs.readFileSync fs packageJsonPath with
  | None => (fs, failed fixResult)
  | Some text =>
      match JSON_parse text with
      | None => (fs, failed fixResult)
      | Some packageJson =>
          let st :=
            fold_left (applyDependency opts) (unusedDependencies result)
              (mkDepState packageJson false (dependenciesRemoved fixResult)) in
          let fixResult := set_dependenciesRemoved (ds_removed st) fixResult in
          if ds_modified st then
            match Fs.writeFileSync fs packageJsonPath
                    (JSON_stringify (ds_packageJson st) +:+ "
") with
            | Some fs' => (fs', push_file packageJsonPath fixResult)
            | None => (fs, failed fixResult)
            end
          else (fs, fixResult)
      end
  end.

(** [fix(result)]: the file system after the call and the returned
    [FixResult]. *)
Definition AutoFixer_fix (opts : FixerOptions) (result : AnalysisResult) (fs : FS) : World :=
  let fixResult := mkFixResult true [] 0 [] [] in
  let w := fixUnusedImports opts result (fs, fixResult) in
  let '(fs, fixResult) := fixUnusedDependencies opts result w in
  if requireTests opts && (0 <? length (filesModified fixResult))%nat then
    let testsPass := runTests fs in
    if negb testsPass then
      let fixResult := push_error "Tests failed after cleanup" (set_failed fixResult) in
      (rollback fs (filesModified fixResult), fixResult)
    else (fs, fixResult)
  else (fs, fixResult).

End Fixer.

(** ** Reading a syntax tree

    The vocabulary in which the properties of the extractor are stated: the
    sequence of visits a traversal makes, and what a file contains. *)

Module Tree.

(** One call of a visitor: the node, [path.parent], and whether the node
    is [path.parent.key]. *)
Record Visit : Type := mkVisit {
  v_parent : option Node;
  v_is_key : bool;
  v_node : Node
}.

Definition opt_list (o : option Node) : list Node :=
  match o with Some c => [c] | None => [] end.

Definition plain (cs : list Node) : list (bool * Node) := map (pair false) cs.

(** The children of a node in traversal order, the key of an object
    property marked. *)
Definition children (n : Node) : list (bool * Node) :=
  match n with
  | Identifier _ typeAnnotation decorators => plain (opt_list typeAnnotation ++ decorators)
  | StringLiteral _ => []
  | ImportDeclaration specifiers _ attributes => plain (specifiers ++ attributes)
  | ImportDefaultSpecifier local _ => plain [local]
  | ImportNamespaceSpecifier local _ => plain [local]
  | ImportSpecifier imported local _ => plain [imported; local]
  | ExportNamedDeclaration declaration specifiers attributes =>
      plain (opt_list declaration ++ specifiers ++ attributes)
  | ExportSpecifier local exported => plain [local; exported]
  | ExportDefaultDeclaration declaration => plain [declaration]
  | VariableDeclaration declarations => plain declarations
  | VariableDeclarator id init => plain (id :: opt_list init)
  | FunctionDeclaration id typeParameters params returnType body =>
      plain (opt_list id ++ opt_list typeParameters ++ params
               ++ opt_list returnType ++ [body])
  | ObjectProperty key value _ decorators =>
      (true, key) :: (false, value) :: plain decorators
  | MemberExpression object property _ => plain [object; property]
  | JSXElement cs => plain cs
  | JSXFragment cs => plain cs
  | JSXMemberExpression object property => plain [object; property]
  | JSXIdentifier _ => []
  | Other _ cs => plain cs
  end.

(** Every visit of the traversal of [n], in order. *)
Fixpoint nodes (parent : option Node) (is_key : bool) (n : Node)
    {struct n} : list Visit :=
  let sub := fun c => nodes (Some n) false c in
  let subs := fun cs => flat_map (fun c => nodes (Some n) false c) cs in
  let subo := fun o => match o with Some c => nodes (Some n) false c | None => [] end in
  mkVisit parent is_key n ::
  match n with
  | Identifier _ typeAnnotation decorators => subo typeAnnotation ++ subs decorators
  | StringLiteral _ => []
  | ImportDeclaration specifiers _ attributes => subs specifiers ++ subs attributes
  | ImportDefaultSpecifier local _ => sub local
  | ImportNamespaceSpecifier local _ => sub local
  | ImportSpecifier imported local _ => sub imported ++ sub local
  | ExportNamedDeclaration declaration specifiers attributes =>
      subo declaration ++ subs specifiers ++ subs attributes
  | ExportSpecifier local exported => sub local ++ sub exported
  | ExportDefaultDeclaration declaration => sub declaration
  | VariableDeclaration declarations => subs declarations
  | VariableDeclarator id init => sub id ++ subo init
  | FunctionDeclaration id typeParameters params returnType body =>
      subo id ++ subo typeParameters ++ subs params ++ subo returnType ++ sub body
  | ObjectProperty key value _ decorators =>
      nodes (Some n) true key ++ sub value ++ subs decorators
  | MemberExpression object property _ => sub object ++ sub property
  | JSXElement cs => subs cs
  | JSXFragment cs => subs cs
  | JSXMemberExpression object property => sub object ++ sub property
  | JSXIdentifier _ => []
  | Other _ cs => subs cs
  end.

(** The visits of a whole tree. *)
Definition visits (ast : Node) : list Visit := nodes None false ast.

(** The visitor applied to one visit. *)
Definition step (a : FileAnalysis) (v : Visit) : FileAnalysis :=
  Visitor.enter (v_parent v) (v_is_key v) (v_node v) a.

Definition is_import_specifier (n : Node) : bool :=
  match n with
  | ImportDefaultSpecifier _ _ => true
  | ImportNamespaceSpecifier _ _ => true
  | ImportSpecifier _ _ _ => true
  | _ => false
  end.

Definition is_import_declaration (n : Node) : bool :=
  match n with ImportDeclaration _ _ _ => true | _ => false end.

Definition is_identifier (x : string) (n : Node) : bool :=
  match n with Identifier y _ _ => String.eqb y x | _ => false end.

(** The file contains a member access [x.p] or [x[p]], or the optional
    [x?.p] or [x?.[p]], whose node has its object as first child. *)
Definition hasMemberAccess (x : string) (ast : Node) : bool :=
  existsb
    (fun v =>
       match v_node v with
       | MemberExpression object _ _ => is_identifier x object
       | Other type (object :: _) =>
           String.eqb type "OptionalMemberExpression" && is_identifier x object
       | _ => false
       end)
    (visits ast).

(** The file contains a JSX element name [<x.p>], whose object is a
    [JSXIdentifier]. *)
Definition hasJSXMemberAccess (x : string) (ast : Node) : bool :=
  existsb
    (fun v =>
       match v_node v with
       | JSXMemberExpression (JSXIdentifier y) _ => String.eqb y x
       | _ => false
       end)
    (visits ast).

(** The file mentions the identifier [x] somewhere other than as the name
    bound or named by an import specifier. *)
Definition refers (x : string) (ast : Node) : bool :=
  existsb
    (fun v =>
       is_identifier x (v_node v) &&
       negb (match v_parent v with
             | Some p => is_import_specifier p
             | None => false
             end))
    (visits ast).

(** Identifier names are names: none contains a dot. *)
Definition validNames (ast : Node) : bool :=
  forallb
    (fun v =>
       match v_node v with
       | Identifier x _ _ => negb (JsString.includes x ".")
       | _ => true
       end)
    (visits ast).

(** The import declarations of the file, in source order. *)
Definition importDeclarations (ast : Node) : list Node :=
  List.filter is_import_declaration (map v_node (visits ast)).

(** The file declares the namespace import [import * as x from source]. *)
Definition hasNamespaceImport (x source : string) (loc : option Loc) (ast : Node) : Prop :=
  exists specifiers attributes local,
    In (ImportDeclaration specifiers source attributes) (importDeclarations ast) /\
    In (ImportNamespaceSpecifier local loc) specifiers /\
    is_identifier x local = true.

(** What the [ImportDeclaration] visitor records for one node. *)
Definition declared (n : Node) : list ImportInfo :=
  imports (Visitor.visit_ImportDeclaration n Visitor.initial).

(** The number of nodes of a tree. *)
Fixpoint size (n : Node) : nat :=
  let subs := fun cs => list_sum (map size cs) in
  let subo := fun o => match o with Some c => size c | None => 0 end in
  S match n with
    | Identifier _ typeAnnotation decorators => subo typeAnnotation + subs decorators
    | StringLiteral _ => 0
    | ImportDeclaration specifiers _ attributes => subs specifiers + subs attributes
    | ImportDefaultSpecifier local _ => size local
    | ImportNamespaceSpecifier local _ => size local
    | ImportSpecifier imported local _ => size imported + size local
    | ExportNamedDeclaration declaration specifiers attributes =>
        subo declaration + subs specifiers + subs attributes
    | ExportSpecifier local exported => size local + size exported
    | ExportDefaultDeclaration declaration => size declaration
    | VariableDeclaration declarations => subs declarations
    | VariableDeclarator id init => size id + subo init
    | FunctionDeclaration id typeParameters params returnType body =>
        subo id + subo typeParameters + subs params + subo returnType + size body
    | ObjectProperty key value _ decorators => size key + size value + subs decorators
    | MemberExpression object property _ => size object + size property
    | JSXElement cs => subs cs
    | JSXFragment cs => subs cs
    | JSXMemberExpression object property => size object + size property
    | JSXIdentifier _ => 0
    | Other _ cs => subs cs
    end.

End Tree.

(** The finding [findUnusedImports] pushes for an unused import. *)
Definition finding (filePath : string) (imp : ImportInfo) : UnusedImport :=
  mkUnusedImport filePath (ii_line imp) (ii_column imp) (ii_name imp)
    (ii_source imp) (95 # 100).

(** The findings [detect] pushes for an unused entry of each map. *)
Definition dependencyFinding (entry : string * string) : UnusedDependency :=
  mkUnusedDependency (fst entry) (snd entry) dependency (85 # 100)
    "Not imported in any source file".

Definition devDependencyFinding (entry : string * string) : UnusedDependency :=
  mkUnusedDependency (fst entry) (snd entry) devDependency (75 # 100)
    "Not imported in any source file".

(** Whether a read of the file succeeds. *)
Definition readable (fs : FS) (file : string) : bool :=
  match Fs.readFileSync fs file with Some _ => true | None => false end.

(** The findings of a result that safe mode lets through: those not below
    the floor. *)
Definition aboveFloor (r : AnalysisResult) : AnalysisResult :=
  mkAnalysisResult
    (List.filter (fun i => negb (Qltb (ui_confidence i) floor)) (unusedImports r))
    (List.filter (fun d => negb (Qltb (ud_confidence d) floor)) (unusedDependencies r)).

(** The manifest in memory once [fixUnusedDependencies] has gone through the
    findings. *)
Definition manifestAfter (opts : FixerOptions) (deps : list UnusedDependency)
    (p : PackageJson) : PackageJson :=
  ds_packageJson (fold_left (applyDependency opts) deps (mkDepState p false [])).

(** The names of a record of the manifest. *)
Definition names (r : option StringRecord) : list string := map fst (or_empty r).


(** ** Worked inputs

    Small files, their syntax trees as Babel builds them, and the worlds the
    statements below are tried on. *)

Module Samples.

Definition file (statements : list Node) : Node :=
  Other "File" [Other "Program" statements].

Definition call (callee : Node) (args : list Node) : Node :=
  Other "ExpressionStatement" [Other "CallExpression" (callee :: args)].

(** [import * as utils from './utils'] on line 1. *)
Definition importUtils : Node :=
  ImportDeclaration
    [ImportNamespaceSpecifier (Identifier "utils" None []) (Some (mkLoc 1 7))] "./utils" [].

Definition nsUsedCode : string :=
  "import * as utils from './utils'
utils.format(1)".

Definition nsUsedAst : Node :=
  file [importUtils;
        call (MemberExpression (Identifier "utils" None []) (Identifier "format" None []) false)
          [Other "NumericLiteral" []]].

Definition nsUnusedCode : string :=
  "import * as utils from './utils'
console.log(1)".

Definition nsUnusedAst : Node :=
  file [importUtils;
        call (MemberExpression (Identifier "console" None []) (Identifier "log" None []) false)
          [Other "NumericLiteral" []]].

(** The namespace import used as a JSX element name only. *)
Definition nsJsxCode : string :=
  "import * as utils from './utils'
const el = <utils.Foo />".

Definition nsJsxAst : Node :=
  file [importUtils;
        VariableDeclaration
          [VariableDeclarator (Identifier "el" None [])
             (Some (JSXElement
                      [Other "JSXOpeningElement"
                         [JSXMemberExpression (JSXIdentifier "utils")
                            (JSXIdentifier "Foo")]]))]].

(** [import unused from 'pkg'] on line 1, then a call of [foo]. *)
Definition aCode : string :=
  "import unused from 'pkg'
foo()".

Definition aAst : Node :=
  file [ImportDeclaration
          [ImportDefaultSpecifier (Identifier "unused" None []) (Some (mkLoc 1 7))] "pkg" [];
        call (Identifier "foo" None []) []].

Definition aFixedAst : Node := file [call (Identifier "foo" None []) []].

Definition bCode : string :=
  "import { gone } from 'lib'
bar()".

(** A parser that knows the files of this module. *)
Definition parse (code : string) (st : SourceType) (plugins : list string)
    : option Node :=
  if String.eqb code nsUsedCode then Some nsUsedAst
  else if String.eqb code nsUnusedCode then Some nsUnusedAst
  else if String.eqb code aCode then Some aAst
  else if String.eqb code "foo()" then Some aFixedAst
  else if String.eqb code nsJsxCode then Some nsJsxAst
  else None.

Definition plainFile (data : string) : Entry := mkEntry data true true.

Definition nsFs : FS :=
  <["/p/src/used.js" := plainFile nsUsedCode]>
    (<["/p/src/unused.js" := plainFile nsUnusedCode]> ∅).

Definition nsJsxFs : FS := <["/p/src/el.jsx" := plainFile nsJsxCode]> ∅.

(** A rendering of manifests, standing for [JSON.stringify]. *)
Definition quoted (x : string) : string :=
  String JsString.dquote (x +:+ String JsString.dquote EmptyString).

Definition member (kv : string * string) : string :=
  quoted (fst kv) +:+ ":" +:+ quoted (snd kv).

Definition object (members : list string) : string :=
  "{" +:+ JsString.join "," members +:+ "}".

Definition section (name : string) (r : option StringRecord) : list string :=
  match r with
  | Some r => [quoted name +:+ ":" +:+ object (map member r)]
  | None => []
  end.

Definition stringify (p : PackageJson) : string :=
  object (section "dependencies" (pj_dependencies p)
            ++ section "devDependencies" (pj_devDependencies p)
            ++ section "peerDependencies" (pj_peerDependencies p)
            ++ map member (pj_others p)).

(** A manifest declaring [@babel/core], which no file imports. *)
Definition babelManifest : PackageJson :=
  mkPackageJson (Some [("@babel/core", "^7.0.0")]) None None [("name", "app")].

(** A manifest declaring [lodash] twice and a peer dependency. *)
Definition lodashManifest : PackageJson :=
  mkPackageJson (Some [("lodash", "^4.17.0")])
    (Some [("lodash", "^4.17.0"); ("left-pad", "1.3.0")])
    (Some [("react", "^18.0.0")]) [("name", "lib")].

(** The inverse of [stringify] on the manifests of this module, standing
    for [JSON.parse]. *)
Definition parseManifest (text : string) : option PackageJson :=
  if String.eqb text (stringify babelManifest) then Some babelManifest
  else if String.eqb text (stringify lodashManifest) then Some lodashManifest
  else None.

Definition babelFs : FS :=
  <["/p/package.json" := plainFile (stringify babelManifest)]>
    (<["/p/src/index.js" := plainFile "import x from '@babel/parser'"]>
       (<["/p/src/locked.js" := mkEntry "import y from 'lodash'" false true]> ∅)).

(** The same manifest beside a file that loads the sibling package for
    its effect only. *)
Definition bareFs : FS :=
  <["/p/package.json" := plainFile (stringify babelManifest)]>
    (<["/p/src/index.js" := plainFile "import '@babel/parser'"]> ∅).

(** The same manifest beside a file that imports the sibling package
    after a comment and uses it. *)
Definition headedCode : string :=
  "// entry
import x from '@babel/parser'
x.parse()".

Definition headedFs : FS :=
  <["/p/package.json" := plainFile (stringify babelManifest)]>
    (<["/p/src/index.js" := plainFile headedCode]> ∅).

(** Two files with one unused import each, and a manifest. *)
Definition twoFs : FS :=
  <["/p/src/a.js" := plainFile aCode]>
    (<["/p/src/b.js" := plainFile bCode]>
       (<["/p/package.json" := plainFile (stringify babelManifest)]> ∅)).

Definition aFinding : UnusedImport :=
  mkUnusedImport "/p/src/a.js" 1 7 "unused" "pkg" (95 # 100).

Definition bFinding : UnusedImport :=
  mkUnusedImport "/p/src/b.js" 1 9 "gone" "lib" (95 # 100).

Definition lowImport : UnusedImport :=
  mkUnusedImport "/p/src/a.js" 1 7 "unused" "pkg" (5 # 10).

Definition lowDependency : UnusedDependency :=
  mkUnusedDependency "@babel/core" "^7.0.0" dependency (5 # 10) "unsure".

(** A file with sole imports on lines 3 and 7. *)
Definition linesCode : string :=
  "// header

import a from 'x'
const k = 1

// more
import { b } from 'y'
run(k)".

Definition linesFs : FS := <["/p/src/l.js" := plainFile linesCode]> ∅.

Definition line3 : UnusedImport :=
  mkUnusedImport "/p/src/l.js" 3 7 "a" "x" (95 # 100).

Definition line7 : UnusedImport :=
  mkUnusedImport "/p/src/l.js" 7 9 "b" "y" (95 # 100).

(** Two findings of one line: [import { a, b } from 'x']. *)
Definition sameLineA : UnusedImport :=
  mkUnusedImport "/p/src/s.js" 1 9 "a" "x" (95 # 100).

Definition sameLineB : UnusedImport :=
  mkUnusedImport "/p/src/s.js" 1 12 "b" "x" (95 # 100).


Definition lodashFs : FS :=
  <["/p/package.json" := plainFile (stringify lodashManifest)]>
    (<["/p/src/index.js" := plainFile "console.log(1)"]> ∅).

End Samples.

(** ** More of the sources

    The functions of the cited files the statements above do not reach, the
    analyzer that calls the detectors, the complexity analyzer and the path
    shortening of the console reporter. *)

(** What a file contains, continued. *)
Module Occurs.

Import Tree.

Definition is_jsx (n : Node) : bool :=
  match n with
  | JSXElement _ => true
  | JSXFragment _ => true
  | _ => false
  end.

(** The file has a JSX element or fragment. *)
Definition hasJSXNode (ast : Node) : bool :=
  existsb (fun v => is_jsx (v_node v)) (visits ast).

(** The file has an identifier [x] at a position the [Identifier] visitor
    does not return early from. *)
Definition counted (x : string) (ast : Node) : bool :=
  existsb
    (fun v => is_identifier x (v_node v)
              && negb (Visitor.skipped (v_parent v) (v_is_key v)))
    (visits ast).

(** The imports a file declares, one per specifier with a name, in source
    order. *)
Definition declaredImports (ast : Node) : list ImportInfo :=
  flat_map declared (importDeclarations ast).

End Occurs.

(** [UnusedImportsDetector.groupByFile(unusedImports)] *)
Definition UnusedImportsDetector_groupByFile (unusedImports : list UnusedImport) : ByFile :=
  fold_left (fun grouped imp => byFile_push (ui_file imp) imp grouped) unusedImports [].

Record ImportStats : Type := mkImportStats {
  affectedFiles : nat;
  totalUnused : nat;
  estimatedSizeReduction : nat
}.

(** [UnusedImportsDetector.getStats(unusedImports)] *)
Definition UnusedImportsDetector_getStats (unusedImports : list UnusedImport) : ImportStats :=
  let grouped := UnusedImportsDetector_groupByFile unusedImports in
  mkImportStats (length grouped) (length unusedImports) (length unusedImports * 1).

Definition DependencyType_eqb (a b : DependencyType) : bool :=
  match a, b with
  | dependency, dependency => true
  | devDependency, devDependency => true
  | peerDependency, peerDependency => true
  | _, _ => false
  end.

Record DependencyStats : Type := mkDependencyStats {
  st_totalUnused : nat;
  st_unusedDependencies : nat;
  st_unusedDevDependencies : nat
}.

(** [UnusedDependenciesDetector.getStats(unusedDeps)] *)
Definition UnusedDependenciesDetector_getStats (unusedDeps : list UnusedDependency)
    : DependencyStats :=
  let deps := List.filter (fun d => DependencyType_eqb (ud_type d) dependency) unusedDeps in
  let devDeps :=
    List.filter (fun d => DependencyType_eqb (ud_type d) devDependency) unusedDeps in
  mkDependencyStats (length unusedDeps) (length deps) (length devDeps).

(** More worked inputs. *)
Module Cases.

(** [import React from 'react'] and a JSX element, [React] never named. *)
Definition jsxAst : Node :=
  Samples.file
    [ImportDeclaration
       [ImportDefaultSpecifier (Identifier "React" None []) (Some (mkLoc 1 7))] "react" [];
     Other "ExpressionStatement" [JSXElement [Other "JSXOpeningElement" []]]].

Definition jsxCode : string :=
  "import React from 'react'
<div/>".

(** [import foo from 'm'] and the object literal [({ foo: 1 })]. *)
Definition keyAst : Node :=
  Samples.file
    [ImportDeclaration
       [ImportDefaultSpecifier (Identifier "foo" None []) (Some (mkLoc 1 7))] "m" [];
     Other "ExpressionStatement"
       [Other "ObjectExpression"
          [ObjectProperty (Identifier "foo" None []) (Other "NumericLiteral" []) false []]]].

Definition keyCode : string :=
  "import foo from 'm'
({ foo: 1 })".

(** [import { Foo } from './t'] and [const a: Foo = 1]: the name occurs in
    the type annotation of the declared identifier only. *)
Definition typedAst : Node :=
  Samples.file
    [ImportDeclaration
       [ImportSpecifier (Identifier "Foo" None []) (Identifier "Foo" None [])
          (Some (mkLoc 1 9))] "./t" [];
     VariableDeclaration
       [VariableDeclarator
          (Identifier "a"
             (Some (Other "TSTypeAnnotation"
                      [Other "TSTypeReference" [Identifier "Foo" None []]])) [])
          (Some (Other "NumericLiteral" []))]].

Definition typedCode : string :=
  "import { Foo } from './t'
const a: Foo = 1".

Definition parse (code : string) (st : SourceType) (plugins : list string)
    : option Node :=
  if String.eqb code jsxCode then Some jsxAst
  else if String.eqb code keyCode then Some keyAst
  else if String.eqb code typedCode then Some typedAst
  else Samples.parse code st plugins.

Definition typedFs : FS := <["/p/src/typed.ts" := Samples.plainFile typedCode]> ∅.

Definition fs : FS :=
  <["/p/src/view.jsx" := Samples.plainFile jsxCode]>
    (<["/p/src/key.js" := Samples.plainFile keyCode]>
       (<["/p/src/broken.js" := Samples.plainFile "import {"]>
          (<["/p/src/a.js" := Samples.plainFile Samples.aCode]> ∅))).

End Cases.

Module Cases2.

(** A manifest with tools among its devDependencies and a tool among its
    dependencies. *)
Definition toolsManifest : PackageJson :=
  mkPackageJson (Some [("eslint", "^8.0.0"); ("lodash", "^4.17.0")])
    (Some [("eslint-plugin-react", "^7.0.0"); ("@types/node", "^20.0.0");
           ("left-pad", "1.3.0")])
    None [("name", "app")].

Definition parseManifest (text : string) : option PackageJson :=
  if String.eqb text (Samples.stringify toolsManifest) then Some toolsManifest
  else Samples.parseManifest text.

Definition toolsFs : FS :=
  <["/p/package.json" := Samples.plainFile (Samples.stringify toolsManifest)]>
    (<["/p/src/index.js" := Samples.plainFile "const _ = require('lodash/fp')"]> ∅).

End Cases2.

(** The guard of the loop body of [fixUnusedImports]: the finding's line
    exists and mentions both the name and the source. *)
Definition applicable (lines : list string) (imp : UnusedImport) : bool :=
  let lineIndex := (ui_line imp - 1)%Z in
  (0 <=? lineIndex)%Z && (lineIndex <? Z.of_nat (length lines))%Z &&
  match nth_error lines (Z.to_nat lineIndex) with
  | Some line =>
      JsString.includes line (ui_importName imp)
      && JsString.includes line (ui_source imp)
  | None => false
  end.

(** The finding is about a readable file on whose text the guard fails. *)
Definition stale (fs : FS) (imp : UnusedImport) : bool :=
  match Fs.readFileSync fs (ui_file imp) with
  | Some content => negb (applicable (JsString.split JsString.newline content) imp)
  | None => false
  end.

(** The names the dependencies pass deletes from one map of the manifest:
    those of the findings of that kind it does not pass over, whose entry is
    there with a version that is not the empty string. *)
Definition deleted (opts : FixerOptions) (kind : DependencyType)
    (r : option StringRecord) (deps : list UnusedDependency) : list string :=
  map ud_name
    (List.filter
       (fun d => negb (skips opts (ud_confidence d))
                 && DependencyType_eqb (ud_type d) kind
                 && Rec.truthy_at r (ud_name d))
       deps).

(** A map of the manifest without the entries of some names. *)
Definition without (gone : list string) (r : option StringRecord) : option StringRecord :=
  option_map (List.filter (fun kv => negb (existsb (String.eqb (fst kv)) gone))) r.

(** What the loop of the dependencies pass keeps true, [done] being the
    findings gone through and [st] its state: each map of the manifest is
    the original one without the names deleted so far, the names pushed are
    the names deleted, and the flag tells whether any was. *)
Definition manifestInvariant (opts : FixerOptions) (pj : PackageJson)
    (done : list UnusedDependency) (st : DepState) : Prop :=
  pj_dependencies (ds_packageJson st)
  = without (deleted opts dependency (pj_dependencies pj) done) (pj_dependencies pj) /\
  pj_devDependencies (ds_packageJson st)
  = without (deleted opts devDependency (pj_devDependencies pj) done)
      (pj_devDependencies pj) /\
  (forall n, In n (ds_removed st) <->
             In n (deleted opts dependency (pj_dependencies pj) done) \/
             In n (deleted opts devDependency (pj_devDependencies pj) done)) /\
  (ds_modified st = true <-> ds_removed st <> []).

Module Cases3.

(** A manifest with an unused dependency, a used one and an unused
    devDependency, and the manifest the safe-mode fixer leaves. *)
Definition before : PackageJson :=
  mkPackageJson (Some [("lodash", "^4.17.0"); ("react", "^18.0.0")])
    (Some [("left-pad", "1.3.0")]) None [("name", "app")].

Definition fixed : PackageJson :=
  mkPackageJson (Some [("react", "^18.0.0")])
    (Some [("left-pad", "1.3.0")]) None [("name", "app")].

Definition parseManifest (text : string) : option PackageJson :=
  if String.eqb text (Samples.stringify before) then Some before
  else if String.eqb text (Samples.stringify fixed +:+ "
") then Some fixed
  else None.

Definition fs : FS :=
  <["/p/package.json" := Samples.plainFile (Samples.stringify before)]>
    (<["/p/src/index.js" := Samples.plainFile "import React from 'react'"]> ∅).

(** The same project with one more source file, which imports [lodash] and
    cannot be read. *)
Definition lockedFs : FS :=
  <["/p/src/locked.js" := mkEntry "import _ from 'lodash'" false true]> fs.

End Cases3.

(** ** [src/analyzers/complexity.ts] *)

Record CodeComplexity : Type := mkCodeComplexity {
  cc_file : string;
  cc_complexity : nat;
  cc_loc : nat;
  cc_functions : nat
}.

Module Complexity.

(** The syntax tree as the complexity visitor sees it: the type of a node,
    whether [node.test !== null], and the children in traversal order. *)
Inductive Tree : Type :=
| T (type : string) (hasTest : bool) (children : list Tree).

Definition oneOf (x : string) (l : list string) : bool := existsb (String.eqb x) l.

Definition decisionPoints : list string :=
  ["IfStatement"; "ForStatement"; "WhileStatement"; "DoWhileStatement";
   "ConditionalExpression"; "LogicalExpression"; "CatchClause"].

Definition functionKinds : list string :=
  ["FunctionDeclaration"; "FunctionExpression"; "ArrowFunctionExpression"].

(** The two counters of [analyzeFile]. *)
Record Counters : Type := mkCounters {
  complexity : nat;
  functions : nat
}.

(** The visitor object of [analyzeFile], applied to a node on entry. *)
Definition enter (type : string) (hasTest : bool) (c : Counters) : Counters :=
  if oneOf type decisionPoints then mkCounters (S (complexity c)) (functions c)
  else if String.eqb type "SwitchCase" then
    if hasTest then mkCounters (S (complexity c)) (functions c) else c
  else if oneOf type functionKinds then
    mkCounters (S (complexity c)) (S (functions c))
  else c.

(** [traverse(ast, visitor)] *)
Fixpoint traverse (n : Tree) (c : Counters) {struct n} : Counters :=
  match n with
  | T type hasTest children =>
      fold_left (fun c child => traverse child c) children (enter type hasTest c)
  end.

(** [b.complexity - a.complexity] as the order of a stable sort: larger
    complexities first. *)
Fixpoint insertByComplexity (x : CodeComplexity) (l : list CodeComplexity)
    : list CodeComplexity :=
  match l with
  | [] => [x]
  | y :: l' =>
      if (cc_complexity x <? cc_complexity y)%nat then y :: insertByComplexity x l'
      else x :: y :: l'
  end.

Definition sortByComplexity (l : list CodeComplexity) : list CodeComplexity :=
  fold_right insertByComplexity [] l.

(** [this.config.complexityThreshold || 10] *)
Definition thresholdOf (complexityThreshold : option Q) : Q :=
  match complexityThreshold with
  | Some q => if Qeq_bool q 0 then 10 # 1 else q
  | None => 10 # 1
  end.

(** [getHotspots(complexities)] *)
Definition getHotspots (complexityThreshold : option Q) (complexities : list CodeComplexity)
    : list CodeComplexity :=
  let threshold := thresholdOf complexityThreshold in
  List.filter (fun c => Qltb threshold (inject_Z (Z.of_nat (cc_complexity c)))) complexities.

Record Stats : Type := mkStats {
  s_totalFiles : nat;
  s_averageComplexity : nat;
  s_maxComplexity : nat;
  s_totalLOC : nat;
  s_hotspots : nat
}.

(** [Math.round(a / b)] for counts [a] and [0 < b]: the nearest integer,
    halves upwards. *)
Definition roundDiv (a b : nat) : nat := ((2 * a + b) / (2 * b))%nat.

(** [getStats(complexities)] *)
Definition getStats (complexityThreshold : option Q) (complexities : list CodeComplexity)
    : Stats :=
  match complexities with
  | [] => mkStats 0 0 0 0 0
  | _ :: _ =>
      let totalComplexity := fold_left (fun sum c => sum + cc_complexity c)%nat complexities 0%nat in
      let totalLOC := fold_left (fun sum c => sum + cc_loc c)%nat complexities 0%nat in
      let maxComplexity := fold_right Nat.max 0%nat (map cc_complexity complexities) in
      let hotspots := length (getHotspots complexityThreshold complexities) in
      mkStats (length complexities) (roundDiv totalComplexity (length complexities))
        maxComplexity totalLOC hotspots
  end.

Section Analyze.

(** [parser.parse(content, { sourceType, plugins })], its result seen by
    the complexity visitor; [None] when it throws. *)
Variable babel_parse : string -> SourceType -> list string -> option Tree.

(** [analyzeFile(filePath)]; [None] is [null]. *)
Definition analyzeFile (fs : FS) (filePath : string) : option CodeComplexity :=
  match Fs.readFileSync fs filePath with
  | None => None
  | Some content =>
      let loc := length (JsString.split JsString.newline content) in
      let plugins := pluginsFor filePath in
      let ast :=
        match babel_parse content SourceModule plugins with
        | Some ast => Some ast
        | None => babel_parse content SourceUnambiguous plugins
        end in
      match ast with
      | None => None
      | Some ast =>
          let c := traverse ast (mkCounters 0 0) in
          Some (mkCodeComplexity filePath (complexity c) loc (functions c))
      end
  end.

(** The loop of [analyze]: the results of the files that could be analysed,
    in the order of the files. *)
Definition analyzeEach (fs : FS) (files : list string) : list CodeComplexity :=
  fold_left
    (fun results file =>
       match analyzeFile fs file with
       | Some complexity => results ++ [complexity]
       | None => results
       end)
    files [].

(** [analyze(projectRoot)]; [files] is what the glob returned. *)
Definition analyze (fs : FS) (files : list string) : list CodeComplexity :=
  sortByComplexity (analyzeEach fs files).

End Analyze.

End Complexity.

(** ** [ConsoleReporter.shortenPath] *)

(** [shortenPath(filePath)], [cwd] being [process.cwd()]. *)
Definition shortenPath (cwd filePath : string) : string :=
  if JsString.startsWith filePath cwd
  then JsString.drop (String.length cwd + 1) filePath
  else filePath.


(** ** Views of the complexity analysis used to state its properties *)

Module Counted.
Import Complexity.

(** The nodes of a tree in the order [traverse] enters them. *)
Fixpoint nodes (n : Tree) {struct n} : list (string * bool) :=
  match n with
  | T type hasTest children => (type, hasTest) :: flat_map nodes children
  end.

(** The nodes that add to the complexity, and those that are functions. *)
Definition scored (n : string * bool) : bool :=
  oneOf (fst n) decisionPoints
  || (String.eqb (fst n) "SwitchCase" && snd n)
  || oneOf (fst n) functionKinds.

Definition isFunction (n : string * bool) : bool := oneOf (fst n) functionKinds.

Definition count (p : string * bool -> bool) (n : Tree) : nat :=
  length (List.filter p (nodes n)).

(** Larger complexities first. *)
Definition descending (a b : CodeComplexity) : Prop :=
  (cc_complexity b <= cc_complexity a)%nat.

Definition ofComplexity (k : nat) (c : CodeComplexity) : bool :=
  Nat.eqb (cc_complexity c) k.

(** A file with a loop over keys, a method, a default case and two scored
    nodes. *)
Definition loopAst : Tree :=
  T "File" false
    [T "Program" false
       [T "FunctionDeclaration" false
          [T "ForInStatement" false [T "IfStatement" true []];
           T "SwitchStatement" false
             [T "SwitchCase" true []; T "SwitchCase" false []]];
        T "ClassMethod" false []]].

Definition parse (code : string) (st : SourceType) (plugins : list string)
    : option Tree :=
  if String.eqb code "loop" then Some loopAst
  else if String.eqb code "flat
file" then Some (T "File" false [T "Program" false []])
  else None.

Definition fs : FS :=
  <["/p/src/loop.js" := mkEntry "loop" true true]>
    (<["/p/src/flat.js" := mkEntry "flat
file" true true]>
       (<["/p/src/bad.js" := mkEntry "(" true true]> ∅)).

End Counted.


(** ** [src/analyzer.ts] *)

Record UnusedExport : Type := mkUnusedExport {
  ue_file : string;
  ue_line : Z;
  ue_exportName : string;
  ue_isDefault : bool;
  ue_confidence : Q
}.

Record UnusedFile : Type := mkUnusedFile {
  uf_path : string;
  uf_size : Z;
  uf_lastModified : Z;
  uf_confidence : Q;
  uf_reason : string
}.

(** The whole [AnalysisResult] of [src/types.ts]; the fixer reads its
    first two members only. *)
Record Report : Type := mkReport {
  r_unusedImports : list UnusedImport;
  r_unusedDependencies : list UnusedDependency;
  r_unusedExports : list UnusedExport;
  r_unusedFiles : list UnusedFile;
  r_complexity : list CodeComplexity;
  r_totalFiles : nat;
  r_totalImports : nat;
  r_totalDependencies : nat;
  r_estimatedBundleSizeReduction : nat;
  r_estimatedCleanupTime : nat
}.

Definition forFixer (r : Report) : AnalysisResult :=
  mkAnalysisResult (r_unusedImports r) (r_unusedDependencies r).

(** The two members of the configuration that [Analyzer.analyze] reads. *)
Record AnalyzerConfig : Type := mkAnalyzerConfig {
  analyzeUnusedImports : bool;
  analyzeUnusedDependencies : bool
}.

(** [Math.ceil(n / 10)] for a count [n]. *)
Definition ceilTenth (n : nat) : nat := ((n + 9) / 10)%nat.

Section Analyzer.

(** The parser, as the import visitor and as the complexity visitor see its
    result, and [JSON.parse]. *)
Variable babel_parse : string -> SourceType -> list string -> option Ast.Node.
Variable complexity_parse : string -> SourceType -> list string -> option Complexity.Tree.
Variable JSON_parse : string -> option PackageJson.

(** [Analyzer.analyze()]; the three globs over the source directory return
    [files], the glob over the project root [configFiles]. *)
Definition Analyzer_analyze (config : AnalyzerConfig) (fs : FS) (projectRoot : string)
    (files configFiles : list string) : result Report :=
  let unusedImports :=
    if analyzeUnusedImports config
    then UnusedImportsDetector_detect babel_parse fs files
    else [] in
  match
    (if analyzeUnusedDependencies config
     then UnusedDependenciesDetector_detect JSON_parse fs projectRoot files configFiles
     else Ok [])
  with
  | Throw e => Throw e
  | Ok unusedDependencies =>
      let complexity := Complexity.analyze complexity_parse fs files in
      Ok (mkReport unusedImports unusedDependencies [] [] complexity
            (length complexity) (length unusedImports) (length unusedDependencies)
            (length unusedImports * 1 + length unusedDependencies * 50)
            (ceilTenth (length unusedImports) + length unusedDependencies * 2))
  end.

End Analyzer.

(** ** The [clean] command of [src/cli.ts] *)

Record CleanOptions : Type := mkCleanOptions {
  interactive : bool;
  safe : bool;
  verifyTests : bool;
  dryRun : bool
}.

(** How the command ends. *)
Inductive CleanOutcome : Type :=
| AnalysisFailed (e : exn)          (* [process.exit(1)] *)
| NothingFound
| Cancelled
| DryRunComplete
| Fixed (fixResult : FixResult).

Section Cli.

Variable babel_parse : string -> SourceType -> list string -> option Ast.Node.
Variable complexity_parse : string -> SourceType -> list string -> option Complexity.Tree.
Variable JSON_parse : string -> option PackageJson.
Variable JSON_stringify : PackageJson -> string.
Variable runTests : FS -> bool.

(** The action of [clean]; [proceed] is the answer to the prompt and [cwd]
    is [process.cwd()], the root of the analyzer and of the fixer. *)
Definition clean (config : AnalyzerConfig) (options : CleanOptions) (proceed : bool)
    (cwd : string) (files configFiles : list string) (fs : FS) : FS * CleanOutcome :=
  match Analyzer_analyze babel_parse complexity_parse JSON_parse config fs cwd
          files configFiles with
  | Throw e => (fs, AnalysisFailed e)
  | Ok result =>
      if Nat.eqb (length (r_unusedImports result)) 0
         && Nat.eqb (length (r_unusedDependencies result)) 0
      then (fs, NothingFound)
      else
        let shouldProceed := if interactive options then proceed else true in
        if negb shouldProceed then (fs, Cancelled)
        else if negb (dryRun options) then
          let after :=
            AutoFixer_fix JSON_parse JSON_stringify runTests cwd
              (mkFixerOptions (safe options) (verifyTests options))
              (forFixer result) fs in
          (fst after, Fixed (snd after))
        else (fs, DryRunComplete)
  end.

End Cli.


Module Cases4.

(** The report on [Cases.fs], which has no manifest, with dependency
    analysis switched off. *)
Definition importsOnly : AnalyzerConfig := mkAnalyzerConfig true false.

Definition everything : AnalyzerConfig := mkAnalyzerConfig true true.

Definition files : list string := ["/p/src/key.js"; "/p/src/broken.js"].

Definition report : Report :=
  mkReport [mkUnusedImport "/p/src/key.js" 1 7 "foo" "m" (95 # 100)] [] [] [] []
    0 1 0 1 1.

End Cases4.


(** ** [src/config.ts] *)

Module Config.

Inductive Framework : Type :=
| React | Vue | Angular | Svelte | NextJs | Nuxt | UnknownFramework.

Inductive BuildTool : Type :=
| Webpack | Vite | Rollup | Parcel | Esbuild | UnknownBuildTool.

Inductive PackageManager : Type :=
| Npm | Yarn | Pnpm | Bun | UnknownPackageManager.

Inductive OutputFormat : Type := Text | Json | Html.

Record CodeGuardianConfig : Type := mkCodeGuardianConfig {
  framework : option Framework;
  buildTool : option BuildTool;
  packageManager : option PackageManager;
  srcDir : string;
  exclude : list string;
  include : list string;
  analyzeUnusedImports : bool;
  analyzeUnusedDependencies : bool;
  analyzeUnusedExports : bool;
  analyzeUnusedFiles : bool;
  analyzeUnusedCSS : bool;
  safeMode : bool;
  requireTests : bool;
  autoFix : bool;
  verbose : bool;
  outputFormat : OutputFormat;
  complexityThreshold : Q;
  confidenceThreshold : Q
}.

Definition DEFAULT_CONFIG : CodeGuardianConfig :=
  mkCodeGuardianConfig None None None
    "src"
    ["node_modules"; "dist"; "build"; "coverage"; ".next"; ".nuxt"]
    ["**/*.{ts,tsx,js,jsx,vue,svelte}"]
    true true true false false
    true false false
    false Text
    (10 # 1) (8 # 10).

Record ProjectInfo : Type := mkProjectInfo {
  name : string;
  version : string;
  pi_framework : Framework;
  pi_buildTool : BuildTool;
  pi_packageManager : PackageManager;
  hasTests : bool;
  testFramework : option string
}.

(** [{ ...a, ...b }] for two optional records: the keys of [a] in their
    order, with the value [b] gives them if it has one, then the keys that
    only [b] has. *)
Definition spread (a b : option StringRecord) : StringRecord :=
  map (fun kv =>
         (fst kv,
          match Rec.get (or_empty b) (fst kv) with
          | Some v => v
          | None => snd kv
          end))
      (or_empty a)
  ++ List.filter
       (fun kv =>
          match Rec.get (or_empty a) (fst kv) with
          | Some _ => false
          | None => true
          end)
       (or_empty b).

(** Truthiness of [deps[key]]. *)
Definition has (deps : StringRecord) (key : string) : bool :=
  Rec.truthy_at (Some deps) key.

(** [files.includes(name)] *)
Definition includes (files : list string) (name : string) : bool :=
  existsb (String.eqb name) files.

(** [value || fallback] for an optional string member. *)
Definition orElse (value : option string) (fallback : string) : string :=
  match value with
  | Some v => if JsString.truthy v then v else fallback
  | None => fallback
  end.

Section Manager.

Variable JSON_parse : string -> option PackageJson.

(** [fs.readdirSync(dir)]; [None] when it throws. *)
Variable readdirSync : FS -> string -> option (list string).

(** [JSON.stringify(config, null, 2)] *)
Variable JSON_stringify : CodeGuardianConfig -> string.

(** [detectFramework()] *)
Definition detectFramework (fs : FS) (projectRoot : string) : Framework :=
  let packageJsonPath := Path.join projectRoot "package.json" in
  if negb (Fs.existsSync fs packageJsonPath) then UnknownFramework
  else
    match Fs.readFileSync fs packageJsonPath with
    | None => UnknownFramework
    | Some text =>
        match JSON_parse text with
        | None => UnknownFramework
        | Some packageJson =>
            let deps :=
              spread (pj_dependencies packageJson) (pj_devDependencies packageJson) in
            if has deps "next" || has deps "next/core" then NextJs
            else if has deps "nuxt" then Nuxt
            else if has deps "react" then React
            else if has deps "vue" then Vue
            else if has deps "@angular/core" then Angular
            else if has deps "svelte" then Svelte
            else UnknownFramework
        end
    end.

(** [detectBuildTool()] *)
Definition detectBuildTool (fs : FS) (projectRoot : string) : result BuildTool :=
  match readdirSync fs projectRoot with
  | None => Throw (SystemError projectRoot)
  | Some files =>
      Ok (if includes files "vite.config.js" || includes files "vite.config.ts"
          then Vite
          else if includes files "webpack.config.js" || includes files "webpack.config.ts"
          then Webpack
          else if includes files "rollup.config.js" || includes files "rollup.config.ts"
          then Rollup
          else if includes files ".parcelrc" then Parcel
          else if includes files "esbuild.config.js" then Esbuild
          else UnknownBuildTool)
  end.

(** [detectPackageManager()] *)
Definition detectPackageManager (fs : FS) (projectRoot : string) : result PackageManager :=
  match readdirSync fs projectRoot with
  | None => Throw (SystemError projectRoot)
  | Some files =>
      Ok (if includes files "pnpm-lock.yaml" then Pnpm
          else if includes files "yarn.lock" then Yarn
          else if includes files "bun.lockb" then Bun
          else if includes files "package-lock.json" then Npm
          else Npm)
  end.

(** [detectTestFramework()]; [None] is [undefined]. *)
Definition detectTestFramework (fs : FS) (projectRoot : string) : option string :=
  let packageJsonPath := Path.join projectRoot "package.json" in
  if negb (Fs.existsSync fs packageJsonPath) then None
  else
    match Fs.readFileSync fs packageJsonPath with
    | None => None
    | Some text =>
        match JSON_parse text with
        | None => None
        | Some packageJson =>
            let deps :=
              spread (pj_dependencies packageJson) (pj_devDependencies packageJson) in
            if has deps "jest" then Some "jest"
            else if has deps "vitest" then Some "vitest"
            else if has deps "mocha" then Some "mocha"
            else if has deps "@playwright/test" then Some "playwright"
            else if has deps "cypress" then Some "cypress"
            else None
        end
    end.

(** [getProjectInfo()] *)
Definition getProjectInfo (fs : FS) (projectRoot : string) : result ProjectInfo :=
  let packageJsonPath := Path.join projectRoot "package.json" in
  let named :=
    if Fs.existsSync fs packageJsonPath then
      match Fs.readFileSync fs packageJsonPath with
      | None => ("unknown", "0.0.0")
      | Some text =>
          match JSON_parse text with
          | None => ("unknown", "0.0.0")
          | Some packageJson =>
              (orElse (Rec.get (pj_others packageJson) "name") "unknown",
               orElse (Rec.get (pj_others packageJson) "version") "0.0.0")
          end
      end
    else ("unknown", "0.0.0") in
  let testFramework := detectTestFramework fs projectRoot in
  let framework := detectFramework fs projectRoot in
  match detectBuildTool fs projectRoot with
  | Throw e => Throw e
  | Ok buildTool =>
      match detectPackageManager fs projectRoot with
      | Throw e => Throw e
      | Ok packageManager =>
          Ok (mkProjectInfo (fst named) (snd named) framework buildTool packageManager
                match testFramework with Some _ => true | None => false end
                testFramework)
      end
  end.

(** The configuration [initConfig] writes for a project. *)
Definition configFor (projectInfo : ProjectInfo) : CodeGuardianConfig :=
  mkCodeGuardianConfig
    (Some (pi_framework projectInfo))
    (Some (pi_buildTool projectInfo))
    (Some (pi_packageManager projectInfo))
    (srcDir DEFAULT_CONFIG) (exclude DEFAULT_CONFIG) (include DEFAULT_CONFIG)
    (analyzeUnusedImports DEFAULT_CONFIG) (analyzeUnusedDependencies DEFAULT_CONFIG)
    (analyzeUnusedExports DEFAULT_CONFIG) (analyzeUnusedFiles DEFAULT_CONFIG)
    (analyzeUnusedCSS DEFAULT_CONFIG)
    (safeMode DEFAULT_CONFIG) (requireTests DEFAULT_CONFIG) (autoFix DEFAULT_CONFIG)
    (verbose DEFAULT_CONFIG) (outputFormat DEFAULT_CONFIG)
    (complexityThreshold DEFAULT_CONFIG) (confidenceThreshold DEFAULT_CONFIG).

(** [initConfig()]: the file system it leaves, or what it throws. *)
Definition initConfig (fs : FS) (projectRoot : string) : result FS :=
  let configPath := Path.join projectRoot ".codeguardianrc.json" in
  if Fs.existsSync fs configPath then Throw (Error "Config file already exists")
  else
    match getProjectInfo fs projectRoot with
    | Throw e => Throw e
    | Ok projectInfo =>
        let config := configFor projectInfo in
        match Fs.writeFileSync fs configPath (JSON_stringify config) with
        | None => Throw (SystemError configPath)
        | Some fs' => Ok fs'
        end
    end.

End Manager.

(** A project root listing and a printer for the examples. *)
Definition listing (fs : FS) (dir : string) : option (list string) :=
  if String.eqb dir "/p" then Some ["src"; "yarn.lock"; "vite.config.ts"] else None.

Definition print (c : CodeGuardianConfig) : string := "{}".

End Config.

(** * Properties *)

(** ** The traversal as a fold over its visits *)

Import Tree.

Lemma flat_map_plain {B : Type} (f : bool -> Node -> list B) (cs : list Node) :
  flat_map (fun kc => f (fst kc) (snd kc)) (plain cs) = flat_map (f false) cs.
Proof.
  unfold plain. induction cs as [|c cs IH]; simpl; [reflexivity|].
  now rewrite IH.
Qed.

Lemma fold_left_plain {B : Type} (f : B -> bool -> Node -> B) (cs : list Node) (b : B) :
  fold_left (fun b kc => f b (fst kc) (snd kc)) (plain cs) b
  = fold_left (fun b c => f b false c) cs b.
Proof.
  unfold plain. revert b. induction cs as [|c cs IH]; intros b; simpl; [reflexivity|].
  now rewrite IH.
Qed.

Lemma size_in (cs : list Node) (c : Node) :
  In c cs -> (size c <= list_sum (map size cs))%nat.
Proof.
  induction cs as [|d cs IH]; simpl; [intros []|].
  intros [->|Hin]; [lia|]. specialize (IH Hin). lia.
Qed.

Lemma size_child (n : Node) (kc : bool * Node) :
  In kc (children n) -> (size (snd kc) < size n)%nat.
Proof.
  assert (Hl : forall cs : list Node,
             In kc (plain cs) -> (size (snd kc) <= list_sum (map size cs))%nat).
  { intros cs Hin. unfold plain in Hin. apply in_map_iff in Hin.
    destruct Hin as [c [<- Hc]]. now apply size_in. }
  destruct n; cbn [children]; intros Hin;
    try (apply Hl in Hin; revert Hin; cbn [size]; rewrite ?map_app, ?list_sum_app;
         repeat match goal with o : option Node |- _ => destruct o end;
         simpl; lia).
  - destruct Hin.
  - destruct Hin as [<-|[<-|Hin]]; [simpl; lia|simpl; lia|].
    apply Hl in Hin. simpl. lia.
  - destruct Hin.
Qed.

(** Induction on a tree through its children. *)
Lemma children_ind (P : Node -> Prop) :
  (forall n, (forall kc, In kc (children n) -> P (snd kc)) -> P n) ->
  forall n, P n.
Proof.
  intros H n.
  remember (size n) as k eqn:Hk. revert n Hk.
  induction k as [k IH] using lt_wf_ind. intros n ->.
  apply H. intros kc Hin. apply (IH (size (snd kc))); [|reflexivity].
  now apply size_child.
Qed.

Lemma nodes_eq (p : option Node) (k : bool) (n : Node) :
  nodes p k n
  = mkVisit p k n :: flat_map (fun kc => nodes (Some n) (fst kc) (snd kc)) (children n).
Proof.
  destruct n; cbn [nodes children]; f_equal;
    rewrite ?(flat_map_plain (fun k c => nodes (Some _) k c)), ?flat_map_app;
    repeat match goal with o : option Node |- _ => destruct o end;
    simpl; rewrite ?app_nil_r;
    rewrite ?(flat_map_plain (fun k c => nodes (Some _) k c)); reflexivity.
Qed.

Lemma traverse_eq (p : option Node) (k : bool) (n : Node) (a : FileAnalysis) :
  Visitor.traverse p k n a
  = fold_left (fun a kc => Visitor.traverse (Some n) (fst kc) (snd kc) a)
      (children n) (Visitor.enter p k n a).
Proof.
  destruct n; cbn [Visitor.traverse children];
    rewrite ?(fold_left_plain (fun a k c => Visitor.traverse (Some _) k c a)),
            ?fold_left_app;
    repeat match goal with o : option Node |- _ => destruct o end;
    simpl;
    rewrite ?(fold_left_plain (fun a k c => Visitor.traverse (Some _) k c a));
    reflexivity.
Qed.

(** The traversal applies the visitor to the visits in order. *)
Lemma traverse_nodes (n : Node) :
  forall p k a, Visitor.traverse p k n a = fold_left step (nodes p k n) a.
Proof.
  induction n as [n IH] using children_ind. intros p k a.
  rewrite traverse_eq, nodes_eq. cbn [fold_left]. unfold step at 2. cbn [v_parent v_is_key v_node].
  generalize (Visitor.enter p k n a) as b.
  induction (children n) as [|kc cs IHcs]; intros b; simpl; [reflexivity|].
  rewrite fold_left_app, <- IH by (now left).
  apply IHcs. intros kc' Hin. apply IH. now right.
Qed.

(** ** Sets and folds *)

Lemma has_In (s : JsSet.t) (x : string) : JsSet.has s x = true <-> In x s.
Proof.
  unfold JsSet.has. rewrite existsb_exists. split.
  - intros [y [Hy Heq]]. apply String.eqb_eq in Heq. now subst.
  - intros Hin. exists x. split; [assumption|apply String.eqb_refl].
Qed.

Lemma add_In (x y : string) (s : JsSet.t) : In x (JsSet.add y s) <-> x = y \/ In x s.
Proof.
  unfold JsSet.add. destruct (JsSet.has s y) eqn:Hh.
  - apply has_In in Hh. split; [now right|]. intros [->|H]; assumption.
  - rewrite in_app_iff. simpl. split; [intros [H|[H|[]]]|intros [H|H]]; auto.
Qed.

(** A loop that pushes [f x] for the elements passing a test builds the
    filtered map. *)
Lemma fold_left_push {A B : Type} (c : A -> bool) (f : A -> B) (l : list A) :
  forall acc,
    fold_left (fun acc x => if c x then acc ++ [f x] else acc) l acc
    = acc ++ map f (List.filter c l).
Proof.
  induction l as [|x l IH]; intros acc; simpl; [now rewrite app_nil_r|].
  rewrite IH. destruct (c x); simpl; [rewrite <- app_assoc|]; reflexivity.
Qed.

(** ** What the visitor records *)

Lemma import_of_specifier_used (source : string) (sp : Node) (a : FileAnalysis) :
  usedIdentifiers (Visitor.import_of_specifier source sp a) = usedIdentifiers a.
Proof.
  unfold Visitor.import_of_specifier.
  destruct sp; simpl; try reflexivity;
    match goal with |- context [JsString.truthy ?x] => destruct (JsString.truthy x) end;
    reflexivity.
Qed.

Lemma import_of_specifier_imports (source : string) (sp : Node) (a : FileAnalysis) :
  imports (Visitor.import_of_specifier source sp a)
  = imports a ++ imports (Visitor.import_of_specifier source sp Visitor.initial).
Proof.
  unfold Visitor.import_of_specifier.
  destruct sp; simpl; try (now rewrite app_nil_r);
    match goal with |- context [JsString.truthy ?x] => destruct (JsString.truthy x) end;
    simpl; now rewrite ?app_nil_r.
Qed.

Lemma visit_ImportDeclaration_used (n : Node) (a : FileAnalysis) :
  usedIdentifiers (Visitor.visit_ImportDeclaration n a) = usedIdentifiers a.
Proof.
  destruct n; simpl; try reflexivity.
  revert a. induction specifiers as [|sp sps IH]; intros a; simpl; [reflexivity|].
  now rewrite IH, import_of_specifier_used.
Qed.

Lemma specifiers_imports (source : string) (sps : list Node) :
  forall a,
    imports (fold_left (fun a sp => Visitor.import_of_specifier source sp a) sps a)
    = imports a ++
      flat_map (fun sp => imports (Visitor.import_of_specifier source sp Visitor.initial)) sps.
Proof.
  induction sps as [|sp sps IH]; intros a; simpl; [now rewrite app_nil_r|].
  now rewrite IH, import_of_specifier_imports, app_assoc.
Qed.

Lemma visit_ImportDeclaration_imports (n : Node) (a : FileAnalysis) :
  imports (Visitor.visit_ImportDeclaration n a) = imports a ++ declared n.
Proof.
  unfold declared. destruct n; simpl; try (now rewrite app_nil_r).
  now rewrite (specifiers_imports source specifiers a),
              (specifiers_imports source specifiers Visitor.initial).
Qed.

Lemma export_fold_keeps {A : Type} (f : A -> FileAnalysis -> FileAnalysis) (l : list A) :
  (forall x a, usedIdentifiers (f x a) = usedIdentifiers a /\ imports (f x a) = imports a) ->
  forall a,
    usedIdentifiers (fold_left (fun a x => f x a) l a) = usedIdentifiers a /\
    imports (fold_left (fun a x => f x a) l a) = imports a.
Proof.
  intros Hf. induction l as [|x l IH]; intros a; simpl; [now split|].
  destruct (IH (f x a)) as [-> ->]. apply Hf.
Qed.

Lemma visit_ExportNamedDeclaration_keeps (n : Node) (a : FileAnalysis) :
  usedIdentifiers (Visitor.visit_ExportNamedDeclaration n a) = usedIdentifiers a /\
  imports (Visitor.visit_ExportNamedDeclaration n a) = imports a.
Proof.
  destruct n; simpl; try (now split).
  match goal with
  | |- context [fold_left _ specifiers ?b] =>
      assert (Hb : usedIdentifiers b = usedIdentifiers a /\ imports b = imports a)
  end.
  { destruct declaration as [d|]; [|now split].
    destruct d; try (now split).
    - apply (export_fold_keeps Visitor.export_of_declarator).
      intros x b. destruct x; try (now split). destruct x; now split.
    - destruct id; now split. }
  destruct Hb as [<- <-].
  apply (export_fold_keeps Visitor.export_of_specifier).
  intros x b. destruct x; try (now split). destruct x2; now split.
Qed.

(** The identifiers one visit adds. *)
Lemma step_used (a : FileAnalysis) (v : Visit) :
  usedIdentifiers (step a v)
  = match v_node v with
    | Identifier x _ _ =>
        if Visitor.skipped (v_parent v) (v_is_key v) then usedIdentifiers a
        else JsSet.add x (usedIdentifiers a)
    | _ => usedIdentifiers a
    end.
Proof.
  unfold step. destruct (v_node v) eqn:Hn; cbn [Visitor.enter]; try reflexivity.
  - unfold Visitor.visit_Identifier.
    now destruct (Visitor.skipped (v_parent v) (v_is_key v)).
  - apply visit_ImportDeclaration_used.
  - apply (visit_ExportNamedDeclaration_keeps (ExportNamedDeclaration _ _ _)).
Qed.

(** The imports one visit adds. *)
Lemma step_imports (a : FileAnalysis) (v : Visit) :
  imports (step a v) = imports a ++ declared (v_node v).
Proof.
  unfold step. destruct (v_node v) eqn:Hn; cbn [Visitor.enter];
    try (unfold declared; simpl; now rewrite app_nil_r).
  - unfold Visitor.visit_Identifier, declared. simpl.
    destruct (Visitor.skipped (v_parent v) (v_is_key v)); simpl; now rewrite app_nil_r.
  - apply visit_ImportDeclaration_imports.
  - unfold declared. cbn [Visitor.visit_ImportDeclaration Visitor.initial imports].
    rewrite app_nil_r.
    apply (visit_ExportNamedDeclaration_keeps (ExportNamedDeclaration _ _ _)).
Qed.

(** An identifier is in the set after the traversal exactly when it was
    there before or a visit of an identifier node of that name is not one of
    the two skipped positions. *)
Lemma fold_used (vs : list Visit) (x : string) :
  forall a,
    In x (usedIdentifiers (fold_left step vs a)) <->
    In x (usedIdentifiers a) \/
    exists v, In v vs /\ is_identifier x (v_node v) = true /\
              Visitor.skipped (v_parent v) (v_is_key v) = false.
Proof.
  induction vs as [|v vs IH]; intros a; simpl.
  - split; [now left|]. intros [H|[v [[] _]]]. assumption.
  - rewrite IH, step_used. split.
    + intros [H|[w [Hw Hrest]]].
      * destruct (v_node v) eqn:Hn; try (now left).
        destruct (Visitor.skipped (v_parent v) (v_is_key v)) eqn:Hs; [now left|].
        apply add_In in H. destruct H as [->|H]; [|now left].
        right. exists v. rewrite Hn. cbn [is_identifier].
        rewrite String.eqb_refl. auto.
      * right. exists w. auto.
    + intros [H|[w [[<-|Hw] [Hn Hs]]]].
      * left. destruct (v_node v); try assumption.
        destruct (Visitor.skipped (v_parent v) (v_is_key v)); [assumption|].
        apply add_In. now right.
      * left. destruct (v_node v); try discriminate.
        cbn [is_identifier] in Hn. apply String.eqb_eq in Hn. subst.
        rewrite Hs. apply add_In. now left.
      * right. exists w. auto.
Qed.

Lemma fold_imports (vs : list Visit) :
  forall a,
    imports (fold_left step vs a) = imports a ++ flat_map declared (map v_node vs).
Proof.
  induction vs as [|v vs IH]; intros a; simpl; [now rewrite app_nil_r|].
  now rewrite IH, step_imports, app_assoc.
Qed.

Lemma declared_filter (ns : list Node) :
  flat_map declared ns = flat_map declared (List.filter is_import_declaration ns).
Proof.
  induction ns as [|n ns IH]; simpl; [reflexivity|].
  destruct n; simpl; rewrite <- IH; reflexivity.
Qed.

(** The analysis of a tree, as [parseCode] builds it. *)
Lemma analysis_used (ast : Node) (x : string) :
  In x (usedIdentifiers (Visitor.traverse None false ast Visitor.initial)) <->
  exists v, In v (visits ast) /\ is_identifier x (v_node v) = true /\
            Visitor.skipped (v_parent v) (v_is_key v) = false.
Proof.
  rewrite traverse_nodes, fold_used. simpl. unfold visits.
  split; [intros [[]|H]|intros H]; auto.
Qed.

Lemma analysis_imports (ast : Node) :
  imports (Visitor.traverse None false ast Visitor.initial)
  = flat_map declared (importDeclarations ast).
Proof.
  rewrite traverse_nodes, fold_imports. simpl.
  unfold importDeclarations, visits. apply declared_filter.
Qed.

(** The children of a visited node are visited, with that node as parent. *)
Lemma nodes_children (n : Node) :
  forall p k v kc,
    In v (nodes p k n) -> In kc (children (v_node v)) ->
    In (mkVisit (Some (v_node v)) (fst kc) (snd kc)) (nodes p k n).
Proof.
  induction n as [n IH] using children_ind. intros p k v kc Hv Hkc.
  rewrite nodes_eq in Hv |- *. destruct Hv as [<-|Hv].
  - right. cbn [v_node] in *. apply in_flat_map. exists kc. split; [assumption|].
    rewrite nodes_eq. now left.
  - right. apply in_flat_map in Hv. destruct Hv as [kc' [Hkc' Hv]].
    apply in_flat_map. exists kc'. split; [assumption|]. now apply IH.
Qed.

(** ** Member accesses and the namespace scan *)

Lemma prefix_includes (p x : string) (c : ascii) :
  String.prefix (p +:+ String c EmptyString) x = true ->
  JsString.includes x (String c EmptyString) = true.
Proof.
  revert x. induction p as [|d p IH]; intros x H.
  - destruct x as [|e x]; simpl in H; [discriminate|].
    destruct (ascii_dec c e) as [->|Hne]; [|discriminate].
    simpl. destruct (ascii_dec e e); [|congruence]. now destruct x.
  - destruct x as [|e x]; simpl in H; [discriminate|].
    destruct (ascii_dec d e); [|discriminate].
    simpl. rewrite (IH x H). apply orb_true_r.
Qed.

(** When identifier names are names, no entry of the set starts with [N.]. *)
Lemma no_dotted_entry (ast : Node) (N : string) :
  validNames ast = true ->
  existsb (fun identifier => JsString.startsWith identifier (N +:+ "."))
    (usedIdentifiers (Visitor.traverse None false ast Visitor.initial)) = false.
Proof.
  intros Hvalid. apply not_true_is_false. intros Hex.
  apply existsb_exists in Hex. destruct Hex as [e [He Hpre]].
  apply analysis_used in He. destruct He as [v [Hv [Hn _]]].
  unfold validNames in Hvalid. rewrite forallb_forall in Hvalid.
  specialize (Hvalid v Hv).
  destruct (v_node v); try discriminate.
  cbn [is_identifier] in Hn. apply String.eqb_eq in Hn. subst.
  unfold JsString.startsWith in Hpre. apply prefix_includes in Hpre.
  rewrite Hpre in Hvalid. discriminate.
Qed.

(** The object of a member access is a used identifier. *)
Lemma member_access_used (ast : Node) (N : string) :
  hasMemberAccess N ast = true ->
  In N (usedIdentifiers (Visitor.traverse None false ast Visitor.initial)).
Proof.
  intros Hacc. apply analysis_used.
  unfold hasMemberAccess in Hacc. apply existsb_exists in Hacc.
  destruct Hacc as [v [Hv Hm]].
  destruct (v_node v) as [ | | | | | | | | | | | | |object property computed| | | | |type cs]
    eqn:Hn; try discriminate.
  - exists (mkVisit (Some (v_node v)) false object). split; [|split].
    + apply (nodes_children ast None false v (false, object) Hv).
      rewrite Hn. simpl. now left.
    + exact Hm.
    + rewrite Hn. reflexivity.
  - destruct cs as [|object cs]; [discriminate|].
    apply andb_true_iff in Hm. destruct Hm as [Hty Hm].
    apply String.eqb_eq in Hty. subst type.
    exists (mkVisit (Some (v_node v)) false object). split; [|split].
    + apply (nodes_children ast None false v (false, object) Hv).
      rewrite Hn. simpl. now left.
    + exact Hm.
    + rewrite Hn. reflexivity.
Qed.

(** C2, as the code has it: a member access on [N] puts the plain name [N]
    in [usedIdentifiers]; every entry of the set is the name of one
    identifier node of the tree; and when identifier names are names, no
    entry is prefixed by [N.], so it is the direct match, not the prefix
    scan, that finds the namespace used. *)
Theorem member_access_marks_plain_name (ast : Node) (N : string) :
  hasMemberAccess N ast = true ->
  let used := usedIdentifiers (Visitor.traverse None false ast Visitor.initial) in
  JsSet.has used N = true /\
  (forall e, In e used ->
     exists v, In v (visits ast) /\ is_identifier e (v_node v) = true) /\
  (validNames ast = true ->
   existsb (fun identifier => JsString.startsWith identifier (N +:+ ".")) used = false).
Proof.
  intros Hacc used. subst used. split; [|split].
  - now apply has_In, member_access_used.
  - intros e He. apply analysis_used in He. destruct He as [v [Hv [Hn _]]]. eauto.
  - apply no_dotted_entry.
Qed.

Lemma member_access_marks_plain_name_witness :
  let used :=
    usedIdentifiers (Visitor.traverse None false Samples.nsUsedAst Visitor.initial) in
  JsSet.has used "utils" = true /\
  (forall e, In e used ->
     exists v, In v (visits Samples.nsUsedAst) /\
               is_identifier e (v_node v) = true) /\
  existsb (fun identifier => JsString.startsWith identifier "utils.") used = false.
Proof.
  intros used.
  destruct (member_access_marks_plain_name Samples.nsUsedAst "utils" eq_refl)
    as [Hhas [Hnodes Hscan]].
  split; [exact Hhas|]. split; [exact Hnodes|].
  apply Hscan. reflexivity.
Defined.

(** C2 as stated fails: the file [import * as utils from './utils'] followed
    by [utils.format(1)] has a member access on the namespace import, and
    its [usedIdentifiers] are [utils] and [format], none prefixed by
    [utils.]. *)
Lemma compound_entry_counterexample :
  hasNamespaceImport "utils" "./utils" (Some (mkLoc 1 7)) Samples.nsUsedAst /\
  hasMemberAccess "utils" Samples.nsUsedAst = true /\
  usedIdentifiers (Visitor.traverse None false Samples.nsUsedAst Visitor.initial)
    = ["utils"; "format"] /\
  ~ (exists e,
       In e (usedIdentifiers
               (Visitor.traverse None false Samples.nsUsedAst Visitor.initial)) /\
       JsString.startsWith e "utils." = true).
Proof.
  split; [|split; [|split]].
  - do 3 eexists. split; [left; reflexivity|]. split; [left|]; reflexivity.
  - reflexivity.
  - reflexivity.
  - intros [e [He Hp]]. vm_compute in He.
    destruct He as [<-|[<-|[]]]; vm_compute in Hp; discriminate.
Qed.

(** ** Unused imports of one file *)

Section ImportResolution.

Variable babel_parse : string -> SourceType -> list string -> option Node.

(** The findings of a file that parses: its unused imports in declaration
    order. *)
Lemma findUnusedImports_parsed (fs : FS) (filePath code : string) (ast : Node) :
  Fs.readFileSync fs filePath = Some code ->
  parseAst babel_parse code filePath = Some ast ->
  let analysis := Visitor.traverse None false ast Visitor.initial in
  findUnusedImports babel_parse fs filePath
  = map (finding filePath)
      (List.filter (fun imp => negb (isUsed analysis imp)) (imports analysis)).
Proof.
  intros Hread Hparse analysis.
  unfold findUnusedImports, parseFile, parseCode. rewrite Hread, Hparse.
  fold analysis.
  apply (fold_left_push (fun imp => negb (isUsed analysis imp)) (finding filePath)).
Qed.

(** A file that cannot be read or parsed has no findings. *)
Lemma findUnusedImports_unparsed (fs : FS) (filePath : string) :
  parseFile babel_parse fs filePath = None ->
  findUnusedImports babel_parse fs filePath = [].
Proof. unfold findUnusedImports. now intros ->. Qed.

Lemma isUsed_direct (analysis : FileAnalysis) (imp : ImportInfo) :
  In (ii_name imp) (usedIdentifiers analysis) -> isUsed analysis imp = true.
Proof.
  intros Hin. apply has_In in Hin. unfold isUsed. rewrite Hin.
  destruct (String.eqb (ii_name imp) "React" && hasJSX analysis);
    destruct (ii_isNamespace imp);
    try destruct (existsb _ (usedIdentifiers analysis)); reflexivity.
Qed.

Lemma skipped_import_specifier (p : Node) (k : bool) :
  is_import_specifier p = true -> Visitor.skipped (Some p) k = true.
Proof. destruct p; simpl; try discriminate; reflexivity. Qed.

(** A name the file never refers to is not in the set. *)
Lemma unreferenced_not_used (ast : Node) (N : string) :
  refers N ast = false ->
  ~ In N (usedIdentifiers (Visitor.traverse None false ast Visitor.initial)).
Proof.
  intros Href Hin. apply analysis_used in Hin. destruct Hin as [v [Hv [Hn Hs]]].
  unfold refers in Href.
  assert (Hex : existsb
                  (fun v => is_identifier N (v_node v) &&
                            negb (match v_parent v with
                                  | Some p => is_import_specifier p
                                  | None => false
                                  end)) (visits ast) = true).
  { apply existsb_exists. exists v. split; [assumption|].
    rewrite Hn. simpl.
    destruct (v_parent v) as [p|]; [|reflexivity].
    destruct (is_import_specifier p) eqn:Hp; [|reflexivity].
    rewrite (skipped_import_specifier p (v_is_key v) Hp) in Hs. discriminate. }
  rewrite Hex in Href. discriminate.
Qed.

(** A declared namespace import is among the imports of the analysis. *)
Lemma namespace_import_collected (ast : Node) (N source : string) (loc : option Loc) :
  hasNamespaceImport N source loc ast ->
  N <> "" ->
  In (mkImportInfo N source (loc_line loc) (loc_column loc) false true)
    (imports (Visitor.traverse None false ast Visitor.initial)).
Proof.
  intros [specifiers [attributes [local [Hdecl [Hspec Hlocal]]]]] HN.
  rewrite analysis_imports. apply in_flat_map.
  exists (ImportDeclaration specifiers source attributes). split; [assumption|].
  unfold declared. cbn [Visitor.visit_ImportDeclaration].
  rewrite specifiers_imports. simpl. apply in_flat_map.
  exists (ImportNamespaceSpecifier local loc). split; [assumption|].
  destruct local; try discriminate.
  cbn [is_identifier] in Hlocal. apply String.eqb_eq in Hlocal. subst.
  unfold Visitor.import_of_specifier. cbn [ident_name].
  assert (Ht : JsString.truthy N = true).
  { unfold JsString.truthy. destruct (String.eqb_spec N ""); [contradiction|reflexivity]. }
  rewrite Ht. simpl. now left.
Qed.

(** C3, as the code has it: a namespace import whose name is the object of
    a member access [N.p], [N[p]], [N?.p] or [N?.[p]] gets no finding; one
    that no [Identifier] node of the file refers to gets a finding, with
    confidence 0.95.  The name of a JSX element is no [Identifier] node. *)
Theorem namespace_import_resolution
    (fs : FS) (filePath code : string) (ast : Node)
    (N source : string) (loc : option Loc) :
  Fs.readFileSync fs filePath = Some code ->
  parseAst babel_parse code filePath = Some ast ->
  hasNamespaceImport N source loc ast ->
  (hasMemberAccess N ast = true ->
   forall f, In f (findUnusedImports babel_parse fs filePath) -> ui_importName f <> N)
  /\
  (refers N ast = false -> validNames ast = true -> N <> "" -> N <> "React" ->
   In (mkUnusedImport filePath (loc_line loc) (loc_column loc) N source (95 # 100))
     (findUnusedImports babel_parse fs filePath)).
Proof.
  intros Hread Hparse Hns.
  rewrite (findUnusedImports_parsed fs filePath code ast Hread Hparse).
  cbv zeta. split.
  - intros Hacc f Hf Hname.
    apply in_map_iff in Hf. destruct Hf as [imp [<- Himp]].
    apply filter_In in Himp. destruct Himp as [_ Hunused].
    simpl in Hname. rewrite isUsed_direct in Hunused; [discriminate|].
    rewrite Hname. now apply member_access_used.
  - intros Href Hvalid HN HReact.
    apply in_map_iff.
    exists (mkImportInfo N source (loc_line loc) (loc_column loc) false true).
    split; [reflexivity|]. apply filter_In. split.
    + now apply namespace_import_collected.
    + unfold isUsed. cbn [ii_name ii_isNamespace].
      rewrite (no_dotted_entry ast N Hvalid).
      destruct (String.eqb_spec N "React"); [contradiction|]. simpl.
      destruct (JsSet.has _ N) eqn:Hh; [|reflexivity].
      apply has_In in Hh. now apply unreferenced_not_used in Hh.
Qed.

End ImportResolution.

Lemma namespace_import_resolution_witness :
  (forall f, In f (findUnusedImports Samples.parse Samples.nsFs "/p/src/used.js") ->
             ui_importName f <> "utils") /\
  In (mkUnusedImport "/p/src/unused.js" 1 7 "utils" "./utils" (95 # 100))
    (findUnusedImports Samples.parse Samples.nsFs "/p/src/unused.js").
Proof.
  split.
  - apply (proj1 (namespace_import_resolution Samples.parse Samples.nsFs
                    "/p/src/used.js" Samples.nsUsedCode Samples.nsUsedAst
                    "utils" "./utils" (Some (mkLoc 1 7))
                    eq_refl eq_refl
                    (ex_intro _ _ (ex_intro _ _ (ex_intro _ _
                       (conj (or_introl eq_refl) (conj (or_introl eq_refl) eq_refl))))))).
    reflexivity.
  - apply (proj2 (namespace_import_resolution Samples.parse Samples.nsFs
                    "/p/src/unused.js" Samples.nsUnusedCode Samples.nsUnusedAst
                    "utils" "./utils" (Some (mkLoc 1 7))
                    eq_refl eq_refl
                    (ex_intro _ _ (ex_intro _ _ (ex_intro _ _
                       (conj (or_introl eq_refl) (conj (or_introl eq_refl) eq_refl)))))));
      [reflexivity|reflexivity|discriminate|discriminate].
Defined.

(** C3 as stated fails: in the file [import * as utils from './utils']
    followed by [const el = <utils.Foo />] the body has a member access on
    the namespace import, as the name of a JSX element; its nodes are
    [JSXIdentifier]s, which the [Identifier] visitor does not see, and the
    import is reported. *)
Lemma jsx_member_access_counterexample :
  Fs.readFileSync Samples.nsJsxFs "/p/src/el.jsx" = Some Samples.nsJsxCode /\
  parseAst Samples.parse Samples.nsJsxCode "/p/src/el.jsx" = Some Samples.nsJsxAst /\
  hasNamespaceImport "utils" "./utils" (Some (mkLoc 1 7)) Samples.nsJsxAst /\
  hasJSXMemberAccess "utils" Samples.nsJsxAst = true /\
  findUnusedImports Samples.parse Samples.nsJsxFs "/p/src/el.jsx"
  = [mkUnusedImport "/p/src/el.jsx" 1 7 "utils" "./utils" (95 # 100)] /\
  ~ (forall f, In f (findUnusedImports Samples.parse Samples.nsJsxFs "/p/src/el.jsx") ->
               ui_importName f <> "utils").
Proof.
  assert (Hfind : findUnusedImports Samples.parse Samples.nsJsxFs "/p/src/el.jsx"
                  = [mkUnusedImport "/p/src/el.jsx" 1 7 "utils" "./utils" (95 # 100)])
    by (vm_compute; reflexivity).
  split; [reflexivity|]. split; [vm_compute; reflexivity|].
  split; [|split; [reflexivity|split; [exact Hfind|]]].
  - do 3 eexists. split; [left; reflexivity|]. split; [left|]; reflexivity.
  - intros H. rewrite Hfind in H.
    apply (H (mkUnusedImport "/p/src/el.jsx" 1 7 "utils" "./utils" (95 # 100))).
    + left. reflexivity.
    + reflexivity.
Qed.

(** ** Unused dependencies *)

Lemma checkDependencies_eq (used : JsSet.t) (deps : StringRecord) :
  forall acc,
    checkDependencies used deps acc
    = acc ++ map dependencyFinding
               (List.filter (fun e => negb (isPackageUsed (fst e) used)) deps).
Proof.
  unfold checkDependencies.
  induction deps as [|[name version] deps IH]; intros acc; simpl;
    [now rewrite app_nil_r|].
  rewrite IH. destruct (isPackageUsed name used); simpl; [reflexivity|].
  now rewrite <- app_assoc.
Qed.

Lemma checkDevDependencies_eq (used : JsSet.t) (devs : StringRecord) :
  forall acc,
    checkDevDependencies used devs acc
    = acc ++ map devDependencyFinding
               (List.filter
                  (fun e => negb (isKnownToolPackage (fst e))
                            && negb (isPackageUsed (fst e) used)) devs).
Proof.
  unfold checkDevDependencies.
  induction devs as [|[name version] devs IH]; intros acc; simpl;
    [now rewrite app_nil_r|].
  rewrite IH.
  destruct (isKnownToolPackage name); simpl; [reflexivity|].
  destruct (isPackageUsed name used); simpl; [reflexivity|].
  now rewrite <- app_assoc.
Qed.

Section Detection.

Variable JSON_parse : string -> option PackageJson.

Abbreviation detect := (UnusedDependenciesDetector_detect JSON_parse).

(** What [detect] returns once the manifest is read and parsed. *)
Lemma detect_ok (fs : FS) (root text : string) (pj : PackageJson)
    (files cfg : list string) :
  Fs.readFileSync fs (Path.join root "package.json") = Some text ->
  JSON_parse text = Some pj ->
  let used := scanFiles fs (files ++ cfg) in
  detect fs root files cfg
  = Ok (map dependencyFinding
          (List.filter (fun e => negb (isPackageUsed (fst e) used))
             (or_empty (pj_dependencies pj)))
        ++ map devDependencyFinding
             (List.filter
                (fun e => negb (isKnownToolPackage (fst e))
                          && negb (isPackageUsed (fst e) used))
                (or_empty (pj_devDependencies pj)))).
Proof.
  intros Hread Hparse used. unfold UnusedDependenciesDetector_detect.
  assert (Hex : Fs.existsSync fs (Path.join root "package.json") = true).
  { unfold Fs.existsSync. unfold Fs.readFileSync in Hread.
    now destruct (fs !! Path.join root "package.json"). }
  rewrite Hex, Hread, Hparse. simpl.
  now rewrite checkDevDependencies_eq, checkDependencies_eq.
Qed.

(** Whether [detect] returns depends on the manifest alone. *)
Lemma detect_returns (fs : FS) (root : string) (files cfg files' cfg' : list string)
    (l : list UnusedDependency) :
  detect fs root files cfg = Ok l ->
  exists l', detect fs root files' cfg' = Ok l'.
Proof.
  unfold UnusedDependenciesDetector_detect.
  destruct (negb (Fs.existsSync fs (Path.join root "package.json"))); [discriminate|].
  destruct (Fs.readFileSync fs (Path.join root "package.json")); [|discriminate].
  destruct (JSON_parse s); [|discriminate].
  intros _. eauto.
Qed.

Lemma scan_skips_unreadable (fs : FS) (files : list string) :
  forall used,
    fold_left
      (fun usedPackages file =>
         match Fs.readFileSync fs file with
         | Some content => extractImports content usedPackages
         | None => usedPackages
         end) files used
    = fold_left
        (fun usedPackages file =>
           match Fs.readFileSync fs file with
           | Some content => extractImports content usedPackages
           | None => usedPackages
           end) (List.filter (readable fs) files) used.
Proof.
  induction files as [|f files IH]; intros used; simpl; [reflexivity|].
  unfold readable at 1. destruct (Fs.readFileSync fs f) eqn:Hf; simpl.
  - rewrite Hf. apply IH.
  - apply IH.
Qed.

Lemma scanFiles_readable (fs : FS) (files : list string) :
  scanFiles fs files = scanFiles fs (List.filter (readable fs) files).
Proof. apply scan_skips_unreadable. Qed.

End Detection.

(** ** Scoped packages *)

Lemma includes_sep (scope rest : string) :
  JsString.includes (scope +:+ "/" +:+ rest) "/" = true.
Proof.
  induction scope as [|c scope IH]; simpl.
  - now destruct rest.
  - rewrite IH. apply orb_true_r.
Qed.

Lemma split_scope (scope rest : string) :
  JsString.includes scope "/" = false ->
  JsString.split "/" (scope +:+ "/" +:+ rest) = scope :: JsString.split "/" rest.
Proof.
  induction scope as [|c scope IH]; intros Hno; simpl; [reflexivity|].
  simpl in Hno. apply orb_false_iff in Hno. destruct Hno as [Hc Hno].
  destruct (Ascii.eqb_spec c "/") as [->|Hne].
  - simpl in Hc. now destruct scope.
  - now rewrite (IH Hno).
Qed.

Lemma startsWith_scope (scope rest : string) :
  JsString.startsWith (scope +:+ "/" +:+ rest) (scope +:+ "/") = true.
Proof.
  unfold JsString.startsWith. induction scope as [|c scope IH]; simpl.
  - now destruct rest.
  - destruct (ascii_dec c c); [assumption|congruence].
Qed.

(** The usage test: direct membership, or, for a name with a slash, a used
    package under the same first segment. *)
Lemma isPackageUsed_iff (p : string) (used : JsSet.t) :
  isPackageUsed p used = true <->
  In p used \/
  (JsString.includes p "/" = true /\
   exists u, In u used /\
             JsString.startsWith u (hd "" (JsString.split "/" p) +:+ "/") = true).
Proof.
  unfold isPackageUsed. destruct (JsSet.has used p) eqn:Hh.
  - apply has_In in Hh. split; auto.
  - assert (Hn : ~ In p used) by (intros H; apply has_In in H; congruence).
    destruct (JsString.includes p "/").
    + rewrite existsb_exists. split.
      * intros [u [Hu Hs]]. right. eauto.
      * intros [H|[_ [u [Hu Hs]]]]; [contradiction|eauto].
    + split; [discriminate|]. intros [H|[H _]]; [contradiction|discriminate].
Qed.

Lemma sibling_confirms (scope name sibling : string) (used : JsSet.t) :
  JsString.includes scope "/" = false ->
  In (scope +:+ "/" +:+ sibling) used ->
  isPackageUsed (scope +:+ "/" +:+ name) used = true.
Proof.
  intros Hscope Hin. apply isPackageUsed_iff. right. split.
  - apply includes_sep.
  - exists (scope +:+ "/" +:+ sibling). split; [assumption|].
    rewrite (split_scope scope name Hscope). simpl. apply startsWith_scope.
Qed.

(** ** The reference scan only adds *)

Lemma scan_with_In (r : regex) (content x : string) (used : JsSet.t) :
  In x (scan_with r content used) <->
  In x used \/ In x (scan_with r content []).
Proof.
  unfold scan_with. generalize (captures r content) as l.
  assert (H : forall l s,
             In x (fold_left
                     (fun used importPath =>
                        match extractPackageName importPath with
                        | Some packageName =>
                            if JsString.truthy packageName
                            then JsSet.add packageName used else used
                        | None => used
                        end) l s) <->
             In x s \/
             exists p n, In p l /\ extractPackageName p = Some n /\
                         JsString.truthy n = true /\ x = n).
  { induction l as [|p l IH]; intros s; simpl.
    - split; [now left|]. intros [H|[p [n [[] _]]]]. assumption.
    - rewrite IH. split.
      + intros [H|[q [n [Hq Hrest]]]].
        * destruct (extractPackageName p) as [n|] eqn:Hp; [|now left].
          destruct (JsString.truthy n) eqn:Ht; [|now left].
          apply add_In in H. destruct H as [->|H]; [|now left].
          right. exists p, n. auto.
        * right. exists q, n. tauto.
      + intros [H|[q [n [[<-|Hq] [Hp [Ht ->]]]]]].
        * left. destruct (extractPackageName p) as [m|]; [|assumption].
          destruct (JsString.truthy m); [|assumption]. apply add_In. now right.
        * left. rewrite Hp, Ht. apply add_In. now left.
        * right. exists q, n. auto. }
  intros l. rewrite (H l used), (H l []). simpl. tauto.
Qed.

Lemma extractImports_In (content x : string) (used : JsSet.t) :
  In x (extractImports content used) <->
  In x used \/ In x (extractImports content []).
Proof.
  unfold extractImports.
  rewrite (scan_with_In Scan.dynamicImportRegex content x
             (scan_with Scan.requireRegex content (scan_with Scan.es6ImportRegex content used))).
  rewrite (scan_with_In Scan.requireRegex content x
             (scan_with Scan.es6ImportRegex content used)).
  rewrite (scan_with_In Scan.es6ImportRegex content x used).
  rewrite (scan_with_In Scan.dynamicImportRegex content x
             (scan_with Scan.requireRegex content (scan_with Scan.es6ImportRegex content []))).
  rewrite (scan_with_In Scan.requireRegex content x
             (scan_with Scan.es6ImportRegex content [])).
  tauto.
Qed.

(** ** What the scan finds

    The patterns of the scan followed on texts of a known shape. *)

Import Text.

Lemma append_cons (c : ascii) (s t : string) : String c s +:+ t = String c (s +:+ t).
Proof. reflexivity. Qed.

Lemma append_nil (t : string) : "" +:+ t = t.
Proof. reflexivity. Qed.

Lemma rmatch_lit {A : Type} (s t : string) (prev : option ascii) (cap : option string)
    (k : mstate -> option A) :
  rmatch (RLit s) (MState prev (s +:+ t) cap) k = k (MState (prev_after prev s) t cap).
Proof.
  revert prev. induction s as [|c s IH]; intros prev; [reflexivity|].
  rewrite append_cons. cbn [RLit rmatch ms_rest ms_cap prev_after].
  rewrite Ascii.eqb_refl. apply IH.
Qed.

Lemma length_append (a b : string) :
  String.length (a +:+ b) = (String.length a + String.length b)%nat.
Proof. induction a as [|c a IH]; simpl; [reflexivity|]. now rewrite IH. Qed.

Lemma star_greedy_run {A : Type} (p : ascii -> bool) (w t : string)
    (cap : option string) (k : mstate -> option A) (x : A) (prev : option ascii) :
  all_chars p w = true -> stops p t = true ->
  k (MState (prev_after prev w) t cap) = Some x ->
  rmatch (RStar false (RChar p)) (MState prev (w +:+ t) cap) k = Some x.
Proof.
  intros Hw Ht Hk. cbn [rmatch ms_rest].
  assert (Hfuel : (String.length w <= String.length (w +:+ t))%nat)
    by (rewrite length_append; lia).
  revert Hfuel. generalize (String.length (w +:+ t)) as fuel.
  match goal with |- forall fuel, _ -> ?L fuel _ = _ => set (loop := L) end.
  revert prev Hk. induction w as [|c w IH]; intros prev Hk fuel Hfuel.
  - rewrite append_nil. cbn [prev_after] in Hk.
    destruct fuel; unfold loop; cbn [rmatch ms_rest ms_cap]; [exact Hk|].
    destruct t as [|c u]; [exact Hk|].
    cbn [stops] in Ht. apply negb_true_iff in Ht. rewrite Ht. exact Hk.
  - cbn [all_chars] in Hw. apply andb_true_iff in Hw. destruct Hw as [Hc Hw].
    destruct fuel as [|fuel]; [simpl in Hfuel; lia|].
    rewrite append_cons. unfold loop. cbn [rmatch ms_rest ms_cap]. rewrite Hc.
    unfold consumed at 1. cbn [ms_rest String.length].
    rewrite (proj2 (Nat.ltb_lt _ _) (Nat.lt_succ_diag_r _)).
    fold loop.
    rewrite (IH Hw (Some c) Hk fuel); [reflexivity|simpl in Hfuel; lia].
Qed.

(** A lazy run stops at the first place where the rest of the pattern
    matches. *)
Lemma star_lazy_run {A : Type} (p : ascii -> bool) (w t : string)
    (cap : option string) (k : mstate -> option A) (x : A) (prev : option ascii) :
  all_chars p w = true ->
  (forall prev c u, In c (list_ascii_of_string w) ->
                    k (MState prev (String c u) cap) = None) ->
  k (MState (prev_after prev w) t cap) = Some x ->
  rmatch (RStar true (RChar p)) (MState prev (w +:+ t) cap) k = Some x.
Proof.
  intros Hw Hfail Hk. cbn [rmatch ms_rest].
  assert (Hfuel : (String.length w <= String.length (w +:+ t))%nat)
    by (rewrite length_append; lia).
  revert Hfuel. generalize (String.length (w +:+ t)) as fuel.
  match goal with |- forall fuel, _ -> ?L fuel _ = _ => set (loop := L) end.
  revert prev Hk. induction w as [|c w IH]; intros prev Hk fuel Hfuel.
  - rewrite append_nil. cbn [prev_after] in Hk.
    destruct fuel; unfold loop; now rewrite Hk.
  - cbn [all_chars] in Hw. apply andb_true_iff in Hw. destruct Hw as [Hc Hw].
    destruct fuel as [|fuel]; [simpl in Hfuel; lia|].
    rewrite append_cons. unfold loop.
    rewrite (Hfail prev c (w +:+ t)) by (now left).
    cbn [rmatch ms_rest ms_cap]. rewrite Hc.
    unfold consumed at 1. cbn [ms_rest String.length].
    rewrite (proj2 (Nat.ltb_lt _ _) (Nat.lt_succ_diag_r _)).
    fold loop.
    apply IH; [assumption| |exact Hk|simpl in Hfuel; lia].
    intros prev' c' u Hin. apply Hfail. now right.
Qed.

Lemma all_chars_In (p : ascii -> bool) (s : string) (c : ascii) :
  all_chars p s = true -> In c (list_ascii_of_string s) -> p c = true.
Proof.
  induction s as [|d s IH]; simpl; [intros _ []|].
  intros H. apply andb_true_iff in H. destruct H as [Hd Hs].
  intros [<-|Hin]; [assumption|now apply IH].
Qed.

Lemma all_chars_impl (p q : ascii -> bool) (s : string) :
  (forall c, p c = true -> q c = true) -> all_chars p s = true -> all_chars q s = true.
Proof.
  intros Hpq. induction s as [|c s IH]; simpl; [reflexivity|].
  intros H. apply andb_true_iff in H. destruct H as [Hc Hs].
  now rewrite (Hpq c Hc), IH.
Qed.

Lemma no_space_is_dot (c : ascii) : no_space c = true -> is_dot c = true.
Proof.
  unfold no_space, is_space, is_dot. intros H. apply negb_true_iff in H.
  apply negb_true_iff. apply orb_false_iff in H. destruct H as [H _].
  apply orb_false_iff in H. destruct H as [H _].
  apply andb_false_iff in H.
  destruct (Nat.eqb_spec (code c) 10) as [E|_]; [rewrite E in H; destruct H; discriminate|].
  destruct (Nat.eqb_spec (code c) 13) as [E|_]; [rewrite E in H; destruct H; discriminate|].
  reflexivity.
Qed.

Lemma take_append (a b : string) : JsString.take (String.length a) (a +:+ b) = a.
Proof. induction a as [|c a IH]; simpl; [now destruct b|]. now rewrite IH. Qed.

Lemma rmatch_seq {A : Type} (r1 r2 : regex) (s : mstate) (k : mstate -> option A) :
  rmatch (RSeq r1 r2) s k = rmatch r1 s (fun s1 => rmatch r2 s1 k).
Proof. reflexivity. Qed.

Lemma rmatch_char {A : Type} (p : ascii -> bool) (prev : option ascii) (c : ascii)
    (t : string) (cap : option string) (k : mstate -> option A) :
  rmatch (RChar p) (MState prev (String c t) cap) k
  = if p c then k (MState (Some c) t cap) else None.
Proof. reflexivity. Qed.

Lemma rmatch_group {A : Type} (r : regex) (s : mstate) (k : mstate -> option A) :
  rmatch (RGroup r) s k
  = rmatch r s
      (fun s1 =>
         k (MState (ms_prev s1) (ms_rest s1)
              (Some (JsString.take
                       (String.length (ms_rest s) - String.length (ms_rest s1))
                       (ms_rest s))))).
Proof. reflexivity. Qed.

Lemma rmatch_empty {A : Type} (s : mstate) (k : mstate -> option A) :
  rmatch REmpty s k = k s.
Proof. reflexivity. Qed.

(** The pattern of an import-from statement matches a statement that binds
    one name without white space from a specifier without quotes, at the
    start of a text, and captures the specifier. *)
Lemma import_from_is_matched (prev : option ascii) (x spec rest : string) :
  x <> "" -> all_chars no_space x = true ->
  spec <> "" -> all_chars not_quote spec = true ->
  rmatch Scan.es6ImportRegex (MState prev (importFrom x spec rest) None) Some
  = Some (MState (Some "'"%char) rest (Some spec)).
Proof.
  intros Hx Hxs Hspec Hq. unfold importFrom.
  destruct x as [|x0 x]; [congruence|]. destruct spec as [|q0 spec]; [congruence|].
  pose proof Hxs as Hx0. cbn [all_chars] in Hx0. apply andb_true_iff in Hx0.
  destruct Hx0 as [Hx0 _]. unfold no_space in Hx0. apply negb_true_iff in Hx0.
  cbn [all_chars] in Hq. apply andb_true_iff in Hq. destruct Hq as [Hq0 Hq].
  unfold Scan.es6ImportRegex, Scan.cat, Scan.specifier, Scan.ws_plus, RPlus, ws, quote.
  cbn [app fold_right].
  change ("import " +:+ String x0 x +:+ " from '" +:+ String q0 spec +:+ "'" +:+ rest)
    with ("import" +:+ String " " ("" +:+ String x0 x +:+ " from '" +:+ String q0 spec +:+ "'" +:+ rest)).
  rewrite rmatch_seq, rmatch_lit. cbv beta.
  rewrite !rmatch_seq, rmatch_char. change (is_space " ") with true. cbv iota.
  apply star_greedy_run;
    [reflexivity|rewrite append_cons; cbn [stops]; now rewrite Hx0|].
  cbn [prev_after]. rewrite rmatch_seq.
  apply (star_lazy_run is_dot (String x0 x)).
  - apply (all_chars_impl no_space); [apply no_space_is_dot|assumption].
  - intros prev' c u Hin.
    pose proof (all_chars_In no_space _ c Hxs Hin) as Hc.
    unfold no_space in Hc. apply negb_true_iff in Hc.
    rewrite !rmatch_seq, rmatch_char. now rewrite Hc.
  - change (" from '" +:+ String q0 spec +:+ "'" +:+ rest)
      with (String " " ("" +:+ "from" +:+ String " " ("" +:+ String "'" (String q0 spec +:+ "'" +:+ rest)))).
    rewrite !rmatch_seq, rmatch_char. change (is_space " ") with true. cbv iota.
    apply star_greedy_run; [reflexivity|reflexivity|].
    rewrite rmatch_seq, rmatch_lit. cbv beta.
    rewrite !rmatch_seq, rmatch_char. change (is_space " ") with true. cbv iota.
    apply star_greedy_run; [reflexivity|reflexivity|].
    cbn [prev_after]. rewrite rmatch_seq, rmatch_char.
    change (negb (not_quote "'")) with true. cbv iota.
    rewrite rmatch_seq, rmatch_group, rmatch_seq, append_cons, rmatch_char, Hq0.
    apply star_greedy_run; [assumption|reflexivity|].
    cbn [ms_rest ms_prev String.length].
    replace (S (String.length (spec +:+ "'" +:+ rest)) - String.length ("'" +:+ rest))%nat
      with (String.length (String q0 spec)).
    2: { rewrite !length_append. simpl. lia. }
    rewrite <- append_cons. rewrite take_append.
    change ("'" +:+ rest) with (String "'" rest).
    rewrite rmatch_seq, rmatch_char. change (negb (not_quote "'")) with true. cbv iota.
    rewrite rmatch_empty. reflexivity.
Qed.

Lemma rexec_here (r : regex) (prev : option ascii) (s : string) (e : mstate) :
  rmatch r (MState prev s None) Some = Some e ->
  rexec r prev s = Some (Found EmptyString e).
Proof. intros H. destruct s; simpl; now rewrite H. Qed.

(** A literal does not match a text it is not a prefix of. *)
Lemma rmatch_lit_none {A : Type} (w t : string) (prev : option ascii)
    (cap : option string) (k : mstate -> option A) :
  String.prefix w t = false -> rmatch (RLit w) (MState prev t cap) k = None.
Proof.
  revert t prev. induction w as [|c w IH]; intros t prev H.
  - destruct t; discriminate.
  - destruct t as [|d t]; [reflexivity|].
    cbn [RLit]. rewrite rmatch_seq, rmatch_char.
    cbn [String.prefix] in H.
    destruct (ascii_dec c d) as [->|Hne].
    + rewrite Ascii.eqb_refl. now apply IH.
    + apply Ascii.eqb_neq in Hne. now rewrite Hne.
Qed.

(** The leftmost match is past a text at no position of which the regex
    matches. *)
Lemma rexec_skip (r : regex) (pre s : string) (prev : option ascii) (e : mstate) :
  (forall a c b, pre = a +:+ String c b ->
     rmatch r (MState (prev_after prev a) (String c b +:+ s) None) Some = None) ->
  rmatch r (MState (prev_after prev pre) s None) Some = Some e ->
  rexec r prev (pre +:+ s) = Some (Found pre e).
Proof.
  revert prev. induction pre as [|c pre IH]; intros prev Hnone Hhere.
  - cbn [prev_after] in Hhere. change ("" +:+ s) with s.
    now apply rexec_here.
  - pose proof (Hnone "" c pre eq_refl) as H0. cbn [prev_after] in H0.
    rewrite append_cons in *. cbn [rexec]. rewrite H0.
    rewrite (IH (Some c)); [reflexivity| |exact Hhere].
    intros a c' b Hpre.
    apply (Hnone (String c a) c' b). now rewrite Hpre.
Qed.

(** A word that does not occur in a text starts at no position of it. *)
Lemma includes_suffix (pre w a b : string) :
  JsString.includes pre w = false -> pre = a +:+ b -> String.prefix w b = false.
Proof.
  revert pre. induction a as [|c a IH]; intros pre H ->.
  - change ("" +:+ b) with b in H. destruct b; cbn [JsString.includes] in H;
      apply orb_false_iff in H; tauto.
  - rewrite append_cons in H. cbn [JsString.includes] in H.
    apply orb_false_iff in H. destruct H as [_ H]. now apply (IH (a +:+ b)).
Qed.

(** Nor does the word import start in a text and end in the same word
    placed after it. *)
Lemma import_straddles_nothing (b u : string) :
  b <> "" -> String.prefix "import" b = false ->
  String.prefix "import" (b +:+ "import" +:+ u) = false.
Proof.
  intros Hb H.
  destruct b as [|c1 [|c2 [|c3 [|c4 [|c5 [|c6 b]]]]]]; [congruence|..];
    rewrite ?append_cons;
    cbn [String.append String.prefix] in *;
    repeat match goal with
           | |- context [ascii_dec ?x ?y] => destruct (ascii_dec x y); try discriminate
           end; try reflexivity; try assumption.
  destruct b; discriminate.
Qed.

(** The first match of a scan gives its first capture. *)
Lemma captures_first (r : regex) (pre s : string) (e : mstate) (c : string) :
  (forall a d b, pre = a +:+ String d b ->
     rmatch r (MState (prev_after None a) (String d b +:+ s) None) Some = None) ->
  rmatch r (MState (prev_after None pre) s None) Some = Some e ->
  ms_cap e = Some c ->
  In c (captures r (pre +:+ s)).
Proof.
  intros Hnone H Hc. unfold captures. cbn [captures_from].
  rewrite (rexec_skip r pre s None e Hnone H). cbn [f_end]. rewrite Hc.
  destruct (_ <? _)%nat; now left.
Qed.

Lemma scan_with_captured (r : regex) (content importPath p : string) (used : JsSet.t) :
  In importPath (captures r content) ->
  extractPackageName importPath = Some p -> p <> "" ->
  In p (scan_with r content used).
Proof.
  intros Hin Hp Hne. unfold scan_with. revert used Hin.
  set (F := fun (used : JsSet.t) (importPath : string) =>
              match extractPackageName importPath with
              | Some packageName =>
                  if JsString.truthy packageName then JsSet.add packageName used else used
              | None => used
              end).
  assert (Hmono : forall l s, In p s -> In p (fold_left F l s)).
  { induction l as [|q l IH]; intros s Hs; simpl; [assumption|].
    apply IH. unfold F. destruct (extractPackageName q) as [n|]; [|assumption].
    destruct (JsString.truthy n); [|assumption]. apply add_In. now right. }
  induction (captures r content) as [|q l IH]; intros used Hin; [destruct Hin|].
  simpl. destruct Hin as [->|Hin]; [|now apply IH].
  apply Hmono. unfold F. rewrite Hp.
  assert (Ht : JsString.truthy p = true).
  { unfold JsString.truthy. destruct (String.eqb_spec p ""); [contradiction|reflexivity]. }
  rewrite Ht. apply add_In. now left.
Qed.

(** The name of a package is not empty, but for the empty specifier. *)
Lemma extractPackageName_nonempty (importPath p : string) :
  importPath <> "" -> extractPackageName importPath = Some p -> p <> "".
Proof.
  intros Hne. destruct importPath as [|c s]; [congruence|]. clear Hne.
  unfold extractPackageName.
  destruct (JsString.startsWith (String c s) "." || JsString.startsWith (String c s) "/")
    eqn:Hrel; [discriminate|].
  assert (Hc : Ascii.eqb c "/" = false).
  { apply orb_false_iff in Hrel. destruct Hrel as [_ Hrel].
    unfold JsString.startsWith in Hrel. simpl in Hrel.
    destruct (Ascii.eqb_spec c "/") as [->|]; [|reflexivity].
    simpl in Hrel. now destruct s. }
  cbn [JsString.split]. rewrite Hc.
  destruct (JsString.split "/" s) as [|h r] eqn:Hs;
    destruct (JsString.startsWith (String c s) "@");
    try destruct r; intros H; injection H as <-; discriminate.
Qed.

(** A text whose first occurrence of the word import begins an import-from
    statement imports the package of its specifier, as far as the scan is
    concerned. *)
Lemma import_from_is_scanned (pre x spec rest p : string) (used : JsSet.t) :
  JsString.includes pre "import" = false ->
  x <> "" -> all_chars no_space x = true ->
  spec <> "" -> all_chars not_quote spec = true ->
  extractPackageName spec = Some p ->
  In p (extractImports (pre +:+ importFrom x spec rest) used).
Proof.
  intros Hpre Hx Hxs Hspec Hq Hp. unfold extractImports.
  apply scan_with_In. left. apply scan_with_In. left.
  apply (scan_with_captured _ _ spec).
  - apply (captures_first _ pre _ (MState (Some "'"%char) rest (Some spec))).
    + intros a d b Hab.
      unfold Scan.es6ImportRegex, Scan.cat. cbn [app fold_right].
      rewrite rmatch_seq. apply rmatch_lit_none.
      unfold importFrom.
      change ("import " +:+ x +:+ " from '" +:+ spec +:+ "'" +:+ rest)
        with ("import" +:+ (" " +:+ x +:+ " from '" +:+ spec +:+ "'" +:+ rest)).
      apply import_straddles_nothing; [discriminate|].
      now apply (includes_suffix pre "import" a).
    + now apply import_from_is_matched.
    + reflexivity.
  - exact Hp.
  - now apply (extractPackageName_nonempty spec).
Qed.

(** What a readable scanned file imports is in the usage set. *)
Lemma scanFiles_In (fs : FS) (files : list string) (file content x : string) :
  In file files ->
  Fs.readFileSync fs file = Some content ->
  In x (extractImports content []) ->
  In x (scanFiles fs files).
Proof.
  intros Hfile Hread Hx. unfold scanFiles.
  assert (Hmono : forall l s,
             In x s ->
             In x (fold_left
                     (fun usedPackages file =>
                        match Fs.readFileSync fs file with
                        | Some content => extractImports content usedPackages
                        | None => usedPackages
                        end) l s)).
  { induction l as [|f l IH]; intros s Hs; simpl; [assumption|].
    apply IH. destruct (Fs.readFileSync fs f); [|assumption].
    apply extractImports_In. now left. }
  generalize (JsSet.empty). induction files as [|f files IH]; intros s; [destruct Hfile|].
  simpl. destruct Hfile as [->|Hfile].
  - apply Hmono. rewrite Hread. apply extractImports_In. now right.
  - now apply IH.
Qed.

Lemma scanFiles_iff (fs : FS) (files : list string) (x : string) :
  In x (scanFiles fs files) <->
  exists file content,
    In file files /\ Fs.readFileSync fs file = Some content /\
    In x (extractImports content []).
Proof.
  split.
  - unfold scanFiles.
    assert (H : forall l s,
               In x (fold_left
                       (fun usedPackages file =>
                          match Fs.readFileSync fs file with
                          | Some content => extractImports content usedPackages
                          | None => usedPackages
                          end) l s) ->
               In x s \/
               exists file content,
                 In file l /\ Fs.readFileSync fs file = Some content /\
                 In x (extractImports content [])).
    { induction l as [|f l IH]; intros s Hin; simpl in Hin; [now left|].
      apply IH in Hin. destruct Hin as [Hin|[g [c [Hg Hrest]]]].
      - destruct (Fs.readFileSync fs f) as [content|] eqn:Hf; [|now left].
        apply extractImports_In in Hin. destruct Hin as [Hin|Hin]; [now left|].
        right. exists f, content. split; [now left|]. auto.
      - right. exists g, c. split; [now right|]. assumption. }
    intros Hin. destruct (H files JsSet.empty Hin) as [[]|Hex]. exact Hex.
  - intros [file [content [Hfile [Hread Hx]]]].
    now apply (scanFiles_In fs files file content).
Qed.

Section Findings.

Variable JSON_parse : string -> option PackageJson.

(** [detect] returns only after reading and parsing the manifest. *)
Lemma detect_inv (fs : FS) (root : string) (files cfg : list string)
    (l : list UnusedDependency) :
  UnusedDependenciesDetector_detect JSON_parse fs root files cfg = Ok l ->
  exists text pj,
    Fs.readFileSync fs (Path.join root "package.json") = Some text /\
    JSON_parse text = Some pj.
Proof.
  unfold UnusedDependenciesDetector_detect.
  destruct (negb (Fs.existsSync fs (Path.join root "package.json"))); [discriminate|].
  destruct (Fs.readFileSync fs (Path.join root "package.json")) as [text|];
    [|discriminate].
  destruct (JSON_parse text) as [pj|] eqn:Hp; [|discriminate].
  intros _. eauto.
Qed.

(** Every finding of [detect] is an entry of one of the two maps that
    fails the usage test, of the kind and confidence of its map. *)
Lemma detect_findings (fs : FS) (root text : string) (pj : PackageJson)
    (files cfg : list string) (l : list UnusedDependency) (f : UnusedDependency) :
  Fs.readFileSync fs (Path.join root "package.json") = Some text ->
  JSON_parse text = Some pj ->
  UnusedDependenciesDetector_detect JSON_parse fs root files cfg = Ok l ->
  In f l ->
  isPackageUsed (ud_name f) (scanFiles fs (files ++ cfg)) = false /\
  ((ud_type f = dependency /\ ud_confidence f = (85 # 100)%Q /\
    In (ud_name f, ud_version f) (or_empty (pj_dependencies pj)))
   \/
   (ud_type f = devDependency /\ ud_confidence f = (75 # 100)%Q /\
    isKnownToolPackage (ud_name f) = false /\
    In (ud_name f, ud_version f) (or_empty (pj_devDependencies pj)))).
Proof.
  intros Hread Hparse Hdet Hin.
  rewrite (detect_ok JSON_parse fs root text pj files cfg Hread Hparse) in Hdet.
  injection Hdet as <-. apply in_app_or in Hin. destruct Hin as [Hin|Hin];
    apply in_map_iff in Hin; destruct Hin as [[name version] [<- He]];
    apply filter_In in He; destruct He as [He Hc]; simpl in *.
  - apply negb_true_iff in Hc. split; [assumption|]. left. auto.
  - apply andb_true_iff in Hc. destruct Hc as [Hk Hc].
    apply negb_true_iff in Hk, Hc. split; [assumption|]. right. auto.
Qed.

(** C7: without a manifest [detect] throws [package.json not found].  A
    file that cannot be read is left out of the scan and stops nothing: the
    result is that of the readable files alone, and whether [detect]
    returns does not depend on the scanned files.  The scan does go over the
    files that can be read: the usage set holds exactly the packages their
    texts import, none of which is reported; in particular no package is
    reported that a readable file imports by a statement
    [import x from 'spec'] before which the word import does not occur. *)
Theorem manifest_missing_is_fatal_read_failures_are_not
    (fs : FS) (root : string) (files cfg : list string) :
  (fs !! Path.join root "package.json" = None ->
   UnusedDependenciesDetector_detect JSON_parse fs root files cfg
   = Throw (Error "package.json not found"))
  /\
  UnusedDependenciesDetector_detect JSON_parse fs root files cfg
  = UnusedDependenciesDetector_detect JSON_parse fs root
      (List.filter (readable fs) files) (List.filter (readable fs) cfg)
  /\
  ((exists l, UnusedDependenciesDetector_detect JSON_parse fs root [] [] = Ok l) ->
   exists l, UnusedDependenciesDetector_detect JSON_parse fs root files cfg = Ok l)
  /\
  (forall p,
     In p (scanFiles fs (files ++ cfg)) <->
     exists file content,
       In file (files ++ cfg) /\ Fs.readFileSync fs file = Some content /\
       In p (extractImports content []))
  /\
  (forall l file content p,
     UnusedDependenciesDetector_detect JSON_parse fs root files cfg = Ok l ->
     In file (files ++ cfg) -> Fs.readFileSync fs file = Some content ->
     In p (extractImports content []) ->
     forall f, In f l -> ud_name f <> p)
  /\
  (forall l file pre x spec rest p,
     UnusedDependenciesDetector_detect JSON_parse fs root files cfg = Ok l ->
     In file (files ++ cfg) ->
     Fs.readFileSync fs file = Some (pre +:+ importFrom x spec rest) ->
     JsString.includes pre "import" = false ->
     x <> "" -> all_chars no_space x = true ->
     spec <> "" -> all_chars not_quote spec = true ->
     extractPackageName spec = Some p ->
     forall f, In f l -> ud_name f <> p).
Proof.
  assert (Hused : forall l file content p,
            UnusedDependenciesDetector_detect JSON_parse fs root files cfg = Ok l ->
            In file (files ++ cfg) -> Fs.readFileSync fs file = Some content ->
            In p (extractImports content []) ->
            forall f, In f l -> ud_name f <> p).
  { intros l file content p Hdet Hfile Hread Hp f Hf Hname.
    destruct (detect_inv fs root files cfg l Hdet) as [text [pj [Hr Hpj]]].
    destruct (detect_findings fs root text pj files cfg l f Hr Hpj Hdet Hf)
      as [Hunused _].
    assert (Hin : In p (scanFiles fs (files ++ cfg)))
      by (now apply (scanFiles_In fs (files ++ cfg) file content)).
    rewrite Hname in Hunused.
    assert (Hyes : isPackageUsed p (scanFiles fs (files ++ cfg)) = true)
      by (apply isPackageUsed_iff; now left).
    congruence. }
  split; [|split; [|split; [|split; [|split]]]].
  - intros Hnone. unfold UnusedDependenciesDetector_detect, Fs.existsSync.
    now rewrite Hnone.
  - unfold UnusedDependenciesDetector_detect.
    destruct (negb (Fs.existsSync fs (Path.join root "package.json"))); [reflexivity|].
    destruct (Fs.readFileSync fs (Path.join root "package.json")); [|reflexivity].
    destruct (JSON_parse s); [|reflexivity].
    cbv zeta.
    rewrite (scanFiles_readable fs (files ++ cfg)), List.filter_app.
    reflexivity.
  - intros [l Hl]. now apply (detect_returns JSON_parse fs root [] [] files cfg l).
  - intros p. apply scanFiles_iff.
  - exact Hused.
  - intros l file pre x spec rest p Hdet Hfile Hread Hpre Hx Hxs Hspec Hq Hp.
    apply (Hused l file (pre +:+ importFrom x spec rest) p Hdet Hfile Hread).
    now apply import_from_is_scanned.
Qed.

(** C8, as the code has it: a declared scoped package gets no finding when
    the scan of a file that is read recognises an import of a package of the
    same scope, as it does for a file in which the word import occurs
    first in a statement [import x from 'spec'] where [spec] names the
    sibling; the usage test is
    membership or, for a name with a slash, a used package under the same
    scope. *)
Theorem scoped_sibling_is_not_flagged
    (fs : FS) (root : string) (files cfg : list string)
    (findings : list UnusedDependency)
    (scope name sibling file : string) :
  UnusedDependenciesDetector_detect JSON_parse fs root files cfg = Ok findings ->
  JsString.includes scope "/" = false ->
  In file (files ++ cfg) ->
  (forall content,
     Fs.readFileSync fs file = Some content ->
     In (scope +:+ "/" +:+ sibling) (extractImports content []) ->
     forall f, In f findings -> ud_name f <> scope +:+ "/" +:+ name)
  /\
  (forall pre x spec rest,
     Fs.readFileSync fs file = Some (pre +:+ importFrom x spec rest) ->
     JsString.includes pre "import" = false ->
     x <> "" -> all_chars no_space x = true ->
     spec <> "" -> all_chars not_quote spec = true ->
     extractPackageName spec = Some (scope +:+ "/" +:+ sibling) ->
     forall f, In f findings -> ud_name f <> scope +:+ "/" +:+ name)
  /\
  (forall p used,
     isPackageUsed p used = true <->
     In p used \/
     (JsString.includes p "/" = true /\
      exists u, In u used /\
                JsString.startsWith u (hd "" (JsString.split "/" p) +:+ "/") = true)).
Proof.
  intros Hdet Hscope Hfile.
  assert (Hgen : forall content,
            Fs.readFileSync fs file = Some content ->
            In (scope +:+ "/" +:+ sibling) (extractImports content []) ->
            forall f, In f findings -> ud_name f <> scope +:+ "/" +:+ name).
  { intros content Hread Himp f Hf Hname.
    destruct (detect_inv fs root files cfg findings Hdet) as [text [pj [Hr Hp]]].
    destruct (detect_findings fs root text pj files cfg findings f Hr Hp Hdet Hf)
      as [Hunused _].
    rewrite Hname in Hunused.
    rewrite (sibling_confirms scope name sibling (scanFiles fs (files ++ cfg)) Hscope)
      in Hunused; [discriminate|].
    now apply (scanFiles_In fs (files ++ cfg) file content). }
  split; [exact Hgen|]. split; [|apply isPackageUsed_iff].
  intros pre x spec rest Hread Hpre Hx Hxs Hspec Hq Hp.
  apply (Hgen (pre +:+ importFrom x spec rest) Hread).
  now apply import_from_is_scanned.
Qed.

End Findings.

Lemma manifest_missing_is_fatal_read_failures_are_not_witness :
  UnusedDependenciesDetector_detect Samples.parseManifest ∅ "/p"
    ["/p/src/index.js"] []
  = Throw (Error "package.json not found")
  /\
  UnusedDependenciesDetector_detect Cases3.parseManifest Cases3.lockedFs "/p"
    ["/p/src/locked.js"; "/p/src/index.js"; "/p/src/gone.js"] []
  = UnusedDependenciesDetector_detect Cases3.parseManifest Cases3.lockedFs "/p"
      ["/p/src/index.js"] []
  /\
  UnusedDependenciesDetector_detect Cases3.parseManifest Cases3.lockedFs "/p"
    ["/p/src/locked.js"; "/p/src/index.js"; "/p/src/gone.js"] []
  = Ok [dependencyFinding ("lodash", "^4.17.0"); devDependencyFinding ("left-pad", "1.3.0")]
  /\
  List.Forall (fun f => ud_name f <> "react")
    [dependencyFinding ("lodash", "^4.17.0"); devDependencyFinding ("left-pad", "1.3.0")].
Proof.
  split; [|split; [|split]].
  - apply (proj1 (manifest_missing_is_fatal_read_failures_are_not
                    Samples.parseManifest ∅ "/p" ["/p/src/index.js"] [])).
    reflexivity.
  - apply (proj1 (proj2 (manifest_missing_is_fatal_read_failures_are_not
                           Cases3.parseManifest Cases3.lockedFs "/p"
                           ["/p/src/locked.js"; "/p/src/index.js"; "/p/src/gone.js"]
                           []))).
  - vm_compute. reflexivity.
  - apply List.Forall_forall.
    apply (proj2 (proj2 (proj2 (proj2 (proj2
             (manifest_missing_is_fatal_read_failures_are_not
                Cases3.parseManifest Cases3.lockedFs "/p"
                ["/p/src/locked.js"; "/p/src/index.js"; "/p/src/gone.js"] [])))))
             _ "/p/src/index.js" "" "React" "react" "" "react").
    + vm_compute. reflexivity.
    + right. left. reflexivity.
    + reflexivity.
    + reflexivity.
    + discriminate.
    + reflexivity.
    + discriminate.
    + reflexivity.
    + reflexivity.
Defined.

Lemma scoped_sibling_is_not_flagged_witness :
  UnusedDependenciesDetector_detect Samples.parseManifest Samples.headedFs "/p"
    ["/p/src/index.js"] ["/p/package.json"] = Ok []
  /\
  Fs.readFileSync Samples.headedFs "/p/src/index.js"
  = Some ("// entry
" +:+ importFrom "x" "@babel/parser" "
x.parse()")
  /\
  (forall f, In f [] -> ud_name f <> "@babel" +:+ "/" +:+ "core")
  /\
  (forall p used,
     isPackageUsed p used = true <->
     In p used \/
     (JsString.includes p "/" = true /\
      exists u, In u used /\
                JsString.startsWith u (hd "" (JsString.split "/" p) +:+ "/") = true)).
Proof.
  split; [vm_compute; reflexivity|]. split; [reflexivity|].
  destruct (scoped_sibling_is_not_flagged Samples.parseManifest Samples.headedFs "/p"
              ["/p/src/index.js"] ["/p/package.json"] []
              "@babel" "core" "parser" "/p/src/index.js")
    as [_ [Hsyn Htest]].
  - vm_compute. reflexivity.
  - reflexivity.
  - left. reflexivity.
  - split; [|exact Htest].
    apply (Hsyn "// entry
" "x" "@babel/parser" "
x.parse()").
    + reflexivity.
    + reflexivity.
    + discriminate.
    + reflexivity.
    + discriminate.
    + reflexivity.
    + reflexivity.
Defined.

(** The same for a file that is the import alone. *)
Example sibling_import_alone :
  UnusedDependenciesDetector_detect Samples.parseManifest Samples.babelFs "/p"
    ["/p/src/index.js"] ["/p/package.json"] = Ok [].
Proof. vm_compute. reflexivity. Qed.

(** C8 as stated fails: with [@babel/core] declared and imported nowhere, the
    only source file is the statement [import '@babel/parser'], an import of
    a sibling package that none of the three patterns of the scan
    recognises: the usage set is empty and [@babel/core] is reported. *)
Lemma bare_import_counterexample :
  Fs.readFileSync Samples.bareFs "/p/src/index.js" = Some "import '@babel/parser'"
  /\
  extractImports "import '@babel/parser'" [] = []
  /\
  UnusedDependenciesDetector_detect Samples.parseManifest Samples.bareFs "/p"
    ["/p/src/index.js"] ["/p/package.json"]
  = Ok [dependencyFinding ("@babel/core", "^7.0.0")]
  /\
  ~ (forall f, In f [dependencyFinding ("@babel/core", "^7.0.0")] ->
               ud_name f <> "@babel/core").
Proof.
  split; [reflexivity|]. split; [vm_compute; reflexivity|].
  split; [vm_compute; reflexivity|].
  intros H. apply (H (dependencyFinding ("@babel/core", "^7.0.0"))).
  - left. reflexivity.
  - reflexivity.
Qed.

(** An import clause broken over several lines escapes the first pattern
    too, whose wildcard stops at a line break. *)
Example multi_line_import_is_not_scanned :
  extractImports "import {
  parse
} from '@babel/parser'" [] = [].
Proof. vm_compute. reflexivity. Qed.

(** Without the file that imports the sibling the package is reported. *)
Example unconfirmed_scoped_package :
  UnusedDependenciesDetector_detect Samples.parseManifest Samples.babelFs "/p"
    [] ["/p/package.json"]
  = Ok [dependencyFinding ("@babel/core", "^7.0.0")].
Proof. vm_compute. reflexivity. Qed.

(** ** The confidence floor *)

Lemma groupByFile_skips (opts : FixerOptions) (imps : list UnusedImport) :
  groupByFile opts imps
  = groupByFile opts
      (List.filter (fun i => negb (skips opts (ui_confidence i))) imps).
Proof.
  unfold groupByFile. generalize (@nil (string * list UnusedImport)) as acc.
  induction imps as [|i imps IH]; intros acc; simpl; [reflexivity|].
  destruct (skips opts (ui_confidence i)) eqn:Hs; simpl.
  - apply IH.
  - rewrite Hs. apply IH.
Qed.

Lemma applyDependency_skips (opts : FixerOptions) (deps : list UnusedDependency) :
  forall st,
    fold_left (applyDependency opts) deps st
    = fold_left (applyDependency opts)
        (List.filter (fun d => negb (skips opts (ud_confidence d))) deps) st.
Proof.
  induction deps as [|d deps IH]; intros st; simpl; [reflexivity|].
  destruct (skips opts (ud_confidence d)) eqn:Hs; simpl.
  - unfold applyDependency at 2. rewrite Hs. apply IH.
  - apply IH.
Qed.

Lemma filter_none {A : Type} (c : A -> bool) (l : list A) :
  (forall x, In x l -> c x = false) -> List.filter c l = [].
Proof.
  induction l as [|x l IH]; intros H; simpl; [reflexivity|].
  rewrite (H x) by now left. apply IH. intros y Hy. apply H. now right.
Qed.

Section Floor.

Variable JSON_parse : string -> option PackageJson.
Variable JSON_stringify : PackageJson -> string.
Variable runTests : FS -> bool.
Variable cwd : string.

Abbreviation run := (AutoFixer_fix JSON_parse JSON_stringify runTests cwd).

(** The fixer reads a result only through the findings safe mode lets
    through. *)
Lemma fix_aboveFloor (opts : FixerOptions) (result : AnalysisResult) (fs : FS) :
  safeMode opts = true ->
  run opts result fs = run opts (aboveFloor result) fs.
Proof.
  intros Hsafe.
  assert (Hi : forall q, negb (skips opts q) = negb (Qltb q floor)).
  { intros q. unfold skips. now rewrite Hsafe. }
  unfold AutoFixer_fix, fixUnusedImports, fixUnusedDependencies, aboveFloor.
  cbn [unusedImports unusedDependencies].
  rewrite (groupByFile_skips opts (unusedImports result)).
  rewrite (groupByFile_skips opts
             (List.filter (fun i => negb (Qltb (ui_confidence i) floor))
                (unusedImports result))).
  rewrite (filter_ext _ _ (fun i => Hi (ui_confidence i))).
  rewrite (filter_ext (fun i => negb (skips opts (ui_confidence i))) _
             (fun i => Hi (ui_confidence i))
             (List.filter (fun i => negb (Qltb (ui_confidence i) floor))
                (unusedImports result))).
  assert (Hff : forall (A : Type) (c : A -> bool) (l : list A),
             List.filter c (List.filter c l) = List.filter c l).
  { intros A c l. induction l as [|x l IH]; simpl; [reflexivity|].
    destruct (c x) eqn:Hc; simpl; [rewrite Hc, IH|]; auto. }
  rewrite Hff.
  destruct (fold_left fixFile _ _) as [fs1 fr1].
  destruct (Fs.readFileSync fs1 (Path.join cwd "package.json")) as [text|];
    [|reflexivity].
  destruct (JSON_parse text) as [pj|]; [|reflexivity].
  rewrite (applyDependency_skips opts (unusedDependencies result)).
  rewrite (applyDependency_skips opts
             (List.filter (fun d => negb (Qltb (ud_confidence d) floor))
                (unusedDependencies result))).
  rewrite (filter_ext _ _ (fun d => Hi (ud_confidence d))).
  rewrite (filter_ext (fun d => negb (skips opts (ud_confidence d))) _
             (fun d => Hi (ud_confidence d))
             (List.filter (fun d => negb (Qltb (ud_confidence d) floor))
                (unusedDependencies result))).
  rewrite Hff. reflexivity.
Qed.

(** C6: in safe mode the fixer behaves as if the findings below 0.8 were
    not in the result: the file system and the outcome are those of the
    result without them.  When every finding is below the floor nothing is
    written, nothing is counted or listed as removed, and the only error
    the outcome can carry is that of an unreadable manifest.  The result
    handed to the fixer is a value the fixer never writes to. *)
Theorem safe_mode_skips_low_confidence
    (opts : FixerOptions) (result : AnalysisResult) (fs : FS) :
  safeMode opts = true ->
  run opts result fs = run opts (aboveFloor result) fs
  /\
  ((forall i, In i (unusedImports result) -> Qltb (ui_confidence i) floor = true) ->
   (forall d, In d (unusedDependencies result) -> Qltb (ud_confidence d) floor = true) ->
   fst (run opts result fs) = fs /\
   filesModified (snd (run opts result fs)) = [] /\
   importsRemoved (snd (run opts result fs)) = 0%nat /\
   dependenciesRemoved (snd (run opts result fs)) = [] /\
   success (snd (run opts result fs)) = true /\
   (forall e, In e (errors (snd (run opts result fs))) ->
              e = "Failed to fix dependencies in package.json")).
Proof.
  intros Hsafe. split; [now apply fix_aboveFloor|].
  intros Hi Hd. rewrite (fix_aboveFloor opts result fs Hsafe).
  unfold aboveFloor.
  rewrite (filter_none _ (unusedImports result)),
          (filter_none _ (unusedDependencies result)).
  2: { intros d Hin. now rewrite (Hd d Hin). }
  2: { intros i Hin. now rewrite (Hi i Hin). }
  unfold AutoFixer_fix, fixUnusedImports, fixUnusedDependencies. simpl.
  destruct (Fs.readFileSync fs (Path.join cwd "package.json")) as [text|].
  - destruct (JSON_parse text) as [pj|]; simpl; rewrite andb_false_r; simpl.
    + repeat split; try reflexivity. intros e [].
    + repeat split; try reflexivity. intros e [<-|[]]. reflexivity.
  - simpl. rewrite andb_false_r. simpl.
    repeat split; try reflexivity. intros e [<-|[]]. reflexivity.
Qed.

End Floor.

(** ** The order of the edits *)

Lemma insertDesc_perm (x : UnusedImport) (l : list UnusedImport) :
  Permutation (insertDesc x l) (x :: l).
Proof.
  induction l as [|y l IH]; simpl; [reflexivity|].
  destruct (ui_line x <? ui_line y)%Z; [|reflexivity].
  rewrite IH. apply perm_swap.
Qed.

Lemma sortDesc_perm (l : list UnusedImport) : Permutation (sortDesc l) l.
Proof.
  induction l as [|x l IH]; simpl; [reflexivity|].
  rewrite insertDesc_perm. now constructor.
Qed.






(** ** Removing whole lines *)

Lemma splice1_length (i : nat) (l : list string) :
  (i < length l)%nat -> length (splice1 i l) = pred (length l).
Proof.
  intros Hi. unfold splice1.
  rewrite length_app, length_firstn, length_skipn. lia.
Qed.


(** A finding whose line holds nothing but its import removes the line. *)
Lemma applyImport_sole (st : EditState) (imp : UnusedImport) (i : nat) (line : string) :
  ui_line imp = Z.of_nat (S i) ->
  nth_error (es_lines st) i = Some line ->
  JsString.includes line (ui_importName imp) = true ->
  JsString.includes line (ui_source imp) = true ->
  isOnlyImportOnLine line (ui_importName imp) = true ->
  applyImport st imp
  = mkEditState (splice1 i (es_lines st)) true (S (es_removed st)).
Proof.
  intros Hline Hnth Hname Hsrc Hsole. unfold applyImport.
  assert (Hlen : (i < length (es_lines st))%nat).
  { apply nth_error_Some. now rewrite Hnth. }
  replace (ui_line imp - 1)%Z with (Z.of_nat i) by lia.
  rewrite Nat2Z.id.
  destruct (Z.leb_spec 0 (Z.of_nat i)); [|lia].
  destruct (Z.ltb_spec (Z.of_nat i) (Z.of_nat (length (es_lines st)))); [|lia].
  simpl. now rewrite Hnth, Hname, Hsrc, Hsole.
Qed.






(** ** What each pass leaves alone *)

Section Passes.

Variable JSON_parse : string -> option PackageJson.
Variable JSON_stringify : PackageJson -> string.
Variable runTests : FS -> bool.
Variable cwd : string.

Abbreviation manifestPath := (Path.join cwd "package.json").
Abbreviation dependenciesPass := (fixUnusedDependencies JSON_parse JSON_stringify cwd).
Abbreviation fixer := (AutoFixer_fix JSON_parse JSON_stringify runTests cwd).

(** The file system after the passes is the file system [fix] leaves:
    the verification step changes [success] and [errors] only. *)
Lemma fix_passes (opts : FixerOptions) (result : AnalysisResult) (fs : FS) :
  let w := dependenciesPass opts result (fixUnusedImports opts result
                                           (fs, mkFixResult true [] 0 [] [])) in
  fst (fixer opts result fs) = fst w /\
  filesModified (snd (fixer opts result fs)) = filesModified (snd w) /\
  importsRemoved (snd (fixer opts result fs)) = importsRemoved (snd w) /\
  dependenciesRemoved (snd (fixer opts result fs)) = dependenciesRemoved (snd w).
Proof.
  intros w. unfold AutoFixer_fix. fold w. destruct w as [fs2 fr2].
  destruct (requireTests opts && (0 <? length (filesModified fr2))%nat);
    [destruct (negb (runTests fs2))|]; simpl; auto.
Qed.

(** The dependencies pass touches the manifest only, and neither the
    import counter nor the names removed before it. *)
Lemma dependenciesPass_frame (opts : FixerOptions) (result : AnalysisResult)
    (fs : FS) (fr : FixResult) (p : string) :
  p <> manifestPath ->
  fst (dependenciesPass opts result (fs, fr)) !! p = fs !! p.
Proof.
  intros Hp. unfold fixUnusedDependencies.
  destruct (Fs.readFileSync fs manifestPath) as [text|]; [|reflexivity].
  destruct (JSON_parse text) as [pj|]; [|reflexivity].
  destruct (ds_modified _); [|reflexivity].
  unfold Fs.writeFileSync.
  destruct (fs !! manifestPath) as [e|].
  - destruct (e_writable e); [|reflexivity]. simpl.
    now rewrite lookup_insert_ne by congruence.
  - simpl. now rewrite lookup_insert_ne by congruence.
Qed.

Lemma dependenciesPass_importsRemoved (opts : FixerOptions) (result : AnalysisResult)
    (fs : FS) (fr : FixResult) :
  importsRemoved (snd (dependenciesPass opts result (fs, fr))) = importsRemoved fr.
Proof.
  unfold fixUnusedDependencies.
  destruct (Fs.readFileSync fs manifestPath) as [text|]; [|reflexivity].
  destruct (JSON_parse text) as [pj|]; [|reflexivity].
  destruct (ds_modified _); [|reflexivity].
  destruct (Fs.writeFileSync fs manifestPath _); reflexivity.
Qed.

End Passes.

(** The imports pass touches the files of its findings only, and never the
    list of removed dependencies. *)
Lemma fixFile_frame (w : World) (group : string * list UnusedImport) (p : string) :
  p <> fst group ->
  fst (fixFile w group) !! p = fst w !! p /\
  dependenciesRemoved (snd (fixFile w group)) = dependenciesRemoved (snd w).
Proof.
  destruct w as [fs fr], group as [filePath imps]. simpl. intros Hp.
  destruct (Fs.readFileSync fs filePath) as [content|]; [|now split].
  destruct (es_modified _); [|now split].
  unfold Fs.writeFileSync.
  destruct (fs !! filePath) as [e|].
  - destruct (e_writable e); [|now split]. simpl.
    now rewrite lookup_insert_ne by congruence.
  - simpl. now rewrite lookup_insert_ne by congruence.
Qed.

Lemma byFile_push_keys (k : string) (v : UnusedImport) (m : ByFile) (x : string) :
  In x (map fst (byFile_push k v m)) -> x = k \/ In x (map fst m).
Proof.
  induction m as [|[k' l] m IH]; simpl.
  - intros [<-|[]]. now left.
  - destruct (String.eqb k' k); simpl.
    + intros [<-|H]; auto.
    + intros [<-|H]; auto. destruct (IH H); auto.
Qed.

Lemma groupByFile_keys (opts : FixerOptions) (imps : list UnusedImport) (x : string) :
  In x (map fst (groupByFile opts imps)) -> exists i, In i imps /\ ui_file i = x.
Proof.
  unfold groupByFile.
  assert (H : forall acc,
             In x (map fst
                     (fold_left
                        (fun byFile imp =>
                           if skips opts (ui_confidence imp) then byFile
                           else byFile_push (ui_file imp) imp byFile) imps acc)) ->
             In x (map fst acc) \/ exists i, In i imps /\ ui_file i = x).
  { induction imps as [|i imps IH]; intros acc; simpl; [now left|].
    intros Hin. apply IH in Hin. destruct Hin as [Hin|[j [Hj Hf]]].
    - destruct (skips opts (ui_confidence i)); [now left|].
      apply byFile_push_keys in Hin. destruct Hin as [->|Hin]; [|now left].
      right. exists i. auto.
    - right. exists j. auto. }
  intros Hin. destruct (H [] Hin) as [[]|Hex]. assumption.
Qed.

Lemma fixUnusedImports_frame (opts : FixerOptions) (result : AnalysisResult)
    (w : World) (p : string) :
  (forall i, In i (unusedImports result) -> ui_file i <> p) ->
  fst (fixUnusedImports opts result w) !! p = fst w !! p /\
  dependenciesRemoved (snd (fixUnusedImports opts result w))
  = dependenciesRemoved (snd w).
Proof.
  intros Hfiles. unfold fixUnusedImports.
  assert (Hkeys : forall g, In g (groupByFile opts (unusedImports result)) -> p <> fst g).
  { intros g Hg Heq.
    destruct (groupByFile_keys opts (unusedImports result) (fst g)) as [i [Hi Hf]].
    - now apply in_map.
    - apply (Hfiles i Hi). congruence. }
  revert w Hkeys. induction (groupByFile opts (unusedImports result)) as [|g gs IH];
    intros w Hkeys; simpl; [now split|].
  destruct (IH (fixFile w g)) as [-> ->]; [intros g' Hg'; apply Hkeys; now right|].
  apply fixFile_frame. apply Hkeys. now left.
Qed.

(** ** Removing the only import of a file *)

Lemma high_confidence_not_skipped (opts : FixerOptions) :
  skips opts (95 # 100) = false.
Proof. unfold skips. now destruct (safeMode opts). Qed.

(** One sole import, on line [i + 1]. *)
Lemma one_sole_import (opts : FixerOptions) (fs : FS) (fr : FixResult)
    (deps : list UnusedDependency) (e : Entry) (i : nat) (f : UnusedImport)
    (line : string) :
  ui_line f = Z.of_nat (S i) ->
  skips opts (ui_confidence f) = false ->
  fs !! ui_file f = Some e -> e_readable e = true -> e_writable e = true ->
  let lines := JsString.split JsString.newline (e_data e) in
  nth_error lines i = Some line ->
  JsString.includes line (ui_importName f) = true ->
  JsString.includes line (ui_source f) = true ->
  isOnlyImportOnLine line (ui_importName f) = true ->
  fixUnusedImports opts (mkAnalysisResult [f] deps) (fs, fr)
  = (<[ui_file f := mkEntry (JsString.join "
" (splice1 i lines)) true true]> fs,
     push_file (ui_file f) (set_importsRemoved (1 + importsRemoved fr) fr)).
Proof.
  intros Hline Hskip He Hr Hw lines Hnth Hn Hs Ho.
  unfold fixUnusedImports, groupByFile. cbn [unusedImports fold_left].
  rewrite Hskip. cbn [byFile_push fold_left]. unfold fixFile.
  unfold Fs.readFileSync, Fs.writeFileSync. rewrite He, Hr, Hw.
  fold lines. cbn [sortDesc fold_right insertDesc fold_left].
  rewrite (applyImport_sole (mkEditState lines false (importsRemoved fr)) f i line
             Hline Hnth Hn Hs Ho).
  reflexivity.
Qed.

Section RoundTrip.

Variable babel_parse : string -> SourceType -> list string -> option Node.
Variable JSON_parse : string -> option PackageJson.
Variable JSON_stringify : PackageJson -> string.
Variable runTests : FS -> bool.
Variable cwd : string.

(** A file none of whose parses declares an import has no findings. *)
Lemma no_imports_no_findings (fs : FS) (filePath code : string) :
  Fs.readFileSync fs filePath = Some code ->
  (forall st plugins ast,
     babel_parse code st plugins = Some ast -> importDeclarations ast = []) ->
  findUnusedImports babel_parse fs filePath = [].
Proof.
  intros Hread Hnone.
  destruct (parseAst babel_parse code filePath) as [ast|] eqn:Hast.
  - rewrite (findUnusedImports_parsed babel_parse fs filePath code ast Hread Hast).
    cbv zeta. rewrite analysis_imports.
    assert (Hd : importDeclarations ast = []).
    { unfold parseAst in Hast.
      destruct (babel_parse code SourceModule (pluginsFor filePath)) as [a|] eqn:Hm.
      - injection Hast as <-. now apply (Hnone _ _ _ Hm).
      - now apply (Hnone _ _ _ Hast). }
    now rewrite Hd.
  - apply findUnusedImports_unparsed. unfold parseFile, parseCode.
    now rewrite Hread, Hast.
Qed.

(** C5: a file whose only import declaration is the line
    [import unused from 'pkg'], never referring to [unused]: detection
    finds that import; the fixer removes the whole line and counts one
    import removed; and detection on the resulting file finds nothing. *)
Theorem import_fix_round_trip
    (opts : FixerOptions) (fs : FS) (path : string) (e : Entry) (ast : Node)
    (i : nat) (column : Z) (line : string) (attributes : list Node)
    (deps : list UnusedDependency) :
  fs !! path = Some e -> e_readable e = true -> e_writable e = true ->
  path <> Path.join cwd "package.json" ->
  let lines := JsString.split JsString.newline (e_data e) in
  nth_error lines i = Some line ->
  line = "import unused from 'pkg'" \/ line = "import unused from 'pkg';" ->
  parseAst babel_parse (e_data e) path = Some ast ->
  importDeclarations ast
  = [ImportDeclaration
       [ImportDefaultSpecifier (Identifier "unused" None [])
          (Some (mkLoc (Z.of_nat (S i)) column))] "pkg" attributes] ->
  refers "unused" ast = false ->
  let fixed := JsString.join "
" (splice1 i lines) in
  (forall st plugins ast',
     babel_parse fixed st plugins = Some ast' -> importDeclarations ast' = []) ->
  let found := findUnusedImports babel_parse fs path in
  let after :=
    AutoFixer_fix JSON_parse JSON_stringify runTests cwd opts
      (mkAnalysisResult found deps) fs in
  found = [mkUnusedImport path (Z.of_nat (S i)) column "unused" "pkg" (95 # 100)] /\
  fst after !! path = Some (mkEntry fixed true true) /\
  importsRemoved (snd after) = 1%nat /\
  findUnusedImports babel_parse (fst after) path = [].
Proof.
  intros He Hr Hw Hpath lines Hnth Hline Hast Hdecl Href fixed Hfixed found after.
  assert (Hread : Fs.readFileSync fs path = Some (e_data e)).
  { unfold Fs.readFileSync. now rewrite He, Hr. }
  assert (Hfound : found
                   = [mkUnusedImport path (Z.of_nat (S i)) column "unused" "pkg"
                        (95 # 100)]).
  { subst found.
    rewrite (findUnusedImports_parsed babel_parse fs path (e_data e) ast Hread Hast).
    cbv zeta. rewrite analysis_imports, Hdecl.
    cbn [flat_map declared Visitor.visit_ImportDeclaration fold_left
         Visitor.import_of_specifier ident_name].
    simpl. unfold isUsed. cbn [ii_name ii_isNamespace].
    destruct (JsSet.has _ "unused") eqn:Hh.
    - apply has_In in Hh. now apply unreferenced_not_used in Hh.
    - reflexivity. }
  split; [assumption|].
  set (f := mkUnusedImport path (Z.of_nat (S i)) column "unused" "pkg" (95 # 100)).
  assert (Hpass : fixUnusedImports opts (mkAnalysisResult found deps)
                    (fs, mkFixResult true [] 0 [] [])
                  = (<[path := mkEntry fixed true true]> fs,
                     push_file path
                       (set_importsRemoved 1 (mkFixResult true [] 0 [] [])))).
  { rewrite Hfound.
    apply (one_sole_import opts fs (mkFixResult true [] 0 [] []) deps e i f line);
      try assumption; try reflexivity.
    - apply high_confidence_not_skipped.
    - destruct Hline as [-> | ->]; reflexivity.
    - destruct Hline as [-> | ->]; reflexivity.
    - destruct Hline as [-> | ->]; reflexivity. }
  destruct (fix_passes JSON_parse JSON_stringify runTests cwd opts
              (mkAnalysisResult found deps) fs) as [Hfs [_ [Hcount _]]].
  fold after in Hfs, Hcount. rewrite Hpass in Hfs, Hcount.
  assert (Hentry : fst after !! path = Some (mkEntry fixed true true)).
  { rewrite Hfs.
    rewrite (dependenciesPass_frame JSON_parse JSON_stringify cwd opts _ _ _ path Hpath).
    apply lookup_insert_eq. }
  split; [assumption|]. split.
  - rewrite Hcount. now rewrite dependenciesPass_importsRemoved.
  - apply (no_imports_no_findings (fst after) path fixed); [|assumption].
    unfold Fs.readFileSync. now rewrite Hentry.
Qed.

End RoundTrip.

Lemma import_fix_round_trip_witness :
  let found := findUnusedImports Samples.parse Samples.twoFs "/p/src/a.js" in
  let after :=
    AutoFixer_fix Samples.parseManifest Samples.stringify runTests_stub "/p"
      defaultOptions (mkAnalysisResult found []) Samples.twoFs in
  found = [Samples.aFinding] /\
  fst after !! "/p/src/a.js" = Some (mkEntry "foo()" true true) /\
  importsRemoved (snd after) = 1%nat /\
  findUnusedImports Samples.parse (fst after) "/p/src/a.js" = [].
Proof.
  apply (import_fix_round_trip Samples.parse Samples.parseManifest Samples.stringify
           runTests_stub "/p" defaultOptions Samples.twoFs "/p/src/a.js"
           (Samples.plainFile Samples.aCode) Samples.aAst 0 7
           "import unused from 'pkg'" []).
  - reflexivity.
  - reflexivity.
  - reflexivity.
  - discriminate.
  - reflexivity.
  - left. reflexivity.
  - reflexivity.
  - reflexivity.
  - reflexivity.
  - intros st plugins ast' H. vm_compute in H. injection H as <-. reflexivity.
Defined.

(** ** Verification and rollback *)


(** The file system [fix] leaves is the one the two passes produced, whatever
    the test run answered. *)
Lemma fix_keeps_mutations (JSON_parse : string -> option PackageJson)
    (JSON_stringify : PackageJson -> string) (runTests : FS -> bool) (cwd : string)
    (opts : FixerOptions) (result : AnalysisResult) (fs : FS) :
  fst (AutoFixer_fix JSON_parse JSON_stringify runTests cwd opts result fs)
  = fst (fixUnusedDependencies JSON_parse JSON_stringify cwd opts result
           (fixUnusedImports opts result (fs, mkFixResult true [] 0 [] []))).
Proof. apply fix_passes. Qed.

Lemma fixUnusedImports_success (opts : FixerOptions) (result : AnalysisResult) (w : World) :
  success (snd (fixUnusedImports opts result w)) = success (snd w).
Proof.
  unfold fixUnusedImports. revert w.
  induction (groupByFile opts (unusedImports result)) as [|g gs IH];
    intros w; simpl; [reflexivity|].
  rewrite IH. destruct w as [fs0 fr0], g as [filePath imps]. simpl.
  destruct (Fs.readFileSync fs0 filePath); [|reflexivity].
  destruct (es_modified _); [|reflexivity].
  destruct (Fs.writeFileSync fs0 filePath _); reflexivity.
Qed.

Lemma fixUnusedDependencies_success (JSON_parse : string -> option PackageJson)
    (JSON_stringify : PackageJson -> string) (cwd : string)
    (opts : FixerOptions) (result : AnalysisResult) (w : World) :
  success (snd (fixUnusedDependencies JSON_parse JSON_stringify cwd opts result w))
  = success (snd w).
Proof.
  destruct w as [fs fr]. unfold fixUnusedDependencies.
  destruct (Fs.readFileSync fs (Path.join cwd "package.json")) as [text|];
    [|reflexivity].
  destruct (JSON_parse text) as [pj|]; [|reflexivity].
  destruct (ds_modified _); [|reflexivity].
  destruct (Fs.writeFileSync fs (Path.join cwd "package.json") _); reflexivity.
Qed.

(** With the test runner of the source the failure branch is never taken. *)
Lemma stub_never_fails (JSON_parse : string -> option PackageJson)
    (JSON_stringify : PackageJson -> string) (cwd : string)
    (opts : FixerOptions) (result : AnalysisResult) (fs : FS) :
  success (snd (AutoFixer_fix JSON_parse JSON_stringify runTests_stub cwd opts result fs))
  = true.
Proof.
  unfold AutoFixer_fix.
  pose proof (fixUnusedDependencies_success JSON_parse JSON_stringify cwd opts result
                (fixUnusedImports opts result (fs, mkFixResult true [] 0 [] []))) as H.
  rewrite fixUnusedImports_success in H.
  destruct (fixUnusedDependencies _ _ _ _ _ _) as [fs2 fr2]. simpl in H.
  unfold runTests_stub. simpl.
  destruct (requireTests opts && (0 <? length (filesModified fr2))%nat); assumption.
Qed.



Lemma safe_mode_skips_low_confidence_witness :
  let result := mkAnalysisResult [Samples.lowImport] [Samples.lowDependency] in
  let run :=
    AutoFixer_fix Samples.parseManifest Samples.stringify runTests_stub "/p"
      defaultOptions in
  run result Samples.twoFs = run (aboveFloor result) Samples.twoFs /\
  fst (run result Samples.twoFs) = Samples.twoFs /\
  filesModified (snd (run result Samples.twoFs)) = [] /\
  importsRemoved (snd (run result Samples.twoFs)) = 0%nat /\
  dependenciesRemoved (snd (run result Samples.twoFs)) = [] /\
  success (snd (run result Samples.twoFs)) = true /\
  (forall e, In e (errors (snd (run result Samples.twoFs))) ->
             e = "Failed to fix dependencies in package.json").
Proof.
  intros result run.
  destruct (safe_mode_skips_low_confidence Samples.parseManifest Samples.stringify
              runTests_stub "/p" defaultOptions result Samples.twoFs eq_refl)
    as [Heq Hlow].
  split; [exact Heq|].
  apply Hlow.
  - intros i [<-|[]]. reflexivity.
  - intros d [<-|[]]. reflexivity.
Defined.

(** ** What the dependencies pass deletes *)

Lemma delete_names (x n : string) (r : option StringRecord) :
  In n (names (option_map (Rec.delete x) r)) -> In n (names r).
Proof.
  unfold names. destruct r as [r|]; simpl; [|intros []].
  unfold Rec.delete. intros Hin. apply in_map_iff in Hin.
  destruct Hin as [kv [<- Hkv]]. apply filter_In in Hkv. apply in_map. tauto.
Qed.

(** The loop of the dependencies pass never touches the peer dependencies
    nor the other members of the manifest; when it passes over every
    devDependency finding it leaves the devDependencies too, and every name
    it pushes is a key of the dependencies. *)
Lemma applyDependency_fold (opts : FixerOptions) (deps : list UnusedDependency) :
  forall st,
    let st' := fold_left (applyDependency opts) deps st in
    pj_peerDependencies (ds_packageJson st') = pj_peerDependencies (ds_packageJson st) /\
    pj_others (ds_packageJson st') = pj_others (ds_packageJson st) /\
    ((forall d, In d deps -> ud_type d = devDependency ->
                skips opts (ud_confidence d) = true) ->
     pj_devDependencies (ds_packageJson st') = pj_devDependencies (ds_packageJson st) /\
     (forall n, In n (ds_removed st') ->
                In n (ds_removed st) \/
                exists d, In d deps /\ ud_type d = dependency /\ ud_name d = n)).
Proof.
  induction deps as [|d deps IH]; intros st; cbn [fold_left].
  - cbv zeta. repeat split; auto.
  - cbv zeta. specialize (IH (applyDependency opts st d)). cbv zeta in IH.
    destruct IH as [Hpeer [Hothers Hdev]].
    assert (Hstep :
              pj_peerDependencies (ds_packageJson (applyDependency opts st d))
              = pj_peerDependencies (ds_packageJson st) /\
              pj_others (ds_packageJson (applyDependency opts st d))
              = pj_others (ds_packageJson st) /\
              ((ud_type d = devDependency -> skips opts (ud_confidence d) = true) ->
               pj_devDependencies (ds_packageJson (applyDependency opts st d))
               = pj_devDependencies (ds_packageJson st) /\
               (forall n, In n (ds_removed (applyDependency opts st d)) ->
                          In n (ds_removed st) \/
                          (ud_type d = dependency /\ ud_name d = n)))).
    { unfold applyDependency.
      destruct (skips opts (ud_confidence d)) eqn:Hs; [repeat split; auto|].
      destruct (ud_type d) eqn:Ht.
      - destruct (Rec.truthy_at (pj_dependencies (ds_packageJson st)) (ud_name d)) eqn:Hy;
          [|repeat split; auto].
        cbn. repeat split; auto.
        intros n Hn. apply in_app_or in Hn. destruct Hn as [Hn|[<-|[]]]; [now left|].
        right. now split.
      - split; [now destruct (Rec.truthy_at _ _)|].
        split; [now destruct (Rec.truthy_at _ _)|].
        intros H. specialize (H eq_refl). discriminate.
      - repeat split; auto. }
    destruct Hstep as [Hp1 [Ho1 Hd1]].
    split; [congruence|]. split; [congruence|].
    intros Hall.
    destruct (Hd1 (Hall d (or_introl eq_refl))) as [Hdev1 Hrem1].
    destruct (Hdev (fun d' Hd' => Hall d' (or_intror Hd'))) as [Hdev2 Hrem2].
    split; [congruence|].
    intros n Hn. destruct (Hrem2 n Hn) as [H|[d' [Hd' [Ht' Hn']]]].
    + destruct (Hrem1 n H) as [H1|[Ht1 Hn1]]; [now left|].
      right. exists d. split; [now left|]. now split.
    + right. exists d'. split; [now right|]. now split.
Qed.

Section ManifestRewrite.

Variable JSON_parse : string -> option PackageJson.
Variable JSON_stringify : PackageJson -> string.
Variable runTests : FS -> bool.
Variable cwd : string.

(** What [fix] does to a manifest that can be read and parsed, when no
    import finding is about the manifest file itself: the names it reports
    are those its loop pushed, and the manifest file is either as it was or
    the rendering of the manifest the loop left in memory. *)
Lemma fix_manifest (opts : FixerOptions) (result : AnalysisResult) (fs : FS)
    (text : string) (pj : PackageJson) :
  Fs.readFileSync fs (Path.join cwd "package.json") = Some text ->
  JSON_parse text = Some pj ->
  (forall i, In i (unusedImports result) -> ui_file i <> Path.join cwd "package.json") ->
  let after := AutoFixer_fix JSON_parse JSON_stringify runTests cwd opts result fs in
  let st :=
    fold_left (applyDependency opts) (unusedDependencies result)
      (mkDepState pj false []) in
  dependenciesRemoved (snd after) = ds_removed st /\
  (Fs.readFileSync (fst after) (Path.join cwd "package.json") = Some text \/
   Fs.readFileSync (fst after) (Path.join cwd "package.json")
   = Some (JSON_stringify (manifestAfter opts (unusedDependencies result) pj) +:+ "
")).
Proof.
  intros Hread Hparse Hfiles after st.
  destruct (fix_passes JSON_parse JSON_stringify runTests cwd opts result fs)
    as [Hfs [_ [_ Hrem]]].
  fold after in Hfs, Hrem. rewrite Hfs, Hrem. clear Hfs Hrem after.
  destruct (fixUnusedImports_frame opts result (fs, mkFixResult true [] 0 [] [])
              (Path.join cwd "package.json") Hfiles) as [Hlook Hnone].
  destruct (fixUnusedImports opts result (fs, mkFixResult true [] 0 [] []))
    as [fs1 fr1].
  cbn [fst snd dependenciesRemoved] in Hlook, Hnone.
  assert (Hread1 : Fs.readFileSync fs1 (Path.join cwd "package.json") = Some text).
  { unfold Fs.readFileSync in *. now rewrite Hlook. }
  unfold fixUnusedDependencies. rewrite Hread1, Hparse, Hnone. fold st.
  unfold manifestAfter. fold st.
  destruct (ds_modified st); [|now split; [|left]].
  unfold Fs.writeFileSync. unfold Fs.readFileSync in Hread1.
  destruct (fs1 !! Path.join cwd "package.json") as [e|] eqn:He; [|discriminate].
  destruct (e_readable e) eqn:Hr; [|discriminate].
  destruct (e_writable e).
  - split; [reflexivity|]. right. cbn [fst]. unfold Fs.readFileSync.
    rewrite lookup_insert_eq. cbn. reflexivity.
  - split; [reflexivity|]. left. cbn [fst]. unfold Fs.readFileSync.
    now rewrite He, Hr.
Qed.

(** C9, as the code has it: in safe mode, on the findings of [detect], the
    devDependencies of the manifest are left as they were, in memory and in
    the file, and every name in [dependenciesRemoved] is a key of the
    dependencies: a devDependency name is listed only when the same name is
    declared under dependencies too. *)
Theorem safe_mode_keeps_devDependencies
    (opts : FixerOptions) (fs : FS) (text : string) (pj : PackageJson)
    (files cfg : list string) (deps : list UnusedDependency)
    (imps : list UnusedImport) :
  safeMode opts = true ->
  Fs.readFileSync fs (Path.join cwd "package.json") = Some text ->
  JSON_parse text = Some pj ->
  UnusedDependenciesDetector_detect JSON_parse fs cwd files cfg = Ok deps ->
  (forall i, In i imps -> ui_file i <> Path.join cwd "package.json") ->
  let after :=
    AutoFixer_fix JSON_parse JSON_stringify runTests cwd opts
      (mkAnalysisResult imps deps) fs in
  pj_devDependencies (manifestAfter opts deps pj) = pj_devDependencies pj /\
  (Fs.readFileSync (fst after) (Path.join cwd "package.json") = Some text \/
   Fs.readFileSync (fst after) (Path.join cwd "package.json")
   = Some (JSON_stringify (manifestAfter opts deps pj) +:+ "
")) /\
  (forall n, In n (dependenciesRemoved (snd after)) ->
             In n (names (pj_dependencies pj))).
Proof.
  intros Hsafe Hread Hparse Hdet Himps after.
  destruct (fix_manifest opts (mkAnalysisResult imps deps) fs text pj Hread Hparse Himps)
    as [Hrem Hfile].
  fold after in Hrem, Hfile. cbn [unusedDependencies] in Hrem, Hfile.
  destruct (applyDependency_fold opts deps (mkDepState pj false []))
    as [_ [_ Hdev]].
  destruct Hdev as [Hdev Hnames].
  { intros d Hd Ht.
    destruct (detect_findings JSON_parse fs cwd text pj files cfg deps d
                Hread Hparse Hdet Hd) as [_ [[Hty _]|[_ [Hc _]]]].
    - congruence.
    - unfold skips. rewrite Hsafe, Hc. reflexivity. }
  split; [exact Hdev|]. split; [exact Hfile|].
  intros n Hn. rewrite Hrem in Hn.
  destruct (Hnames n Hn) as [[]|[d [Hd [Ht <-]]]].
  destruct (detect_findings JSON_parse fs cwd text pj files cfg deps d
              Hread Hparse Hdet Hd) as [_ [[_ [_ Hin]]|[Hty _]]]; [|congruence].
  unfold names. now apply (in_map fst _ _ Hin).
Qed.

(** C10: every finding of [detect] is an entry of the dependencies, of
    kind [dependency], or of the devDependencies, of kind [devDependency],
    never of kind [peerDependency]; and whatever findings the fixer is
    given, the peer dependencies of the manifest are left as they were, in
    memory and in the file. *)
Theorem peerDependencies_never_reported_nor_removed
    (fs : FS) (text : string) (pj : PackageJson) :
  Fs.readFileSync fs (Path.join cwd "package.json") = Some text ->
  JSON_parse text = Some pj ->
  (forall files cfg deps d,
     UnusedDependenciesDetector_detect JSON_parse fs cwd files cfg = Ok deps ->
     In d deps ->
     ud_type d <> peerDependency /\
     ((ud_type d = dependency /\
       In (ud_name d, ud_version d) (or_empty (pj_dependencies pj)))
      \/
      (ud_type d = devDependency /\
       In (ud_name d, ud_version d) (or_empty (pj_devDependencies pj)))))
  /\
  (forall opts result,
     (forall i, In i (unusedImports result) ->
                ui_file i <> Path.join cwd "package.json") ->
     let after := AutoFixer_fix JSON_parse JSON_stringify runTests cwd opts result fs in
     let pj' := manifestAfter opts (unusedDependencies result) pj in
     pj_peerDependencies pj' = pj_peerDependencies pj /\
     (Fs.readFileSync (fst after) (Path.join cwd "package.json") = Some text \/
      Fs.readFileSync (fst after) (Path.join cwd "package.json")
      = Some (JSON_stringify pj' +:+ "
"))).
Proof.
  intros Hread Hparse. split.
  - intros files cfg deps d Hdet Hd.
    destruct (detect_findings JSON_parse fs cwd text pj files cfg deps d
                Hread Hparse Hdet Hd) as [_ [[Hty [_ Hin]]|[Hty [_ [_ Hin]]]]].
    + split; [congruence|]. left. auto.
    + split; [congruence|]. right. auto.
  - intros opts result Himps after pj'. split.
    + apply (applyDependency_fold opts (unusedDependencies result)
               (mkDepState pj false [])).
    + apply (fix_manifest opts result fs text pj Hread Hparse Himps).
Qed.

End ManifestRewrite.

Lemma safe_mode_keeps_devDependencies_witness :
  let deps :=
    [dependencyFinding ("lodash", "^4.17.0");
     devDependencyFinding ("lodash", "^4.17.0");
     devDependencyFinding ("left-pad", "1.3.0")] in
  let after :=
    AutoFixer_fix Samples.parseManifest Samples.stringify runTests_stub "/p"
      defaultOptions (mkAnalysisResult [] deps) Samples.lodashFs in
  pj_devDependencies (manifestAfter defaultOptions deps Samples.lodashManifest)
  = pj_devDependencies Samples.lodashManifest /\
  (Fs.readFileSync (fst after) (Path.join "/p" "package.json")
   = Some (Samples.stringify Samples.lodashManifest) \/
   Fs.readFileSync (fst after) (Path.join "/p" "package.json")
   = Some (Samples.stringify (manifestAfter defaultOptions deps Samples.lodashManifest)
           +:+ "
")) /\
  (forall n, In n (dependenciesRemoved (snd after)) ->
             In n (names (pj_dependencies Samples.lodashManifest))).
Proof.
  intros deps.
  apply (safe_mode_keeps_devDependencies Samples.parseManifest Samples.stringify
           runTests_stub "/p" defaultOptions Samples.lodashFs
           (Samples.stringify Samples.lodashManifest) Samples.lodashManifest
           ["/p/src/index.js"] [] deps []).
  - reflexivity.
  - reflexivity.
  - reflexivity.
  - vm_compute. reflexivity.
  - intros i [].
Defined.

(** C9 as stated fails: [lodash] is declared under dependencies and under
    devDependencies and imported nowhere; [detect] reports both entries, the
    fixer in safe mode deletes the dependency and lists [lodash], a
    devDependency name, in [dependenciesRemoved]; the devDependencies are left
    as they were. *)
Lemma devDependency_name_counterexample :
  let deps :=
    [dependencyFinding ("lodash", "^4.17.0");
     devDependencyFinding ("lodash", "^4.17.0");
     devDependencyFinding ("left-pad", "1.3.0")] in
  let after :=
    AutoFixer_fix Samples.parseManifest Samples.stringify runTests_stub "/p"
      defaultOptions (mkAnalysisResult [] deps) Samples.lodashFs in
  UnusedDependenciesDetector_detect Samples.parseManifest Samples.lodashFs "/p"
    ["/p/src/index.js"] [] = Ok deps /\
  dependenciesRemoved (snd after) = ["lodash"] /\
  In "lodash" (names (pj_devDependencies Samples.lodashManifest)) /\
  ~ (forall n, In n (names (pj_devDependencies Samples.lodashManifest)) ->
               ~ In n (dependenciesRemoved (snd after))).
Proof.
  intros deps after.
  assert (Hrem : dependenciesRemoved (snd after) = ["lodash"])
    by (vm_compute; reflexivity).
  split; [vm_compute; reflexivity|]. split; [exact Hrem|].
  split; [left; reflexivity|].
  intros H. apply (H "lodash"); [left; reflexivity|].
  rewrite Hrem. left. reflexivity.
Qed.

Lemma peerDependencies_never_reported_nor_removed_witness :
  let deps :=
    [dependencyFinding ("lodash", "^4.17.0");
     devDependencyFinding ("lodash", "^4.17.0");
     devDependencyFinding ("left-pad", "1.3.0")] in
  let given :=
    mkAnalysisResult []
      (mkUnusedDependency "react" "^18.0.0" peerDependency (95 # 100) "unused" :: deps) in
  let opts := mkFixerOptions false false in
  let after :=
    AutoFixer_fix Samples.parseManifest Samples.stringify runTests_stub "/p"
      opts given Samples.lodashFs in
  let pj' := manifestAfter opts (unusedDependencies given) Samples.lodashManifest in
  (forall d, In d deps ->
     ud_type d <> peerDependency /\
     ((ud_type d = dependency /\
       In (ud_name d, ud_version d) (or_empty (pj_dependencies Samples.lodashManifest)))
      \/
      (ud_type d = devDependency /\
       In (ud_name d, ud_version d)
         (or_empty (pj_devDependencies Samples.lodashManifest)))))
  /\
  pj_peerDependencies pj' = Some [("react", "^18.0.0")] /\
  (Fs.readFileSync (fst after) (Path.join "/p" "package.json")
   = Some (Samples.stringify Samples.lodashManifest) \/
   Fs.readFileSync (fst after) (Path.join "/p" "package.json")
   = Some (Samples.stringify pj' +:+ "
")).
Proof.
  intros deps given opts after pj'.
  destruct (peerDependencies_never_reported_nor_removed Samples.parseManifest
              Samples.stringify runTests_stub "/p" Samples.lodashFs
              (Samples.stringify Samples.lodashManifest) Samples.lodashManifest
              eq_refl eq_refl) as [Hdetect Hfix].
  split.
  - intros d Hd. apply (Hdetect ["/p/src/index.js"] [] deps d); [|exact Hd].
    vm_compute. reflexivity.
  - apply (Hfix opts given). intros i [].
Defined.

(** A finding of kind [peerDependency] handed to the fixer deletes nothing. *)
Example peerDependency_finding_is_ignored :
  AutoFixer_fix Samples.parseManifest Samples.stringify runTests_stub "/p"
    (mkFixerOptions false false)
    (mkAnalysisResult []
       [mkUnusedDependency "react" "^18.0.0" peerDependency (95 # 100) "unused"])
    Samples.lodashFs
  = (Samples.lodashFs, mkFixResult true [] 0 [] []).
Proof. vm_compute. reflexivity. Qed.

(** ** The patterns on the lines they are written for *)

Example whole_line_default_import :
  isOnlyImportOnLine "import unused from 'pkg';" "unused" = true.
Proof. reflexivity. Qed.

Example whole_line_single_named_import :
  isOnlyImportOnLine "import { foo } from 'pkg';" "foo" = true.
Proof. reflexivity. Qed.

Example not_whole_line_two_named_imports :
  isOnlyImportOnLine "import { foo, bar } from 'pkg';" "foo" = false.
Proof. reflexivity. Qed.

Example remove_first_named_import :
  removeImportFromLine "import { foo, bar } from 'pkg';" "foo"
  = "import { bar } from 'pkg';".
Proof. reflexivity. Qed.

Example remove_last_named_import :
  removeImportFromLine "import { foo, bar } from 'pkg';" "bar"
  = "import { foo } from 'pkg';".
Proof. reflexivity. Qed.

Example scan_three_forms :
  extractImports
    "import x from '@babel/parser';
const y = require( 'lodash/fp' ); const z = import('./local'); import('react-dom/client')"
    []
  = ["@babel/parser"; "lodash"; "react-dom"].
Proof. vm_compute. reflexivity. Qed.

Example package_names :
  map extractPackageName ["./a"; "/abs"; "@s/p/sub"; "@s"; "lodash/fp"]
  = [None; None; Some "@s/p"; Some "@s"; Some "lodash"].
Proof. reflexivity. Qed.

(** The two findings of [import { a, b } from 'x']: the first edits the
    line, the second removes it. *)
Example same_line_findings_applied :
  fold_left applyImport (sortDesc [Samples.sameLineA; Samples.sameLineB])
    (mkEditState ["import { a, b } from 'x'"; "run()"] false 0)
  = mkEditState ["run()"] true 2.
Proof. reflexivity. Qed.

(** * Further properties *)

(** ** The resolver, on the tree *)

Import Occurs.

Lemma visit_ImportDeclaration_hasJSX (n : Node) (a : FileAnalysis) :
  hasJSX (Visitor.visit_ImportDeclaration n a) = hasJSX a.
Proof.
  destruct n; simpl; try reflexivity.
  revert a. induction specifiers as [|sp sps IH]; intros a; simpl; [reflexivity|].
  rewrite IH. unfold Visitor.import_of_specifier.
  destruct sp; simpl; try reflexivity;
    match goal with |- context [JsString.truthy ?x] => destruct (JsString.truthy x) end;
    reflexivity.
Qed.

Lemma export_fold_hasJSX {A : Type} (f : A -> FileAnalysis -> FileAnalysis) (l : list A) :
  (forall x a, hasJSX (f x a) = hasJSX a) ->
  forall a, hasJSX (fold_left (fun a x => f x a) l a) = hasJSX a.
Proof.
  intros Hf. induction l as [|x l IH]; intros a; simpl; [reflexivity|].
  now rewrite IH.
Qed.

Lemma visit_ExportNamedDeclaration_hasJSX (n : Node) (a : FileAnalysis) :
  hasJSX (Visitor.visit_ExportNamedDeclaration n a) = hasJSX a.
Proof.
  destruct n; simpl; try reflexivity.
  rewrite (export_fold_hasJSX Visitor.export_of_specifier).
  - destruct declaration as [d|]; [|reflexivity].
    destruct d; try reflexivity.
    + apply (export_fold_hasJSX Visitor.export_of_declarator).
      intros x b. destruct x; try reflexivity. destruct x; reflexivity.
    + destruct id; reflexivity.
  - intros x b. destruct x; try reflexivity. destruct x2; reflexivity.
Qed.

Lemma step_hasJSX (a : FileAnalysis) (v : Visit) :
  hasJSX (step a v) = hasJSX a || is_jsx (v_node v).
Proof.
  unfold step. destruct (v_node v) eqn:Hn; cbn [Visitor.enter is_jsx];
    rewrite ?orb_false_r, ?orb_true_r; try reflexivity.
  - unfold Visitor.visit_Identifier.
    now destruct (Visitor.skipped (v_parent v) (v_is_key v)).
  - apply visit_ImportDeclaration_hasJSX.
  - apply (visit_ExportNamedDeclaration_hasJSX (ExportNamedDeclaration _ _ _)).
Qed.

Lemma fold_hasJSX (vs : list Visit) :
  forall a, hasJSX (fold_left step vs a) = hasJSX a || existsb (fun v => is_jsx (v_node v)) vs.
Proof.
  induction vs as [|v vs IH]; intros a; simpl; [now rewrite orb_false_r|].
  now rewrite IH, step_hasJSX, orb_assoc.
Qed.

(** The JSX flag of the analysis is the presence of a JSX node. *)
Lemma analysis_hasJSX (ast : Node) :
  hasJSX (Visitor.traverse None false ast Visitor.initial) = hasJSXNode ast.
Proof. now rewrite traverse_nodes, fold_hasJSX. Qed.

(** Membership in the set is an occurrence at a counted position. *)
Lemma analysis_counted (ast : Node) (x : string) :
  JsSet.has (usedIdentifiers (Visitor.traverse None false ast Visitor.initial)) x
  = counted x ast.
Proof.
  apply eq_true_iff_eq. rewrite has_In, analysis_used. unfold counted.
  rewrite existsb_exists. split.
  - intros [v [Hv [Hn Hs]]]. exists v. split; [assumption|].
    now rewrite Hn, Hs.
  - intros [v [Hv Hc]]. apply andb_true_iff in Hc. destruct Hc as [Hi Hs].
    exists v. split; [assumption|]. split; [exact Hi|].
    now apply negb_true_iff.
Qed.

(** Every collected import has a name. *)
Lemma declared_named (n : Node) (imp : ImportInfo) :
  In imp (declared n) -> ii_name imp <> "".
Proof.
  unfold declared. destruct n; simpl; try (intros []).
  rewrite (specifiers_imports source specifiers Visitor.initial). simpl.
  intros Hin. apply in_flat_map in Hin. destruct Hin as [sp [_ Hsp]].
  unfold Visitor.import_of_specifier in Hsp.
  destruct sp; simpl in Hsp; try (destruct Hsp);
    match type of Hsp with
    | context [JsString.truthy ?x] =>
        destruct (JsString.truthy x) eqn:Ht; simpl in Hsp; [|destruct Hsp]
    end;
    destruct Hsp as [<-|[]]; cbn [ii_name]; intros He; rewrite He in Ht; discriminate.
Qed.

Section Resolver.

Variable babel_parse : string -> SourceType -> list string -> option Node.

(** X1 (resolver, exactly): for a file that is read and parsed, whose
    identifier names contain no dot, the findings are, in declaration order,
    those of the declared imports whose name occurs at no counted position,
    the name [React] being exempt when the file has JSX. *)
Theorem findings_are_the_unreferenced_imports
    (fs : FS) (filePath code : string) (ast : Node) :
  Fs.readFileSync fs filePath = Some code ->
  parseAst babel_parse code filePath = Some ast ->
  validNames ast = true ->
  findUnusedImports babel_parse fs filePath
  = map (finding filePath)
      (List.filter
         (fun imp =>
            negb (counted (ii_name imp) ast)
            && negb (String.eqb (ii_name imp) "React" && hasJSXNode ast))
         (declaredImports ast)).
Proof.
  intros Hread Hparse Hvalid.
  rewrite (findUnusedImports_parsed babel_parse fs filePath code ast Hread Hparse).
  cbv zeta. rewrite analysis_imports. fold (declaredImports ast).
  f_equal. apply filter_ext. intros imp. unfold isUsed.
  rewrite analysis_counted, analysis_hasJSX, (no_dotted_entry ast (ii_name imp) Hvalid).
  destruct (counted (ii_name imp) ast), (String.eqb (ii_name imp) "React" && hasJSXNode ast),
    (ii_isNamespace imp); reflexivity.
Qed.

(** X2 (JSX runtime exception): in a file with a JSX element or fragment no
    import named [React] is reported, referenced or not. *)
Theorem react_is_used_by_jsx
    (fs : FS) (filePath code : string) (ast : Node) :
  Fs.readFileSync fs filePath = Some code ->
  parseAst babel_parse code filePath = Some ast ->
  hasJSXNode ast = true ->
  forall f, In f (findUnusedImports babel_parse fs filePath) -> ui_importName f <> "React".
Proof.
  intros Hread Hparse Hjsx f Hf Hname.
  rewrite (findUnusedImports_parsed babel_parse fs filePath code ast Hread Hparse) in Hf.
  cbv zeta in Hf. apply in_map_iff in Hf. destruct Hf as [imp [<- Himp]].
  apply filter_In in Himp. destruct Himp as [_ Hunused].
  simpl in Hname. unfold isUsed in Hunused.
  rewrite analysis_hasJSX, Hjsx, Hname in Hunused. simpl in Hunused.
  destruct (ii_isNamespace imp); [destruct (existsb _ _)|]; discriminate.
Qed.

(** A finding names the file it was found in. *)
Lemma finding_file (fs : FS) (filePath : string) (f : UnusedImport) :
  In f (findUnusedImports babel_parse fs filePath) -> ui_file f = filePath.
Proof.
  intros Hf.
  destruct (parseFile babel_parse fs filePath) as [a|] eqn:Hp.
  2: { rewrite (findUnusedImports_unparsed babel_parse fs filePath Hp) in Hf.
       destruct Hf. }
  unfold findUnusedImports in Hf. rewrite Hp in Hf.
  assert (H : forall l acc,
             (forall g, In g acc -> ui_file g = filePath) ->
             forall g,
               In g (fold_left
                       (fun unusedImports imp =>
                          if negb (isUsed a imp) then
                            unusedImports ++
                              [mkUnusedImport filePath (ii_line imp) (ii_column imp)
                                 (ii_name imp) (ii_source imp) (95 # 100)]
                          else unusedImports) l acc) ->
               ui_file g = filePath).
  { induction l as [|imp l IH]; intros acc Hacc g Hg; simpl in Hg; [now apply Hacc|].
    apply (IH _) in Hg; [assumption|].
    intros h Hh. destruct (negb (isUsed a imp)); [|now apply Hacc].
    apply in_app_iff in Hh. destruct Hh as [Hh|[<-|[]]]; [now apply Hacc|reflexivity]. }
  apply (H (imports a) []); [intros g []|assumption].
Qed.

(** X3 (shape of the findings): whatever the file, every finding carries
    the path it was asked about, the confidence 0.95, which no safe-mode
    fixer passes over, and a name that is not empty; and there are no more
    findings than declared imports. *)
Theorem findings_are_well_formed (fs : FS) (filePath : string) :
  (forall f, In f (findUnusedImports babel_parse fs filePath) ->
     ui_file f = filePath /\
     ui_confidence f = (95 # 100)%Q /\
     ui_importName f <> "" /\
     forall opts, skips opts (ui_confidence f) = false)
  /\
  (forall code ast,
     Fs.readFileSync fs filePath = Some code ->
     parseAst babel_parse code filePath = Some ast ->
     (length (findUnusedImports babel_parse fs filePath)
      <= length (declaredImports ast))%nat).
Proof.
  split.
  - intros f Hf.
    destruct (Fs.readFileSync fs filePath) as [code|] eqn:Hread.
    2: { rewrite findUnusedImports_unparsed in Hf; [destruct Hf|].
         unfold parseFile. now rewrite Hread. }
    destruct (parseAst babel_parse code filePath) as [ast|] eqn:Hparse.
    2: { rewrite findUnusedImports_unparsed in Hf; [destruct Hf|].
         unfold parseFile, parseCode. now rewrite Hread, Hparse. }
    rewrite (findUnusedImports_parsed babel_parse fs filePath code ast Hread Hparse) in Hf.
    cbv zeta in Hf. apply in_map_iff in Hf. destruct Hf as [imp [<- Himp]].
    apply filter_In in Himp. destruct Himp as [Himp _].
    rewrite analysis_imports in Himp. apply in_flat_map in Himp.
    destruct Himp as [n [_ Hn]].
    repeat split; try reflexivity.
    + simpl. now apply (declared_named n).
    + intros opts. apply high_confidence_not_skipped.
  - intros code ast Hread Hparse.
    rewrite (findUnusedImports_parsed babel_parse fs filePath code ast Hread Hparse).
    cbv zeta. rewrite length_map, analysis_imports. apply filter_length_le.
Qed.

(** The project-wide detection is the concatenation of the per-file
    findings. *)
Lemma detect_imports_flat (fs : FS) (files : list string) :
  UnusedImportsDetector_detect babel_parse fs files
  = flat_map (findUnusedImports babel_parse fs) files.
Proof.
  unfold UnusedImportsDetector_detect.
  assert (H : forall acc,
             fold_left (fun all file => all ++ findUnusedImports babel_parse fs file)
               files acc
             = acc ++ flat_map (findUnusedImports babel_parse fs) files).
  { induction files as [|f files IH]; intros acc; simpl; [now rewrite app_nil_r|].
    now rewrite IH, app_assoc. }
  apply (H []).
Qed.

(** X4 (project-wide detection): findings come file by file in the order of
    the file list; a file that cannot be read or parsed contributes nothing
    and stops nothing; and every finding is about a listed file. *)
Theorem import_detection_is_per_file (fs : FS) (before after : list string) (file : string) :
  UnusedImportsDetector_detect babel_parse fs (before ++ file :: after)
  = UnusedImportsDetector_detect babel_parse fs before
    ++ findUnusedImports babel_parse fs file
    ++ UnusedImportsDetector_detect babel_parse fs after
  /\
  (parseFile babel_parse fs file = None ->
   UnusedImportsDetector_detect babel_parse fs (before ++ file :: after)
   = UnusedImportsDetector_detect babel_parse fs (before ++ after))
  /\
  (forall f,
     In f (UnusedImportsDetector_detect babel_parse fs (before ++ file :: after)) ->
     In (ui_file f) (before ++ file :: after)).
Proof.
  split; [|split].
  - rewrite !detect_imports_flat, flat_map_app. reflexivity.
  - intros Hnone. rewrite !detect_imports_flat, !flat_map_app. simpl.
    now rewrite (findUnusedImports_unparsed babel_parse fs file Hnone).
  - intros f Hf. rewrite detect_imports_flat in Hf.
    apply in_flat_map in Hf. destruct Hf as [g [Hg Hf]].
    rewrite (finding_file fs g f Hf). assumption.
Qed.

End Resolver.

Lemma findings_are_the_unreferenced_imports_witness :
  findUnusedImports Cases.parse Cases.fs "/p/src/key.js"
  = [mkUnusedImport "/p/src/key.js" 1 7 "foo" "m" (95 # 100)]
  /\
  findUnusedImports Cases.parse Cases.typedFs "/p/src/typed.ts" = [].
Proof.
  split.
  - rewrite (findings_are_the_unreferenced_imports Cases.parse Cases.fs
               "/p/src/key.js" Cases.keyCode Cases.keyAst eq_refl eq_refl eq_refl).
    reflexivity.
  - rewrite (findings_are_the_unreferenced_imports Cases.parse Cases.typedFs
               "/p/src/typed.ts" Cases.typedCode Cases.typedAst eq_refl eq_refl eq_refl).
    reflexivity.
Defined.

Lemma react_is_used_by_jsx_witness :
  List.Forall (fun f => ui_importName f <> "React")
    (findUnusedImports Cases.parse Cases.fs "/p/src/view.jsx").
Proof.
  apply List.Forall_forall.
  apply (react_is_used_by_jsx Cases.parse Cases.fs "/p/src/view.jsx"
           Cases.jsxCode Cases.jsxAst eq_refl eq_refl eq_refl).
Defined.

Lemma findings_are_well_formed_witness :
  (forall f, In f (findUnusedImports Cases.parse Cases.fs "/p/src/key.js") ->
     ui_file f = "/p/src/key.js" /\
     ui_confidence f = (95 # 100)%Q /\
     ui_importName f <> "" /\
     forall opts, skips opts (ui_confidence f) = false)
  /\
  (length (findUnusedImports Cases.parse Cases.fs "/p/src/key.js")
   <= length (declaredImports Cases.keyAst))%nat.
Proof.
  destruct (findings_are_well_formed Cases.parse Cases.fs "/p/src/key.js") as [Hwf Hlen].
  split; [exact Hwf|].
  apply (Hlen Cases.keyCode Cases.keyAst eq_refl eq_refl).
Defined.

Lemma import_detection_is_per_file_witness :
  UnusedImportsDetector_detect Cases.parse Cases.fs
    ["/p/src/a.js"; "/p/src/broken.js"; "/p/src/key.js"]
  = UnusedImportsDetector_detect Cases.parse Cases.fs ["/p/src/a.js"; "/p/src/key.js"]
  /\
  UnusedImportsDetector_detect Cases.parse Cases.fs ["/p/src/a.js"; "/p/src/key.js"]
  = [Samples.aFinding; mkUnusedImport "/p/src/key.js" 1 7 "foo" "m" (95 # 100)].
Proof.
  split.
  - apply (proj1 (proj2 (import_detection_is_per_file Cases.parse Cases.fs
                           ["/p/src/a.js"] ["/p/src/key.js"] "/p/src/broken.js"))).
    reflexivity.
  - apply (eq_trans (proj1 (import_detection_is_per_file Cases.parse Cases.fs
                              ["/p/src/a.js"] [] "/p/src/key.js"))).
    reflexivity.
Defined.

(** ** Splitting and package names *)

Lemma prefix_append (p s : string) : String.prefix p (p +:+ s) = true.
Proof.
  induction p as [|c p IH]; simpl; [now destruct s|].
  destruct (ascii_dec c c); [assumption|congruence].
Qed.

Lemma prefix_trans (a b c : string) :
  String.prefix a b = true -> String.prefix b c = true -> String.prefix a c = true.
Proof.
  revert b c. induction a as [|x a IH]; intros b c Hab Hbc; [now destruct c|].
  destruct b as [|y b]; [discriminate|]. destruct c as [|z c]; [discriminate|].
  simpl in *. destruct (ascii_dec x y) as [->|]; [|discriminate].
  destruct (ascii_dec y z) as [->|]; [|discriminate].
  now apply (IH b c).
Qed.

Lemma split_nonempty (sep : ascii) (s : string) : JsString.split sep s <> [].
Proof.
  destruct s as [|c s]; simpl; [discriminate|].
  destruct (Ascii.eqb c sep); [discriminate|].
  destruct (JsString.split sep s); discriminate.
Qed.

(** The text up to the first separator, and the split of what follows it. *)
Lemma split_decompose (sep : ascii) (s h h2 : string) (r : list string) :
  JsString.split sep s = h :: h2 :: r ->
  exists rest, s = h +:+ String sep rest /\ JsString.split sep rest = h2 :: r.
Proof.
  revert h. induction s as [|c s IH]; intros h Hs; simpl in Hs; [discriminate|].
  destruct (Ascii.eqb_spec c sep) as [->|Hne].
  - injection Hs as <- Hs. exists s. split; [reflexivity|assumption].
  - destruct (JsString.split sep s) as [|h' r'] eqn:Hsplit; [discriminate|].
    injection Hs as <- Hr. subst r'.
    destruct (IH h' eq_refl) as [rest [-> Hrest]].
    exists rest. split; [reflexivity|assumption].
Qed.

Lemma split_single (sep : ascii) (s h : string) :
  JsString.split sep s = [h] -> h = s.
Proof.
  revert h. induction s as [|c s IH]; intros h Hs; simpl in Hs.
  - now injection Hs.
  - destruct (Ascii.eqb c sep).
    + injection Hs as _ Hs. now apply split_nonempty in Hs.
    + destruct (JsString.split sep s) as [|h' r'] eqn:Hsplit;
        [now apply split_nonempty in Hsplit|].
      injection Hs as <- Hr. subst r'. now rewrite (IH h' eq_refl).
Qed.

Lemma split_head_prefix (sep : ascii) (s h : string) (r : list string) :
  JsString.split sep s = h :: r -> String.prefix h s = true.
Proof.
  revert h r. induction s as [|c s IH]; intros h r Hs; simpl in Hs.
  - now injection Hs as <- _.
  - destruct (Ascii.eqb c sep); [now injection Hs as <- _|].
    destruct (JsString.split sep s) as [|h' r'] eqn:Hsplit;
      [now apply split_nonempty in Hsplit|].
    injection Hs as <- _. simpl. destruct (ascii_dec c c); [|congruence].
    now apply (IH h' r').
Qed.

(** No part of a split contains the separator. *)
Lemma split_parts_clean (sep : ascii) (s : string) :
  forall h, In h (JsString.split sep s) ->
            JsString.includes h (String sep EmptyString) = false.
Proof.
  induction s as [|c s IH]; intros h Hin; simpl in Hin.
  - destruct Hin as [<-|[]]. reflexivity.
  - destruct (Ascii.eqb_spec c sep) as [->|Hne].
    + destruct Hin as [<-|Hin]; [reflexivity|now apply IH].
    + destruct (JsString.split sep s) as [|h' r'] eqn:Hsplit.
      * destruct Hin as [<-|[]]. simpl.
        destruct (ascii_dec sep c); [congruence|reflexivity].
      * destruct Hin as [<-|Hin]; [|apply IH; now right].
        simpl. destruct (ascii_dec sep c); [congruence|]. simpl.
        apply IH. now left.
Qed.

Lemma split_clean (sep : ascii) (s : string) :
  JsString.includes s (String sep EmptyString) = false ->
  JsString.split sep s = [s].
Proof.
  induction s as [|c s IH]; intros Hno; simpl; [reflexivity|].
  simpl in Hno. apply orb_false_iff in Hno. destruct Hno as [Hc Hno].
  destruct (Ascii.eqb_spec c sep) as [->|Hne].
  - destruct (ascii_dec sep sep); [|congruence]. now destruct s.
  - now rewrite (IH Hno).
Qed.

Lemma startsWith_inherited (p h x : string) :
  String.prefix h p = true ->
  JsString.startsWith p x = false -> JsString.startsWith h x = false.
Proof.
  unfold JsString.startsWith. intros Hhp Hpx.
  destruct (String.prefix x h) eqn:Hxh; [|reflexivity].
  now rewrite (prefix_trans x h p Hxh Hhp) in Hpx.
Qed.

Lemma prefix_refl (p : string) : String.prefix p p = true.
Proof.
  induction p as [|c p IH]; simpl; [reflexivity|].
  destruct (ascii_dec c c); [assumption|congruence].
Qed.

Lemma prefix_app_same (a b c : string) :
  String.prefix (a +:+ b) (a +:+ c) = String.prefix b c.
Proof.
  induction a as [|x a IH]; simpl; [reflexivity|].
  destruct (ascii_dec x x); [assumption|congruence].
Qed.

Lemma first_char_inherited (c : ascii) (q p : string) :
  q <> "" -> String.prefix q p = true ->
  JsString.startsWith p (String c EmptyString) = JsString.startsWith q (String c EmptyString).
Proof.
  unfold JsString.startsWith. intros Hq Hqp.
  destruct q as [|x q]; [contradiction|]. destruct p as [|y p]; [discriminate|].
  simpl in *. destruct (ascii_dec x y) as [->|]; [|discriminate].
  destruct (ascii_dec c y); [now destruct p, q|reflexivity].
Qed.

(** X5 (package names): a relative or absolute specifier names no package;
    the name of any other specifier is a prefix of it, and is its own package
    name: reducing twice is reducing once. *)
Theorem extractPackageName_normal_form (importPath : string) :
  (JsString.startsWith importPath "." = true \/ JsString.startsWith importPath "/" = true ->
   extractPackageName importPath = None)
  /\
  (forall q, extractPackageName importPath = Some q ->
     JsString.startsWith importPath q = true /\ extractPackageName q = Some q).
Proof.
  split.
  - unfold extractPackageName. intros [-> | ->]; [reflexivity|].
    now rewrite orb_true_r.
  - intros q. unfold extractPackageName at 1.
    destruct (JsString.startsWith importPath ".") eqn:Hdot; [discriminate|].
    destruct (JsString.startsWith importPath "/") eqn:Hslash; [discriminate|].
    simpl.
    destruct (JsString.startsWith importPath "@") eqn:Hat.
    + destruct (JsString.split "/" importPath) as [|p0 [|p1 r]] eqn:Hsplit;
        [discriminate| |]; intros Hq; injection Hq as <-.
      * pose proof (split_single "/" importPath p0 Hsplit) as ->. split.
        -- apply prefix_refl.
        -- unfold extractPackageName. now rewrite Hdot, Hslash, Hat, Hsplit.
      * destruct (split_decompose "/" importPath p0 p1 r Hsplit) as [rest [Hp Hrest]].
        assert (Hc0 : JsString.includes p0 "/" = false).
        { apply (split_parts_clean "/" importPath). rewrite Hsplit. now left. }
        assert (Hc1 : JsString.includes p1 "/" = false).
        { apply (split_parts_clean "/" importPath). rewrite Hsplit. right. now left. }
        assert (Hpre : String.prefix (p0 +:+ "/" +:+ p1) importPath = true).
        { rewrite Hp. rewrite prefix_app_same. simpl.
          destruct (ascii_dec "/" "/"); [|congruence].
          now apply (split_head_prefix "/" rest p1 r). }
        assert (Hne : p0 +:+ "/" +:+ p1 <> "") by (now destruct p0).
        split; [exact Hpre|].
        unfold extractPackageName.
        rewrite <- (first_char_inherited "." _ _ Hne Hpre), Hdot.
        rewrite <- (first_char_inherited "/" _ _ Hne Hpre), Hslash.
        rewrite <- (first_char_inherited "@" _ _ Hne Hpre), Hat. simpl.
        rewrite (split_scope p0 p1 Hc0), (split_clean "/" p1 Hc1). reflexivity.
    + destruct (JsString.split "/" importPath) as [|h r] eqn:Hsplit; [discriminate|].
      intros Hq; injection Hq as <-.
      pose proof (split_head_prefix "/" importPath h r Hsplit) as Hpre.
      split; [exact Hpre|].
      unfold extractPackageName.
      rewrite (startsWith_inherited importPath h "." Hpre Hdot).
      rewrite (startsWith_inherited importPath h "/" Hpre Hslash).
      rewrite (startsWith_inherited importPath h "@" Hpre Hat). simpl.
      rewrite split_clean; [reflexivity|].
      apply (split_parts_clean "/" importPath). rewrite Hsplit. now left.
Qed.

Lemma extractPackageName_normal_form_witness :
  extractPackageName "./local" = None /\
  extractPackageName "@scope/pkg/sub/path" = Some "@scope/pkg" /\
  JsString.startsWith "@scope/pkg/sub/path" "@scope/pkg" = true /\
  extractPackageName "@scope/pkg" = Some "@scope/pkg".
Proof.
  split.
  - apply (proj1 (extractPackageName_normal_form "./local")). left. reflexivity.
  - split; [reflexivity|].
    apply (proj2 (extractPackageName_normal_form "@scope/pkg/sub/path") "@scope/pkg").
    reflexivity.
Defined.

(** ** More on the dependency detector *)

Lemma isPackageUsed_mono (p : string) (used used' : JsSet.t) :
  (forall x, In x used -> In x used') ->
  isPackageUsed p used = true -> isPackageUsed p used' = true.
Proof.
  intros Hsub Hu. apply isPackageUsed_iff in Hu. apply isPackageUsed_iff.
  destruct Hu as [Hin|[Hs [u [Hu Hpre]]]]; [left; auto|].
  right. split; [assumption|]. exists u. auto.
Qed.


Section DetectorMore.

Variable JSON_parse : string -> option PackageJson.

(** X6 (known tools): no devDependency whose name starts with an entry of
    the allowlist is ever reported, whatever the files contain. *)
Theorem known_tools_are_never_reported
    (fs : FS) (root : string) (files cfg : list string)
    (findings : list UnusedDependency) (tool suffix : string) :
  UnusedDependenciesDetector_detect JSON_parse fs root files cfg = Ok findings ->
  In tool knownTools ->
  forall f, In f findings -> ud_type f = devDependency ->
            ud_name f <> tool +:+ suffix.
Proof.
  intros Hdet Htool f Hf Hty Hname.
  destruct (detect_inv JSON_parse fs root files cfg findings Hdet) as [text [pj [Hr Hp]]].
  destruct (detect_findings JSON_parse fs root text pj files cfg findings f Hr Hp Hdet Hf)
    as [_ [[Hd _]|[_ [_ [Hk _]]]]]; [congruence|].
  assert (Hyes : isKnownToolPackage (ud_name f) = true).
  { unfold isKnownToolPackage. apply existsb_exists. exists tool. split; [assumption|].
    rewrite Hname. unfold JsString.startsWith. now rewrite prefix_append. }
  congruence.
Qed.

(** X7 (direct imports): a declared package that a readable scanned file
    imports, by any of the three forms the scan knows, is not reported. *)
Theorem imported_package_is_not_reported
    (fs : FS) (root : string) (files cfg : list string)
    (findings : list UnusedDependency) (file content p : string) :
  UnusedDependenciesDetector_detect JSON_parse fs root files cfg = Ok findings ->
  In file (files ++ cfg) ->
  Fs.readFileSync fs file = Some content ->
  In p (extractImports content []) ->
  forall f, In f findings -> ud_name f <> p.
Proof.
  intros Hdet Hfile Hread Hp f Hf Hname.
  destruct (detect_inv JSON_parse fs root files cfg findings Hdet) as [text [pj [Hr Hpj]]].
  destruct (detect_findings JSON_parse fs root text pj files cfg findings f Hr Hpj Hdet Hf)
    as [Hunused _].
  assert (Hused : isPackageUsed (ud_name f) (scanFiles fs (files ++ cfg)) = true).
  { apply isPackageUsed_iff. left. rewrite Hname.
    now apply (scanFiles_In fs (files ++ cfg) file content). }
  congruence.
Qed.

(** X8 (more files, fewer findings): scanning a larger set of files never
    adds a finding. *)
Theorem scanning_more_reports_less
    (fs : FS) (root : string) (files cfg files' cfg' : list string)
    (findings findings' : list UnusedDependency) :
  UnusedDependenciesDetector_detect JSON_parse fs root files cfg = Ok findings ->
  UnusedDependenciesDetector_detect JSON_parse fs root files' cfg' = Ok findings' ->
  (forall f, In f (files ++ cfg) -> In f (files' ++ cfg')) ->
  forall d, In d findings' -> In d findings.
Proof.
  intros Hdet Hdet' Hsub d Hd.
  destruct (detect_inv JSON_parse fs root files cfg findings Hdet) as [text [pj [Hr Hp]]].
  rewrite (detect_ok JSON_parse fs root text pj files cfg Hr Hp) in Hdet.
  rewrite (detect_ok JSON_parse fs root text pj files' cfg' Hr Hp) in Hdet'.
  injection Hdet as <-. injection Hdet' as <-.
  assert (Hmono : forall p,
             isPackageUsed p (scanFiles fs (files' ++ cfg')) = false ->
             isPackageUsed p (scanFiles fs (files ++ cfg)) = false).
  { intros p Hno. apply not_true_is_false. intros Hyes.
    rewrite (isPackageUsed_mono p (scanFiles fs (files ++ cfg))
               (scanFiles fs (files' ++ cfg'))) in Hno;
      [discriminate| |exact Hyes].
    intros x Hx. apply scanFiles_iff in Hx. destruct Hx as [g [c [Hg [Hrd Hx]]]].
    apply scanFiles_iff. exists g, c. auto. }
  apply in_app_or in Hd. apply in_or_app.
  destruct Hd as [Hd|Hd]; [left|right];
    apply in_map_iff in Hd; destruct Hd as [e [<- He]];
    apply in_map; apply filter_In in He; destruct He as [He Hc];
    apply filter_In; (split; [assumption|]).
  - apply negb_true_iff in Hc. now rewrite (Hmono _ Hc).
  - apply andb_true_iff in Hc. destruct Hc as [Hk Hc]. rewrite Hk.
    apply negb_true_iff in Hc. now rewrite (Hmono _ Hc).
Qed.


End DetectorMore.

Lemma count_by_type (l : list UnusedDependency) :
  length l
  = (length (List.filter (fun d => DependencyType_eqb (ud_type d) dependency) l)
     + length (List.filter (fun d => DependencyType_eqb (ud_type d) devDependency) l)
     + length (List.filter (fun d => DependencyType_eqb (ud_type d) peerDependency) l))%nat.
Proof.
  induction l as [|d l IH]; simpl; [reflexivity|].
  destruct (ud_type d); simpl; lia.
Qed.

(** X10 (statistics of the detector's findings): the unused dependencies and
    the unused devDependencies counted by [getStats] add up to the total. *)
Theorem dependency_stats_add_up (JSON_parse : string -> option PackageJson)
    (fs : FS) (root : string) (files cfg : list string)
    (findings : list UnusedDependency) :
  UnusedDependenciesDetector_detect JSON_parse fs root files cfg = Ok findings ->
  let stats := UnusedDependenciesDetector_getStats findings in
  st_totalUnused stats
  = (st_unusedDependencies stats + st_unusedDevDependencies stats)%nat.
Proof.
  intros Hdet stats. subst stats. unfold UnusedDependenciesDetector_getStats.
  cbn [st_totalUnused st_unusedDependencies st_unusedDevDependencies].
  rewrite (count_by_type findings) at 1.
  rewrite (filter_none (fun d => DependencyType_eqb (ud_type d) peerDependency) findings);
    [simpl; lia|].
  intros d Hd.
  destruct (detect_inv JSON_parse fs root files cfg findings Hdet) as [text [pj [Hr Hp]]].
  destruct (detect_findings JSON_parse fs root text pj files cfg findings d Hr Hp Hdet Hd)
    as [_ [[-> _]|[-> _]]]; reflexivity.
Qed.

Lemma known_tools_are_never_reported_witness :
  UnusedDependenciesDetector_detect Cases2.parseManifest Cases2.toolsFs "/p"
    ["/p/src/index.js"] []
  = Ok [dependencyFinding ("eslint", "^8.0.0"); devDependencyFinding ("left-pad", "1.3.0")]
  /\
  forall f,
    In f [dependencyFinding ("eslint", "^8.0.0"); devDependencyFinding ("left-pad", "1.3.0")] ->
    ud_type f = devDependency -> ud_name f <> "eslint" +:+ "-plugin-react".
Proof.
  split; [vm_compute; reflexivity|].
  apply (known_tools_are_never_reported Cases2.parseManifest Cases2.toolsFs "/p"
           ["/p/src/index.js"] [] _ "eslint" "-plugin-react").
  - vm_compute. reflexivity.
  - right. left. reflexivity.
Defined.

Lemma imported_package_is_not_reported_witness :
  List.Forall (fun f => ud_name f <> "lodash")
    [dependencyFinding ("eslint", "^8.0.0"); devDependencyFinding ("left-pad", "1.3.0")].
Proof.
  apply List.Forall_forall.
  apply (imported_package_is_not_reported Cases2.parseManifest Cases2.toolsFs "/p"
           ["/p/src/index.js"] [] _ "/p/src/index.js" "const _ = require('lodash/fp')"
           "lodash").
  - vm_compute. reflexivity.
  - left. reflexivity.
  - reflexivity.
  - vm_compute. left. reflexivity.
Defined.

Lemma scanning_more_reports_less_witness :
  List.Forall
    (fun d =>
       In d [dependencyFinding ("eslint", "^8.0.0"); dependencyFinding ("lodash", "^4.17.0");
             devDependencyFinding ("left-pad", "1.3.0")])
    [dependencyFinding ("eslint", "^8.0.0"); devDependencyFinding ("left-pad", "1.3.0")].
Proof.
  apply List.Forall_forall.
  apply (scanning_more_reports_less Cases2.parseManifest Cases2.toolsFs "/p"
           [] [] ["/p/src/index.js"] []).
  - vm_compute. reflexivity.
  - vm_compute. reflexivity.
  - intros f [].
Defined.


Lemma dependency_stats_add_up_witness :
  let stats :=
    UnusedDependenciesDetector_getStats
      [dependencyFinding ("eslint", "^8.0.0"); devDependencyFinding ("left-pad", "1.3.0")] in
  st_totalUnused stats
  = (st_unusedDependencies stats + st_unusedDevDependencies stats)%nat.
Proof.
  apply (dependency_stats_add_up Cases2.parseManifest Cases2.toolsFs "/p"
           ["/p/src/index.js"] []).
  vm_compute. reflexivity.
Defined.

(** ** Grouping findings by file *)

Lemma byFile_push_entries (k : string) (v : UnusedImport) (g : ByFile)
    (k' : string) (imps : list UnusedImport) :
  List.NoDup (map fst g) ->
  In (k', imps) (byFile_push k v g) ->
  (k' <> k /\ In (k', imps) g) \/
  (k' = k /\ exists old, imps = old ++ [v] /\
                         (In (k, old) g \/ (old = [] /\ ~ In k (map fst g)))).
Proof.
  induction g as [|[k0 l0] g IH]; simpl; intros Hnd Hin.
  - destruct Hin as [Heq|[]]. injection Heq as <- <-.
    right. split; [reflexivity|]. exists []. split; [reflexivity|]. right. auto.
  - inversion Hnd as [|? ? Hni Hnd']; subst.
    destruct (String.eqb_spec k0 k) as [->|Hne].
    + destruct Hin as [Heq|Hin].
      * injection Heq as <- <-. right. split; [reflexivity|].
        exists l0. split; [reflexivity|]. left. now left.
      * left. split; [|now right].
        intros ->. apply Hni. now apply (in_map fst g (k, imps)).
    + destruct Hin as [Heq|Hin].
      * injection Heq as <- <-. left. split; [assumption|now left].
      * destruct (IH Hnd' Hin) as [[Hk Hg]|[Hk [old [Hold Hcase]]]].
        -- left. split; [assumption|now right].
        -- right. split; [assumption|]. exists old. split; [assumption|].
           destruct Hcase as [Hg|[He Hn]]; [left; now right|].
           right. split; [assumption|]. intros [Hk0|Hg]; [congruence|contradiction].
Qed.

Lemma byFile_push_keys_eq (k : string) (v : UnusedImport) (g : ByFile) :
  (In k (map fst g) -> map fst (byFile_push k v g) = map fst g) /\
  (~ In k (map fst g) -> map fst (byFile_push k v g) = map fst g ++ [k]).
Proof.
  induction g as [|[k0 l0] g [IH1 IH2]]; simpl.
  - split; [intros []|reflexivity].
  - destruct (String.eqb_spec k0 k) as [->|Hne]; simpl.
    + split; [reflexivity|]. intros Hn. exfalso. apply Hn. now left.
    + split.
      * intros [Hk|Hin]; [congruence|]. now rewrite IH1.
      * intros Hn. rewrite IH2; [reflexivity|]. intros Hin. apply Hn. now right.
Qed.

Lemma filter_snoc {A : Type} (c : A -> bool) (l : list A) (x : A) :
  List.filter c (l ++ [x]) = List.filter c l ++ (if c x then [x] else []).
Proof. rewrite List.filter_app. reflexivity. Qed.

(** The grouping loop keeps: keys without repetition, each group the
    findings of its file so far, in order, and every finding so far under
    its file. *)
Lemma grouping_invariant (l : list UnusedImport) :
  forall (done : list UnusedImport) (g : ByFile),
    List.NoDup (map fst g) ->
    (forall k imps, In (k, imps) g ->
       imps <> [] /\ imps = List.filter (fun f => String.eqb (ui_file f) k) done) ->
    (forall f, In f done -> In (ui_file f) (map fst g)) ->
    let g' := fold_left (fun grouped imp => byFile_push (ui_file imp) imp grouped) l g in
    List.NoDup (map fst g') /\
    (forall k imps, In (k, imps) g' ->
       imps <> [] /\
       imps = List.filter (fun f => String.eqb (ui_file f) k) (done ++ l)) /\
    (forall f, In f (done ++ l) -> In (ui_file f) (map fst g')).
Proof.
  induction l as [|x l IH]; intros done g Hnd Hent Hcov; cbn [fold_left].
  - cbv zeta. rewrite app_nil_r. auto.
  - cbv zeta.
    replace (done ++ x :: l) with ((done ++ [x]) ++ l) by (now rewrite <- app_assoc).
    destruct (byFile_push_keys_eq (ui_file x) x g) as [Hold Hnew].
    apply IH.
    + destruct (in_dec string_dec (ui_file x) (map fst g)) as [Hin|Hout].
      * now rewrite (Hold Hin).
      * rewrite (Hnew Hout). apply List.NoDup_app; [assumption|repeat constructor; intros []|].
        intros y Hy [<-|[]]. contradiction.
    + intros k imps Hin.
      destruct (byFile_push_entries (ui_file x) x g k imps Hnd Hin)
        as [[Hk Hg]|[-> [old [-> Hcase]]]].
      * destruct (Hent k imps Hg) as [Hne ->]. split; [assumption|].
        rewrite filter_snoc.
        destruct (String.eqb_spec (ui_file x) k); [congruence|]. now rewrite app_nil_r.
      * split; [now destruct old|].
        rewrite filter_snoc, String.eqb_refl. f_equal.
        destruct Hcase as [Hg|[-> Hout]]; [now apply (Hent (ui_file x) old)|].
        symmetry. apply filter_none. intros f Hf.
        destruct (String.eqb_spec (ui_file f) (ui_file x)) as [Heq|]; [|reflexivity].
        exfalso. apply Hout. rewrite <- Heq. now apply Hcov.
    + intros f Hf. apply in_app_or in Hf.
      destruct (in_dec string_dec (ui_file x) (map fst g)) as [Hin|Hout].
      * rewrite (Hold Hin). destruct Hf as [Hf|[<-|[]]]; auto.
      * rewrite (Hnew Hout). apply in_or_app.
        destruct Hf as [Hf|[<-|[]]]; [left; auto|right; now left].
Qed.

(** X11 (grouping): [groupByFile] partitions the findings: no file appears
    twice, the group of a file is the findings of that file in their order,
    never empty, no finding is lost, and so [getStats] counts no more
    affected files than findings.  The grouping of the fixer is this one on
    the findings the fixer does not pass over. *)
Theorem grouping_partitions_findings (l : list UnusedImport) :
  let grouped := UnusedImportsDetector_groupByFile l in
  List.NoDup (map fst grouped) /\
  (forall k imps, In (k, imps) grouped ->
     imps <> [] /\ imps = List.filter (fun f => String.eqb (ui_file f) k) l) /\
  (forall f, In f l -> In (ui_file f) (map fst grouped)) /\
  (affectedFiles (UnusedImportsDetector_getStats l)
   <= totalUnused (UnusedImportsDetector_getStats l))%nat /\
  (forall opts,
     groupByFile opts l
     = UnusedImportsDetector_groupByFile
         (List.filter (fun i => negb (skips opts (ui_confidence i))) l)).
Proof.
  intros grouped.
  destruct (grouping_invariant l [] [] (List.NoDup_nil _)) as [Hnd [Hent Hcov]];
    [intros k imps []|intros f []|].
  fold (UnusedImportsDetector_groupByFile l) in Hnd, Hent, Hcov. fold grouped in Hnd, Hent, Hcov.
  simpl in Hent, Hcov.
  split; [exact Hnd|]. split; [exact Hent|]. split; [exact Hcov|]. split.
  - unfold UnusedImportsDetector_getStats. cbn [affectedFiles totalUnused].
    fold grouped. rewrite <- (length_map fst grouped), <- (length_map ui_file l).
    apply List.NoDup_incl_length; [exact Hnd|].
    intros k Hk. apply in_map_iff in Hk. destruct Hk as [[k' imps] [<- Hin]].
    destruct (Hent k' imps Hin) as [Hne Heq]. simpl.
    destruct imps as [|f imps]; [contradiction|].
    assert (Hf : In f (List.filter (fun f => String.eqb (ui_file f) k') l))
      by (rewrite <- Heq; now left).
    apply filter_In in Hf. destruct Hf as [Hf Hk]. apply String.eqb_eq in Hk.
    rewrite <- Hk. now apply in_map.
  - intros opts. rewrite groupByFile_skips.
    assert (Hall : forall i,
               In i (List.filter (fun i => negb (skips opts (ui_confidence i))) l) ->
               skips opts (ui_confidence i) = false).
    { intros i Hi. apply filter_In in Hi. now apply negb_true_iff. }
    revert Hall. generalize (List.filter (fun i => negb (skips opts (ui_confidence i))) l).
    intros kept Hall. unfold groupByFile, UnusedImportsDetector_groupByFile.
    generalize (@nil (string * list UnusedImport)).
    induction kept as [|x kept IH]; intros acc; simpl; [reflexivity|].
    rewrite (Hall x (or_introl eq_refl)). apply IH.
    intros i Hi. apply Hall. now right.
Qed.

Lemma grouping_partitions_findings_witness :
  UnusedImportsDetector_groupByFile [Samples.aFinding; Samples.bFinding; Samples.lowImport]
  = [("/p/src/a.js", [Samples.aFinding; Samples.lowImport]);
     ("/p/src/b.js", [Samples.bFinding])]
  /\
  (affectedFiles
     (UnusedImportsDetector_getStats [Samples.aFinding; Samples.bFinding; Samples.lowImport])
   <= totalUnused
        (UnusedImportsDetector_getStats [Samples.aFinding; Samples.bFinding; Samples.lowImport]))%nat
  /\
  groupByFile defaultOptions [Samples.aFinding; Samples.bFinding; Samples.lowImport]
  = UnusedImportsDetector_groupByFile [Samples.aFinding; Samples.bFinding].
Proof.
  split; [reflexivity|].
  destruct (grouping_partitions_findings
              [Samples.aFinding; Samples.bFinding; Samples.lowImport])
    as [_ [_ [_ [Hle Hfix]]]].
  split; [exact Hle|]. exact (Hfix defaultOptions).
Defined.

(** ** What the fixer reports and what it leaves *)

Lemma fixFile_audit (w : World) (g : string * list UnusedImport) (p : string) :
  (forall q, In q (filesModified (snd w)) -> In q (filesModified (snd (fixFile w g)))) /\
  (fst (fixFile w g) !! p = fst w !! p \/ In p (filesModified (snd (fixFile w g)))).
Proof.
  destruct w as [fs fr], g as [filePath imps]. unfold fixFile.
  destruct (Fs.readFileSync fs filePath) as [content|]; [|simpl; auto].
  destruct (es_modified _); [|simpl; auto].
  unfold Fs.writeFileSync.
  assert (Hins : forall e,
             (forall q, In q (filesModified fr) ->
                        In q (filesModified fr ++ [filePath])) /\
             ((<[filePath := e]> fs) !! p = fs !! p \/
              In p (filesModified fr ++ [filePath]))).
  { intros e. split; [intros q Hq; apply in_or_app; now left|].
    destruct (string_dec filePath p) as [->|Hne].
    - right. apply in_or_app. right. now left.
    - left. now apply lookup_insert_ne. }
  destruct (fs !! filePath) as [e|].
  - destruct (e_writable e); [apply Hins|simpl; auto].
  - apply Hins.
Qed.

Lemma fixUnusedImports_audit (opts : FixerOptions) (result : AnalysisResult)
    (w : World) (p : string) :
  (forall q, In q (filesModified (snd w)) ->
             In q (filesModified (snd (fixUnusedImports opts result w)))) /\
  (fst (fixUnusedImports opts result w) !! p = fst w !! p \/
   In p (filesModified (snd (fixUnusedImports opts result w)))).
Proof.
  unfold fixUnusedImports. revert w.
  induction (groupByFile opts (unusedImports result)) as [|g gs IH]; intros w; simpl;
    [auto|].
  destruct (IH (fixFile w g)) as [Hmono Hcase].
  destruct (fixFile_audit w g p) as [Hmono1 Hcase1].
  split; [auto|].
  destruct Hcase as [Heq|Hin]; [|now right].
  destruct Hcase1 as [Heq1|Hin1]; [left; congruence|right; auto].
Qed.

Section Audit.

Variable JSON_parse : string -> option PackageJson.
Variable JSON_stringify : PackageJson -> string.
Variable runTests : FS -> bool.
Variable cwd : string.

Lemma dependenciesPass_audit (opts : FixerOptions) (result : AnalysisResult)
    (w : World) (p : string) :
  (forall q, In q (filesModified (snd w)) ->
             In q (filesModified
                     (snd (fixUnusedDependencies JSON_parse JSON_stringify cwd opts result w))))
  /\
  (fst (fixUnusedDependencies JSON_parse JSON_stringify cwd opts result w) !! p = fst w !! p \/
   In p (filesModified
           (snd (fixUnusedDependencies JSON_parse JSON_stringify cwd opts result w)))).
Proof.
  destruct w as [fs fr]. unfold fixUnusedDependencies.
  destruct (Fs.readFileSync fs (Path.join cwd "package.json")) as [text|]; [|simpl; auto].
  destruct (JSON_parse text) as [pj|]; [|simpl; auto].
  destruct (ds_modified _); [|simpl; auto].
  unfold Fs.writeFileSync.
  assert (Hins : forall e,
             (forall q, In q (filesModified fr) ->
                        In q (filesModified fr ++ [Path.join cwd "package.json"])) /\
             ((<[Path.join cwd "package.json" := e]> fs) !! p = fs !! p \/
              In p (filesModified fr ++ [Path.join cwd "package.json"]))).
  { intros e. split; [intros q Hq; apply in_or_app; now left|].
    destruct (string_dec (Path.join cwd "package.json") p) as [<-|Hne].
    - right. apply in_or_app. right. now left.
    - left. now apply lookup_insert_ne. }
  destruct (fs !! Path.join cwd "package.json") as [e|].
  - destruct (e_writable e); [apply Hins|simpl; auto].
  - apply Hins.
Qed.

(** X12 (the outcome is an audit trail): every path whose entry differs
    after [fix] is listed in [filesModified], whatever the findings, the
    options and the failures on the way. *)
Theorem every_change_is_reported
    (opts : FixerOptions) (result : AnalysisResult) (fs : FS) (p : string) :
  let after := AutoFixer_fix JSON_parse JSON_stringify runTests cwd opts result fs in
  fst after !! p <> fs !! p -> In p (filesModified (snd after)).
Proof.
  intros after Hne.
  destruct (fix_passes JSON_parse JSON_stringify runTests cwd opts result fs)
    as [Hfs [Hmod _]].
  fold after in Hfs, Hmod. rewrite Hfs in Hne. rewrite Hmod.
  destruct (fixUnusedImports_audit opts result (fs, mkFixResult true [] 0 [] []) p)
    as [_ Hi].
  destruct (dependenciesPass_audit opts result
              (fixUnusedImports opts result (fs, mkFixResult true [] 0 [] [])) p)
    as [Hmono Hd].
  destruct Hd as [Heq|Hin]; [|assumption].
  destruct Hi as [Heq1|Hin1]; [|auto].
  exfalso. apply Hne. cbn [fst] in Heq1. congruence.
Qed.

End Audit.

Lemma every_change_is_reported_witness :
  let after :=
    AutoFixer_fix Samples.parseManifest Samples.stringify runTests_stub "/p"
      defaultOptions (mkAnalysisResult [Samples.aFinding] []) Samples.twoFs in
  In "/p/src/a.js" (filesModified (snd after)).
Proof.
  apply (every_change_is_reported Samples.parseManifest Samples.stringify runTests_stub
           "/p" defaultOptions (mkAnalysisResult [Samples.aFinding] []) Samples.twoFs
           "/p/src/a.js").
  vm_compute. discriminate.
Defined.

(** ** Findings that do not apply *)

Lemma groupByFile_as_detector (opts : FixerOptions) (l : list UnusedImport) :
  groupByFile opts l
  = UnusedImportsDetector_groupByFile
      (List.filter (fun i => negb (skips opts (ui_confidence i))) l).
Proof.
  rewrite groupByFile_skips.
  assert (Hall : forall i,
             In i (List.filter (fun i => negb (skips opts (ui_confidence i))) l) ->
             skips opts (ui_confidence i) = false).
  { intros i Hi. apply filter_In in Hi. now apply negb_true_iff. }
  revert Hall. generalize (List.filter (fun i => negb (skips opts (ui_confidence i))) l).
  intros kept Hall. unfold groupByFile, UnusedImportsDetector_groupByFile.
  generalize (@nil (string * list UnusedImport)).
  induction kept as [|x kept IH]; intros acc; simpl; [reflexivity|].
  rewrite (Hall x (or_introl eq_refl)). apply IH.
  intros i Hi. apply Hall. now right.
Qed.

(** The groups of the fixer: never empty, made of findings it does not pass
    over, each under its own file. *)
Lemma groupByFile_members (opts : FixerOptions) (l : list UnusedImport)
    (k : string) (imps : list UnusedImport) :
  In (k, imps) (groupByFile opts l) ->
  imps <> [] /\
  forall i, In i imps ->
            In i l /\ ui_file i = k /\ skips opts (ui_confidence i) = false.
Proof.
  rewrite groupByFile_as_detector. intros Hin.
  destruct (grouping_invariant
              (List.filter (fun i => negb (skips opts (ui_confidence i))) l) [] []
              (List.NoDup_nil _)) as [_ [Hent _]];
    [intros ? ? []|intros ? []|].
  destruct (Hent k imps Hin) as [Hne Heq]. split; [assumption|].
  intros i Hi. rewrite Heq in Hi. simpl in Hi.
  apply filter_In in Hi. destruct Hi as [Hi Hk].
  apply filter_In in Hi. destruct Hi as [Hi Hs].
  apply String.eqb_eq in Hk. apply negb_true_iff in Hs. auto.
Qed.

Lemma applyImport_inapplicable (st : EditState) (imp : UnusedImport) :
  applicable (es_lines st) imp = false -> applyImport st imp = st.
Proof.
  unfold applicable, applyImport. intros Hna.
  destruct ((0 <=? ui_line imp - 1)%Z
            && (ui_line imp - 1 <? Z.of_nat (length (es_lines st)))%Z);
    [|reflexivity].
  simpl in Hna.
  destruct (nth_error (es_lines st) (Z.to_nat (ui_line imp - 1))); [|reflexivity].
  now rewrite Hna.
Qed.

Lemma fixResult_eta (r : FixResult) : set_importsRemoved (importsRemoved r) r = r.
Proof. now destruct r. Qed.

(** X13 (findings that do not apply): a finding whose line number is zero
    or past the end of the file does not meet the guard of the loop; and when
    every finding the fixer does not pass over is about a readable file on
    which the guard fails, the imports pass changes nothing: no file, no
    counter, no error. *)
Theorem stale_findings_change_nothing :
  (forall lines imp,
     (ui_line imp <= 0)%Z \/ (Z.of_nat (length lines) < ui_line imp)%Z ->
     applicable lines imp = false)
  /\
  (forall (opts : FixerOptions) (result : AnalysisResult) (w : World),
     (forall i, In i (unusedImports result) ->
                skips opts (ui_confidence i) = false -> stale (fst w) i = true) ->
     fixUnusedImports opts result w = w).
Proof.
  split.
  - intros lines imp Hrange. unfold applicable.
    destruct (Z.leb_spec 0 (ui_line imp - 1)); [|reflexivity].
    destruct (Z.ltb_spec (ui_line imp - 1) (Z.of_nat (length lines))); [|reflexivity].
    lia.
  - intros opts result w Hstale. unfold fixUnusedImports.
    pose proof (groupByFile_members opts (unusedImports result)) as Hmem.
    revert Hmem. generalize (groupByFile opts (unusedImports result)) as groups.
    induction groups as [|[k imps] groups IH]; intros Hmem; simpl; [reflexivity|].
    assert (Hstep : fixFile w (k, imps) = w).
    { destruct (Hmem k imps (or_introl eq_refl)) as [Hne Hall].
      destruct w as [fs fr]. unfold fixFile. cbn [fst] in Hstale.
      destruct imps as [|i0 imps0] eqn:Himps; [contradiction|]. rewrite <- Himps in *.
      assert (Hi0 : In i0 imps) by (rewrite Himps; now left).
      destruct (Hall i0 Hi0) as [Hl0 [Hk0 Hs0]].
      pose proof (Hstale i0 Hl0 Hs0) as Hst0. unfold stale in Hst0. rewrite Hk0 in Hst0.
      destruct (Fs.readFileSync fs k) as [content|] eqn:Hread; [|discriminate].
      assert (Hfold : forall l st,
                 (forall i, In i l -> In i imps) ->
                 es_lines st = JsString.split JsString.newline content ->
                 fold_left applyImport l st = st).
      { induction l as [|i l IHl]; intros st Hsub Hlines; simpl; [reflexivity|].
        rewrite applyImport_inapplicable.
        - apply IHl; [intros j Hj; apply Hsub; now right|assumption].
        - rewrite Hlines.
          destruct (Hall i (Hsub i (or_introl eq_refl))) as [Hl [Hk Hs]].
          pose proof (Hstale i Hl Hs) as Hst. unfold stale in Hst.
          rewrite Hk, Hread in Hst. now apply negb_true_iff. }
      rewrite Hfold.
      - cbn [es_modified es_removed]. now rewrite fixResult_eta.
      - intros i Hi. apply (Permutation_in _ (sortDesc_perm imps)). exact Hi.
      - reflexivity. }
    rewrite Hstep. apply IH. intros k' imps' Hin. apply Hmem. now right.
Qed.

Lemma stale_findings_change_nothing_witness :
  applicable ["import a from 'x'"] (mkUnusedImport "/p/src/l.js" 0 0 "a" "x" (95 # 100))
  = false /\
  fixUnusedImports defaultOptions
    (mkAnalysisResult
       [mkUnusedImport "/p/src/l.js" 0 7 "a" "x" (95 # 100);
        mkUnusedImport "/p/src/l.js" 9 7 "a" "x" (95 # 100);
        mkUnusedImport "/p/src/l.js" 4 7 "a" "x" (95 # 100);
        Samples.lowImport] [])
    (Samples.linesFs, mkFixResult true [] 0 [] [])
  = (Samples.linesFs, mkFixResult true [] 0 [] []).
Proof.
  split.
  - apply (proj1 stale_findings_change_nothing). left. simpl. lia.
  - apply (proj2 stale_findings_change_nothing).
    intros i [<-|[<-|[<-|[<-|[]]]]]; intros Hs; solve [reflexivity | discriminate Hs].
Defined.

(** ** The manifest after the dependencies pass *)

Lemma mem_In (n : string) (l : list string) :
  existsb (String.eqb n) l = true <-> In n l.
Proof.
  rewrite existsb_exists. split.
  - intros [x [Hx He]]. apply String.eqb_eq in He. now subst.
  - intros Hin. exists n. split; [assumption|apply String.eqb_refl].
Qed.

Lemma get_filter (P : string -> bool) (r : StringRecord) (k : string) :
  Rec.get (List.filter (fun kv => P (fst kv)) r) k
  = if P k then Rec.get r k else None.
Proof.
  induction r as [|[k0 v0] r IH]; simpl; [now destruct (P k)|].
  destruct (P k0) eqn:Hk0; simpl.
  - destruct (String.eqb_spec k0 k) as [->|Hne]; [now rewrite Hk0|exact IH].
  - destruct (String.eqb_spec k0 k) as [->|Hne]; [now rewrite IH, Hk0|exact IH].
Qed.

Lemma truthy_at_kept (gone : list string) (r : option StringRecord) (n : string) :
  existsb (String.eqb n) gone = false ->
  Rec.truthy_at (without gone r) n = Rec.truthy_at r n.
Proof.
  intros Hm. destruct r as [r|]; [|reflexivity]. unfold without, Rec.truthy_at. simpl.
  rewrite (get_filter (fun k => negb (existsb (String.eqb k) gone)) r n).
  now rewrite Hm.
Qed.

Lemma deleted_truthy (opts : FixerOptions) (kind : DependencyType)
    (r : option StringRecord) (done : list UnusedDependency) (n : string) :
  In n (deleted opts kind r done) -> Rec.truthy_at r n = true.
Proof.
  unfold deleted. intros Hin. apply in_map_iff in Hin.
  destruct Hin as [d [<- Hd]]. apply filter_In in Hd. destruct Hd as [_ Hd].
  apply andb_true_iff in Hd. apply Hd.
Qed.

Lemma filter_filter {A : Type} (f g : A -> bool) (l : list A) :
  List.filter f (List.filter g l) = List.filter (fun x => g x && f x) l.
Proof.
  induction l as [|x l IH]; simpl; [reflexivity|].
  destruct (g x); simpl; [destruct (f x); now rewrite IH|exact IH].
Qed.

Lemma delete_without (gone : list string) (r : option StringRecord) (n : string) :
  option_map (Rec.delete n) (without gone r) = without (gone ++ [n]) r.
Proof.
  destruct r as [r|]; [|reflexivity]. unfold without, Rec.delete. simpl. f_equal.
  rewrite filter_filter. apply filter_ext. intros [k v]. simpl.
  rewrite existsb_app. simpl. rewrite orb_false_r, negb_orb. reflexivity.
Qed.

Lemma without_again (gone : list string) (r : option StringRecord) (n : string) :
  In n gone -> without (gone ++ [n]) r = without gone r.
Proof.
  intros Hin. destruct r as [r|]; [|reflexivity]. unfold without. simpl. f_equal.
  apply filter_ext. intros [k v]. simpl. rewrite existsb_app. simpl.
  rewrite orb_false_r.
  destruct (String.eqb_spec k n) as [->|Hne]; [|now rewrite orb_false_r].
  rewrite (proj2 (mem_In n gone) Hin). reflexivity.
Qed.

Lemma deleted_snoc (opts : FixerOptions) (kind : DependencyType)
    (r : option StringRecord) (done : list UnusedDependency) (d : UnusedDependency) :
  deleted opts kind r (done ++ [d])
  = deleted opts kind r done
    ++ (if negb (skips opts (ud_confidence d))
           && DependencyType_eqb (ud_type d) kind
           && Rec.truthy_at r (ud_name d)
        then [ud_name d] else []).
Proof.
  unfold deleted. rewrite List.filter_app, map_app. simpl.
  now destruct (negb (skips opts (ud_confidence d))
                && DependencyType_eqb (ud_type d) kind
                && Rec.truthy_at r (ud_name d)).
Qed.

Lemma nonempty_snoc {A : Type} (l : list A) (x : A) : l ++ [x] <> [].
Proof. now destruct l. Qed.

Lemma manifest_step (opts : FixerOptions) (pj : PackageJson)
    (done : list UnusedDependency) (st : DepState) (d : UnusedDependency) :
  manifestInvariant opts pj done st ->
  manifestInvariant opts pj (done ++ [d]) (applyDependency opts st d).
Proof.
  intros [Hdep [Hdev [Hrem Hmod]]]. unfold manifestInvariant.
  rewrite !deleted_snoc. unfold applyDependency.
  destruct (skips opts (ud_confidence d)) eqn:Hs; cbn [negb andb].
  { rewrite !app_nil_r. auto. }
  destruct (ud_type d) eqn:Ht; cbn [DependencyType_eqb andb].
  - (* a finding of kind dependency *)
    rewrite app_nil_r, Hdep.
    destruct (existsb (String.eqb (ud_name d))
                (deleted opts dependency (pj_dependencies pj) done)) eqn:Hm.
    + (* a name deleted before: only an inherited property is left *)
      apply mem_In in Hm. rewrite (deleted_truthy _ _ _ _ _ Hm).
      rewrite (without_again _ _ _ Hm).
      destruct (Rec.truthy_at _ (ud_name d)).
      * cbn [ds_packageJson ds_removed ds_modified set_dependencies
             pj_dependencies pj_devDependencies].
        split; [rewrite delete_without; now apply without_again|].
        split; [assumption|]. split.
        -- intros n. rewrite !in_app_iff, Hrem. simpl.
           split; [tauto|]. intros [[H|[<-|[]]]|H]; tauto.
        -- split; [intros _; apply nonempty_snoc|reflexivity].
      * rewrite <- Hdep.
        split; [reflexivity|]. split; [assumption|]. split; [|assumption].
        intros n. rewrite Hrem, in_app_iff. simpl.
        split; [tauto|]. intros [[H|[<-|[]]]|H]; tauto.
    + rewrite (truthy_at_kept _ _ _ Hm).
      destruct (Rec.truthy_at (pj_dependencies pj) (ud_name d)) eqn:Hy.
      2: { rewrite app_nil_r. rewrite <- Hdep. auto. }
      cbn [ds_packageJson ds_removed ds_modified set_dependencies
           pj_dependencies pj_devDependencies].
      split; [now rewrite delete_without|].
      split; [assumption|]. split.
      * intros n. rewrite !in_app_iff, Hrem. simpl. tauto.
      * split; [intros _; apply nonempty_snoc|reflexivity].
  - (* a finding of kind devDependency *)
    rewrite app_nil_r, Hdev.
    destruct (existsb (String.eqb (ud_name d))
                (deleted opts devDependency (pj_devDependencies pj) done)) eqn:Hm.
    + apply mem_In in Hm. rewrite (deleted_truthy _ _ _ _ _ Hm).
      rewrite (without_again _ _ _ Hm).
      destruct (Rec.truthy_at _ (ud_name d)).
      * cbn [ds_packageJson ds_removed ds_modified set_devDependencies
             pj_dependencies pj_devDependencies].
        split; [assumption|].
        split; [rewrite delete_without; now apply without_again|]. split.
        -- intros n. rewrite !in_app_iff, Hrem. simpl.
           split; [tauto|]. intros [H|[H|[<-|[]]]]; tauto.
        -- split; [intros _; apply nonempty_snoc|reflexivity].
      * rewrite <- Hdev.
        split; [assumption|]. split; [reflexivity|]. split; [|assumption].
        intros n. rewrite Hrem, in_app_iff. simpl.
        split; [tauto|]. intros [H|[H|[<-|[]]]]; tauto.
    + rewrite (truthy_at_kept _ _ _ Hm).
      destruct (Rec.truthy_at (pj_devDependencies pj) (ud_name d)) eqn:Hy.
      2: { rewrite app_nil_r. rewrite <- Hdev. auto. }
      cbn [ds_packageJson ds_removed ds_modified set_devDependencies
           pj_dependencies pj_devDependencies].
      split; [assumption|].
      split; [now rewrite delete_without|]. split.
      * intros n. rewrite !in_app_iff, Hrem. simpl. tauto.
      * split; [intros _; apply nonempty_snoc|reflexivity].
  - (* a finding of kind peerDependency *)
    rewrite !app_nil_r. auto.
Qed.

Lemma manifest_fold (opts : FixerOptions) (pj : PackageJson) (l : list UnusedDependency) :
  forall (done : list UnusedDependency) (st : DepState),
    manifestInvariant opts pj done st ->
    manifestInvariant opts pj (done ++ l) (fold_left (applyDependency opts) l st).
Proof.
  induction l as [|d l IH]; intros done st Hinv; cbn [fold_left].
  - now rewrite app_nil_r.
  - replace (done ++ d :: l) with ((done ++ [d]) ++ l) by (now rewrite <- app_assoc).
    apply IH. now apply manifest_step.
Qed.

Lemma manifest_start (opts : FixerOptions) (pj : PackageJson) :
  manifestInvariant opts pj [] (mkDepState pj false []).
Proof.
  unfold manifestInvariant, deleted, without. simpl.
  assert (Hid : forall r : option StringRecord,
             r = option_map (List.filter (fun _ => true)) r).
  { intros [r|]; [|reflexivity]. simpl. f_equal.
    induction r as [|kv r IH]; simpl; [reflexivity|]. now rewrite <- IH. }
  split; [apply Hid|]. split; [apply Hid|]. split; [tauto|].
  split; [discriminate|]. intros H. now contradiction H.
Qed.

Section ManifestExact.

Variable JSON_parse : string -> option PackageJson.
Variable JSON_stringify : PackageJson -> string.
Variable runTests : FS -> bool.
Variable cwd : string.

(** The manifest file after [fix], exactly. *)
Lemma fix_manifest_exact (opts : FixerOptions) (result : AnalysisResult) (fs : FS)
    (e : Entry) (pj : PackageJson) :
  fs !! Path.join cwd "package.json" = Some e ->
  e_readable e = true ->
  JSON_parse (e_data e) = Some pj ->
  (forall i, In i (unusedImports result) -> ui_file i <> Path.join cwd "package.json") ->
  let after := AutoFixer_fix JSON_parse JSON_stringify runTests cwd opts result fs in
  let st :=
    fold_left (applyDependency opts) (unusedDependencies result)
      (mkDepState pj false []) in
  dependenciesRemoved (snd after) = ds_removed st /\
  fst after !! Path.join cwd "package.json"
  = Some (if ds_modified st && e_writable e
          then mkEntry (JSON_stringify (ds_packageJson st) +:+ "
") true true
          else e).
Proof.
  intros He Hr Hparse Hfiles after st.
  destruct (fix_passes JSON_parse JSON_stringify runTests cwd opts result fs)
    as [Hfs [_ [_ Hrem]]].
  fold after in Hfs, Hrem. rewrite Hfs, Hrem. clear Hfs Hrem after.
  destruct (fixUnusedImports_frame opts result (fs, mkFixResult true [] 0 [] [])
              (Path.join cwd "package.json") Hfiles) as [Hlook Hnone].
  destruct (fixUnusedImports opts result (fs, mkFixResult true [] 0 [] []))
    as [fs1 fr1].
  cbn [fst snd dependenciesRemoved] in Hlook, Hnone. rewrite He in Hlook.
  unfold fixUnusedDependencies, Fs.readFileSync, Fs.writeFileSync.
  rewrite Hlook, Hr, Hparse, Hnone. fold st.
  destruct (ds_modified st); cbn [andb]; [|now split].
  destruct (e_writable e); [|now split].
  split; [reflexivity|]. cbn [fst]. rewrite lookup_insert_eq. reflexivity.
Qed.

(** X14 (a manifest that cannot be read or parsed): the dependencies pass
    records one error and does nothing else; no name is listed as removed,
    the manifest path is left as it was, what the imports pass did stands,
    and without a test run the outcome is still a success. *)
Theorem unreadable_manifest_is_not_fatal
    (opts : FixerOptions) (result : AnalysisResult) (fs : FS) :
  (forall i, In i (unusedImports result) -> ui_file i <> Path.join cwd "package.json") ->
  (Fs.readFileSync fs (Path.join cwd "package.json") = None \/
   exists text, Fs.readFileSync fs (Path.join cwd "package.json") = Some text /\
                JSON_parse text = None) ->
  let after := AutoFixer_fix JSON_parse JSON_stringify runTests cwd opts result fs in
  let imported := fixUnusedImports opts result (fs, mkFixResult true [] 0 [] []) in
  fst after = fst imported /\
  importsRemoved (snd after) = importsRemoved (snd imported) /\
  dependenciesRemoved (snd after) = [] /\
  fst after !! Path.join cwd "package.json" = fs !! Path.join cwd "package.json" /\
  In "Failed to fix dependencies in package.json" (errors (snd after)) /\
  (requireTests opts = false -> success (snd after) = true).
Proof.
  intros Hfiles Hbad after imported.
  destruct (fixUnusedImports_frame opts result (fs, mkFixResult true [] 0 [] [])
              (Path.join cwd "package.json") Hfiles) as [Hlook Hnone].
  pose proof (fixUnusedImports_success opts result (fs, mkFixResult true [] 0 [] []))
    as Hsucc.
  fold imported in Hlook, Hnone, Hsucc. subst after. unfold AutoFixer_fix. fold imported.
  destruct imported as [fs1 fr1]. cbn [fst snd] in *.
  assert (Hpass : fixUnusedDependencies JSON_parse JSON_stringify cwd opts result (fs1, fr1)
                  = (fs1, push_error "Failed to fix dependencies in package.json" fr1)).
  { unfold fixUnusedDependencies, Fs.readFileSync in *. rewrite Hlook.
    destruct Hbad as [-> | [text [-> ->]]]; reflexivity. }
  rewrite Hpass.
  destruct (requireTests opts) eqn:Hreq; cbn [andb].
  - destruct (0 <? length _)%nat; [destruct (negb (runTests fs1))|];
      cbn [fst snd rollback push_error set_failed importsRemoved dependenciesRemoved errors];
      rewrite ?in_app_iff; simpl; repeat split; auto; discriminate.
  - cbn [fst snd push_error importsRemoved dependenciesRemoved errors success].
    rewrite in_app_iff. simpl. repeat split; auto.
Qed.

(** The manifest after the dependencies pass, map by map. *)
Lemma manifest_rewrite_is_exact_lemma
    (opts : FixerOptions) (result : AnalysisResult) (fs : FS)
    (e : Entry) (pj : PackageJson) :
  fs !! Path.join cwd "package.json" = Some e ->
  e_readable e = true ->
  JSON_parse (e_data e) = Some pj ->
  (forall i, In i (unusedImports result) -> ui_file i <> Path.join cwd "package.json") ->
  let after := AutoFixer_fix JSON_parse JSON_stringify runTests cwd opts result fs in
  let pj' := manifestAfter opts (unusedDependencies result) pj in
  let gone := deleted opts dependency (pj_dependencies pj) (unusedDependencies result) in
  let goneDev :=
    deleted opts devDependency (pj_devDependencies pj) (unusedDependencies result) in
  pj_dependencies pj' = without gone (pj_dependencies pj) /\
  pj_devDependencies pj' = without goneDev (pj_devDependencies pj) /\
  (forall n, In n (dependenciesRemoved (snd after)) <-> In n gone \/ In n goneDev) /\
  fst after !! Path.join cwd "package.json"
  = Some (match gone ++ goneDev with
          | [] => e
          | _ :: _ =>
              if e_writable e
              then mkEntry (JSON_stringify pj' +:+ "
") true true
              else e
          end).
Proof.
  intros He Hr Hparse Hfiles after pj' gone goneDev.
  destruct (fix_manifest_exact opts result fs e pj He Hr Hparse Hfiles) as [Hrem Hfile].
  fold after in Hrem, Hfile.
  destruct (manifest_fold opts pj (unusedDependencies result) [] (mkDepState pj false [])
              (manifest_start opts pj)) as [Hdep [Hdev [Hnames Hmod]]].
  simpl app in Hdep, Hdev, Hnames. fold gone in Hdep, Hnames. fold goneDev in Hdev, Hnames.
  split; [exact Hdep|]. split; [exact Hdev|]. split; [now rewrite Hrem|].
  rewrite Hfile. f_equal. fold (manifestAfter opts (unusedDependencies result) pj).
  fold pj'.
  set (st := fold_left (applyDependency opts) (unusedDependencies result)
               (mkDepState pj false [])) in *.
  assert (Hiff : ds_modified st = true <-> gone ++ goneDev <> []).
  { rewrite Hmod. split; intros Hne Hnil; apply Hne.
    - destruct (ds_removed st) as [|x xs]; [reflexivity|].
      assert (Hx : In x (gone ++ goneDev)).
      { apply in_or_app. apply Hnames. now left. }
      rewrite Hnil in Hx. destruct Hx.
    - destruct (gone ++ goneDev) as [|n rest] eqn:Hgone; [reflexivity|].
      assert (Hn : In n (gone ++ goneDev)) by (rewrite Hgone; now left).
      apply in_app_or in Hn. apply Hnames in Hn. rewrite Hnil in Hn. destruct Hn. }
  destruct (gone ++ goneDev) as [|n rest].
  - destruct (ds_modified st); [|reflexivity].
    exfalso. exact (proj1 Hiff eq_refl eq_refl).
  - assert (Hm : ds_modified st = true) by (apply Hiff; discriminate).
    now rewrite Hm.
Qed.

(** X15 (what the dependencies pass deletes): when the manifest is read and
    parsed, each map is rewritten to the original one without the entries
    named by a finding of its kind that the fixer does not pass over and
    whose name the map holds truthy, the other entries in their order.  A
    name is held truthy through an entry with a version other than the empty
    string or, when the map has no entry of that name, through
    [Object.prototype]; in the latter case no entry goes.
    [dependenciesRemoved] lists these names and no other; and the file is
    rewritten only if there was such a name and the file can be written. *)
Theorem manifest_rewrite_is_exact
    (opts : FixerOptions) (result : AnalysisResult) (fs : FS)
    (e : Entry) (pj : PackageJson) :
  fs !! Path.join cwd "package.json" = Some e ->
  e_readable e = true ->
  JSON_parse (e_data e) = Some pj ->
  (forall i, In i (unusedImports result) -> ui_file i <> Path.join cwd "package.json") ->
  let after := AutoFixer_fix JSON_parse JSON_stringify runTests cwd opts result fs in
  let pj' := manifestAfter opts (unusedDependencies result) pj in
  let gone := deleted opts dependency (pj_dependencies pj) (unusedDependencies result) in
  let goneDev :=
    deleted opts devDependency (pj_devDependencies pj) (unusedDependencies result) in
  pj_dependencies pj' = without gone (pj_dependencies pj) /\
  pj_devDependencies pj' = without goneDev (pj_devDependencies pj) /\
  (forall n, In n (dependenciesRemoved (snd after)) <-> In n gone \/ In n goneDev) /\
  fst after !! Path.join cwd "package.json"
  = Some (match gone ++ goneDev with
          | [] => e
          | _ :: _ =>
              if e_writable e
              then mkEntry (JSON_stringify pj' +:+ "
") true true
              else e
          end).
Proof.
  intros He Hr Hparse Hfiles.
  exact (manifest_rewrite_is_exact_lemma opts result fs e pj He Hr Hparse Hfiles).
Qed.

End ManifestExact.

Lemma unreadable_manifest_is_not_fatal_witness :
  let result := mkAnalysisResult [Samples.line3; Samples.line7] [Samples.lowDependency] in
  let after :=
    AutoFixer_fix Samples.parseManifest Samples.stringify runTests_stub "/p"
      defaultOptions result Samples.linesFs in
  let imported :=
    fixUnusedImports defaultOptions result (Samples.linesFs, mkFixResult true [] 0 [] []) in
  fst after = fst imported /\
  importsRemoved (snd after) = 2%nat /\
  dependenciesRemoved (snd after) = [] /\
  fst after !! Path.join "/p" "package.json" = None /\
  In "Failed to fix dependencies in package.json" (errors (snd after)) /\
  success (snd after) = true.
Proof.
  intros result after imported.
  destruct (unreadable_manifest_is_not_fatal Samples.parseManifest Samples.stringify
              runTests_stub "/p" defaultOptions result Samples.linesFs)
    as [H1 [H2 [H3 [H4 [H5 H6]]]]].
  - intros i [<-|[<-|[]]]; discriminate.
  - left. reflexivity.
  - split; [exact H1|]. split; [exact H2|]. split; [exact H3|].
    split; [exact H4|]. split; [exact H5|]. apply H6. reflexivity.
Defined.

Lemma manifest_rewrite_is_exact_witness :
  let deps :=
    [dependencyFinding ("lodash", "^4.17.0");
     devDependencyFinding ("lodash", "^4.17.0");
     mkUnusedDependency "react" "^18.0.0" peerDependency (95 # 100) "unused";
     mkUnusedDependency "toString" "1.0.0" dependency (95 # 100) "unused"] in
  let after :=
    AutoFixer_fix Samples.parseManifest Samples.stringify runTests_stub "/p"
      defaultOptions (mkAnalysisResult [] deps) Samples.lodashFs in
  let pj' := manifestAfter defaultOptions deps Samples.lodashManifest in
  pj_dependencies pj' = Some [] /\
  pj_devDependencies pj' = pj_devDependencies Samples.lodashManifest /\
  (forall n, In n (dependenciesRemoved (snd after)) <->
             In n ["lodash"; "toString"] \/ In n []) /\
  fst after !! Path.join "/p" "package.json"
  = Some (mkEntry (Samples.stringify pj' +:+ "
") true true).
Proof.
  intros deps.
  apply (manifest_rewrite_is_exact Samples.parseManifest Samples.stringify runTests_stub
           "/p" defaultOptions (mkAnalysisResult [] deps) Samples.lodashFs
           (Samples.plainFile (Samples.stringify Samples.lodashManifest))
           Samples.lodashManifest eq_refl eq_refl eq_refl).
  intros i [].
Defined.

(** ** Detecting, fixing, detecting again *)

Lemma truthy_at_member (r : StringRecord) (k : string) :
  (forall kv, In kv r -> snd kv <> "") ->
  In k (map fst r) -> Rec.truthy_at (Some r) k = true.
Proof.
  unfold Rec.truthy_at. induction r as [|[k0 v0] r IH]; intros Hall Hin; [destruct Hin|].
  simpl. destruct (String.eqb_spec k0 k) as [->|Hne].
  - unfold JsString.truthy. specialize (Hall (k, v0) (or_introl eq_refl)). simpl in Hall.
    destruct (String.eqb_spec v0 ""); [contradiction|reflexivity].
  - apply IH; [intros kv Hkv; apply Hall; now right|].
    destruct Hin as [Hk|Hin]; [simpl in Hk; congruence|assumption].
Qed.

(** Once the reported entries are gone, none of the entries left is
    reported. *)
Lemma survivors_pass (sel : string -> bool) (r : StringRecord) :
  List.filter (fun e => sel (fst e))
    (List.filter
       (fun kv => negb (existsb (String.eqb (fst kv))
                          (map fst (List.filter (fun e => sel (fst e)) r)))) r)
  = [].
Proof.
  rewrite filter_filter. apply filter_none. intros [k v] Hin. simpl.
  destruct (sel k) eqn:Hs; [|apply andb_false_r].
  rewrite andb_true_r. apply negb_false_iff. apply mem_In.
  apply (in_map fst _ (k, v)). apply filter_In. split; assumption.
Qed.

Lemma filter_all {A : Type} (c : A -> bool) (l : list A) :
  (forall x, In x l -> c x = true) -> List.filter c l = l.
Proof.
  induction l as [|x l IH]; intros H; simpl; [reflexivity|].
  rewrite (H x (or_introl eq_refl)). f_equal. apply IH. intros y Hy. apply H. now right.
Qed.

Lemma without_nothing (r : option StringRecord) : or_empty (without [] r) = or_empty r.
Proof.
  destruct r as [r|]; [|reflexivity]. simpl. apply filter_all. reflexivity.
Qed.

(** The findings of one kind, detected again on the map the fixer left:
    those the fixer passed over. *)
Lemma refind_kind (opts : FixerOptions) (kind : DependencyType) (c : Q)
    (F : string * string -> UnusedDependency) (sel : string -> bool)
    (r : option StringRecord) (others : list UnusedDependency) :
  (forall e, ud_name (F e) = fst e /\ ud_type (F e) = kind /\ ud_confidence (F e) = c) ->
  (forall d, In d others -> ud_type d <> kind) ->
  (forall kv, In kv (or_empty r) -> snd kv <> "") ->
  let found := map F (List.filter (fun e => sel (fst e)) (or_empty r)) in
  forall l1 l2,
    (forall d, In d (l1 ++ l2) -> In d others) ->
    map F (List.filter (fun e => sel (fst e))
             (or_empty (without (deleted opts kind r (l1 ++ found ++ l2)) r)))
    = List.filter (fun d => skips opts (ud_confidence d)) found.
Proof.
  intros HF Hothers Htruthy found l1 l2 Hl.
  assert (Hnot : forall l, (forall d, In d l -> In d others) -> deleted opts kind r l = []).
  { intros l Hin. unfold deleted. rewrite filter_none; [reflexivity|].
    intros d Hd. specialize (Hothers d (Hin d Hd)).
    destruct (ud_type d), kind; simpl; try (now rewrite andb_false_r); contradiction. }
  assert (Hsplit : deleted opts kind r (l1 ++ found ++ l2) = deleted opts kind r found).
  { unfold deleted. rewrite !List.filter_app, !map_app.
    fold (deleted opts kind r l1). fold (deleted opts kind r l2).
    rewrite (Hnot l1), (Hnot l2), app_nil_r; [reflexivity| |];
      intros d Hd; apply Hl; apply in_or_app; auto. }
  rewrite Hsplit.
  assert (Hconf : forall d, In d found -> ud_confidence d = c).
  { intros d Hd. apply in_map_iff in Hd. destruct Hd as [e [<- _]]. apply HF. }
  destruct (skips opts c) eqn:Hs.
  - assert (Hnone : deleted opts kind r found = []).
    { unfold deleted. rewrite filter_none; [reflexivity|].
      intros d Hd. now rewrite (Hconf d Hd), Hs. }
    rewrite Hnone, without_nothing. symmetry. apply filter_all.
    intros d Hd. now rewrite (Hconf d Hd).
  - assert (Hall : deleted opts kind r found
                   = map fst (List.filter (fun e => sel (fst e)) (or_empty r))).
    { unfold deleted. rewrite filter_all.
      - unfold found. rewrite map_map. apply map_ext. intros e. apply HF.
      - intros d Hd. rewrite (Hconf d Hd), Hs.
        apply in_map_iff in Hd. destruct Hd as [e [<- He]].
        destruct (HF e) as [Hn [Ht _]]. rewrite Hn, Ht.
        apply filter_In in He. destruct He as [He _].
        assert (Hk : DependencyType_eqb kind kind = true) by (now destruct kind).
        rewrite Hk. simpl.
        destruct r as [r|]; [|destruct He].
        apply truthy_at_member; [exact Htruthy|]. now apply (in_map fst r e). }
    rewrite Hall. rewrite (filter_none (fun d => skips opts (ud_confidence d)) found).
    2: { intros d Hd. now rewrite (Hconf d Hd). }
    destruct r as [r|]; [|reflexivity]. unfold without. simpl.
    now rewrite survivors_pass.
Qed.

Lemma isPackageUsed_ext (p : string) (used used' : JsSet.t) :
  (forall x, In x used <-> In x used') ->
  isPackageUsed p used = isPackageUsed p used'.
Proof.
  intros Hiff. apply eq_true_iff_eq.
  split; apply isPackageUsed_mono; intros x; apply Hiff.
Qed.

Section DependencyRoundTrip.

Variable JSON_parse : string -> option PackageJson.
Variable JSON_stringify : PackageJson -> string.
Variable runTests : FS -> bool.
Variable cwd : string.

(** X16 (detect, fix, detect again): take the findings of [detect], hand
    them alone to the fixer, and run [detect] again on the same files: it
    reports the findings the fixer passed over and no other.  In safe mode
    those are the devDependency findings; without safe mode there are none.
    The manifest declares no empty version, it can be read and written, its
    text before and after holds nothing the scan takes for an import, and
    the parser reads back what the printer wrote. *)
Theorem dependency_fix_round_trip
    (opts : FixerOptions) (fs : FS) (e : Entry) (pj : PackageJson)
    (files cfg : list string) (deps : list UnusedDependency) :
  fs !! Path.join cwd "package.json" = Some e ->
  e_readable e = true -> e_writable e = true ->
  JSON_parse (e_data e) = Some pj ->
  (forall kv, In kv (or_empty (pj_dependencies pj)) -> snd kv <> "") ->
  (forall kv, In kv (or_empty (pj_devDependencies pj)) -> snd kv <> "") ->
  UnusedDependenciesDetector_detect JSON_parse fs cwd files cfg = Ok deps ->
  let after :=
    AutoFixer_fix JSON_parse JSON_stringify runTests cwd opts
      (mkAnalysisResult [] deps) fs in
  let text' := JSON_stringify (manifestAfter opts deps pj) +:+ "
" in
  JSON_parse text' = Some (manifestAfter opts deps pj) ->
  extractImports (e_data e) [] = [] ->
  extractImports text' [] = [] ->
  UnusedDependenciesDetector_detect JSON_parse (fst after) cwd files cfg
  = Ok (List.filter (fun d => skips opts (ud_confidence d)) deps).
Proof.
  intros He Hr Hw Hparse Hvd Hvv Hdet after text' Hparse' Hscan Hscan'.
  assert (Hread : Fs.readFileSync fs (Path.join cwd "package.json") = Some (e_data e)).
  { unfold Fs.readFileSync. now rewrite He, Hr. }
  rewrite (detect_ok JSON_parse fs cwd (e_data e) pj files cfg Hread Hparse) in Hdet.
  cbv zeta in Hdet. injection Hdet as Hdeps.
  set (S0 := scanFiles fs (files ++ cfg)) in *.
  (* the manifest after the fix *)
  destruct (manifest_rewrite_is_exact_lemma JSON_parse JSON_stringify runTests cwd opts
              (mkAnalysisResult [] deps) fs e pj He Hr Hparse)
    as [HdepA [HdevA [_ Hfile]]]; [intros i []|].
  fold after in Hfile. cbn [unusedDependencies] in HdepA, HdevA, Hfile.
  rewrite Hw in Hfile.
  (* what detect reads back *)
  assert (Hback : exists text2 pj2,
             Fs.readFileSync (fst after) (Path.join cwd "package.json") = Some text2 /\
             JSON_parse text2 = Some pj2 /\
             extractImports text2 [] = [] /\
             pj_dependencies pj2 = pj_dependencies (manifestAfter opts deps pj) /\
             pj_devDependencies pj2 = pj_devDependencies (manifestAfter opts deps pj)).
  { unfold Fs.readFileSync. rewrite Hfile.
    destruct (deleted opts dependency (pj_dependencies pj) deps
              ++ deleted opts devDependency (pj_devDependencies pj) deps)
      as [|n rest] eqn:Hgone.
    - apply app_eq_nil in Hgone. destruct Hgone as [Hg1 Hg2].
      rewrite Hr. exists (e_data e), pj. repeat split; try assumption.
      + rewrite HdepA, Hg1. destruct (pj_dependencies pj) as [r|]; [|reflexivity].
        unfold without. simpl. f_equal. symmetry. now apply filter_all.
      + rewrite HdevA, Hg2. destruct (pj_devDependencies pj) as [r|]; [|reflexivity].
        unfold without. simpl. f_equal. symmetry. now apply filter_all.
    - cbn. exists text', (manifestAfter opts deps pj). auto. }
  destruct Hback as [text2 [pj2 [Hread2 [Hparse2 [Hscan2 [Hd2 Hv2]]]]]].
  rewrite (detect_ok JSON_parse (fst after) cwd text2 pj2 files cfg Hread2 Hparse2).
  cbv zeta.
  (* the scan finds what it found *)
  assert (Hother : forall p, p <> Path.join cwd "package.json" -> fst after !! p = fs !! p).
  { intros p Hp.
    destruct (fix_passes JSON_parse JSON_stringify runTests cwd opts
                (mkAnalysisResult [] deps) fs) as [Hfs _].
    fold after in Hfs. rewrite Hfs.
    unfold fixUnusedImports, groupByFile. cbn [unusedImports fold_left].
    now rewrite (dependenciesPass_frame JSON_parse JSON_stringify cwd opts _ _ _ p Hp). }
  assert (Hsame : forall x, In x (scanFiles (fst after) (files ++ cfg)) <-> In x S0).
  { intros x. unfold S0. rewrite !scanFiles_iff.
    split; intros [file [content [Hfile' [Hrd Hx]]]].
    - destruct (string_dec file (Path.join cwd "package.json")) as [->|Hne].
      + rewrite Hread2 in Hrd. injection Hrd as <-. rewrite Hscan2 in Hx. destruct Hx.
      + exists file, content. split; [assumption|]. split; [|assumption].
        unfold Fs.readFileSync in *. now rewrite <- (Hother file Hne).
    - destruct (string_dec file (Path.join cwd "package.json")) as [->|Hne].
      + rewrite Hread in Hrd. injection Hrd as <-. rewrite Hscan in Hx. destruct Hx.
      + exists file, content. split; [assumption|]. split; [|assumption].
        unfold Fs.readFileSync in *. now rewrite (Hother file Hne). }
  assert (Hused : forall k,
             isPackageUsed k (scanFiles (fst after) (files ++ cfg)) = isPackageUsed k S0).
  { intros k. now apply isPackageUsed_ext. }
  rewrite (filter_ext
             (fun e => negb (isPackageUsed (fst e) (scanFiles (fst after) (files ++ cfg))))
             (fun e => negb (isPackageUsed (fst e) S0))
             (fun e => f_equal negb (Hused (fst e)))).
  rewrite (filter_ext
             (fun e => negb (isKnownToolPackage (fst e))
                       && negb (isPackageUsed (fst e) (scanFiles (fst after) (files ++ cfg))))
             (fun e => negb (isKnownToolPackage (fst e)) && negb (isPackageUsed (fst e) S0))
             (fun e => f_equal (andb (negb (isKnownToolPackage (fst e))))
                         (f_equal negb (Hused (fst e))))).
  rewrite Hd2, Hv2, HdepA, HdevA, <- Hdeps, List.filter_app. f_equal. f_equal.
  - apply (refind_kind opts dependency (85 # 100) dependencyFinding
             (fun k => negb (isPackageUsed k S0)) (pj_dependencies pj)
             (map devDependencyFinding
                (List.filter
                   (fun e => negb (isKnownToolPackage (fst e))
                             && negb (isPackageUsed (fst e) S0))
                   (or_empty (pj_devDependencies pj))))
             (fun kv => conj eq_refl (conj eq_refl eq_refl))
             (fun d Hd Ht =>
                match proj1 (in_map_iff _ _ _) Hd with
                | ex_intro _ kv (conj Hkv _) =>
                    eq_ind devDependency
                      (fun t => match t with dependency => False | _ => True end) I
                      dependency (eq_trans (f_equal ud_type Hkv) Ht)
                end)
             Hvd [] _ (fun d Hd => Hd)).
  - pose proof (refind_kind opts devDependency (75 # 100) devDependencyFinding
                  (fun k => negb (isKnownToolPackage k) && negb (isPackageUsed k S0))
                  (pj_devDependencies pj)
                  (map dependencyFinding
                     (List.filter (fun e => negb (isPackageUsed (fst e) S0))
                        (or_empty (pj_dependencies pj))))
                  (fun kv => conj eq_refl (conj eq_refl eq_refl))
                  (fun d Hd Ht =>
                     match proj1 (in_map_iff _ _ _) Hd with
                     | ex_intro _ kv (conj Hkv _) =>
                         eq_ind dependency
                           (fun t => match t with devDependency => False | _ => True end) I
                           devDependency (eq_trans (f_equal ud_type Hkv) Ht)
                     end)
                  Hvv
                  (map dependencyFinding
                     (List.filter (fun e => negb (isPackageUsed (fst e) S0))
                        (or_empty (pj_dependencies pj))))
                  []) as H.
    cbv zeta in H. rewrite !app_nil_r in H. apply H. intros d Hd. exact Hd.
Qed.

End DependencyRoundTrip.


Lemma dependency_fix_round_trip_witness :
  UnusedDependenciesDetector_detect Cases3.parseManifest Cases3.fs "/p"
    ["/p/src/index.js"] []
  = Ok [dependencyFinding ("lodash", "^4.17.0"); devDependencyFinding ("left-pad", "1.3.0")]
  /\
  UnusedDependenciesDetector_detect Cases3.parseManifest
    (fst (AutoFixer_fix Cases3.parseManifest Samples.stringify runTests_stub "/p"
            defaultOptions
            (mkAnalysisResult []
               [dependencyFinding ("lodash", "^4.17.0");
                devDependencyFinding ("left-pad", "1.3.0")])
            Cases3.fs))
    "/p" ["/p/src/index.js"] []
  = Ok [devDependencyFinding ("left-pad", "1.3.0")].
Proof.
  split; [reflexivity|].
  apply (eq_trans
           (dependency_fix_round_trip Cases3.parseManifest Samples.stringify
              runTests_stub "/p" defaultOptions Cases3.fs
              (Samples.plainFile (Samples.stringify Cases3.before)) Cases3.before
              ["/p/src/index.js"] []
              [dependencyFinding ("lodash", "^4.17.0");
               devDependencyFinding ("left-pad", "1.3.0")]
              eq_refl eq_refl eq_refl eq_refl
              ltac:(intros kv [<-|[<-|[]]]; discriminate)
              ltac:(intros kv [<-|[]]; discriminate)
              eq_refl eq_refl eq_refl eq_refl)).
  reflexivity.
Defined.


(** ** The complexity analysis *)

Section ComplexityProperties.
Import Complexity Counted.

Lemma Tree_induction (P : Tree -> Prop) :
  (forall type hasTest children, Forall P children -> P (T type hasTest children)) ->
  forall n, P n.
Proof.
  intros H. fix IH 1. intros [type hasTest children]. apply H.
  induction children as [|c cs IHcs]; constructor; [apply IH|apply IHcs].
Qed.

Lemma enter_counts (type : string) (hasTest : bool) (c : Counters) :
  complexity (enter type hasTest c)
  = (complexity c + length (List.filter scored [(type, hasTest)]))%nat
  /\
  functions (enter type hasTest c)
  = (functions c + length (List.filter isFunction [(type, hasTest)]))%nat.
Proof.
  unfold enter. cbn [List.filter]. unfold scored, isFunction. cbn [fst snd].
  destruct (oneOf type decisionPoints) eqn:Hd.
  - assert (Hf : oneOf type functionKinds = false).
    { unfold oneOf, decisionPoints, functionKinds in *. simpl in *.
      repeat match type of Hd with
             | context [String.eqb type ?s] =>
                 destruct (String.eqb_spec type s) as [->|_]; [reflexivity|]
             end.
      discriminate. }
    rewrite Hf. simpl. split; lia.
  - destruct (String.eqb_spec type "SwitchCase") as [->|_].
    + destruct hasTest; simpl; split; lia.
    + destruct (oneOf type functionKinds); simpl; split; lia.
Qed.

Lemma traverse_counts (n : Tree) :
  forall c,
    complexity (traverse n c) = (complexity c + count scored n)%nat /\
    functions (traverse n c) = (functions c + count isFunction n)%nat.
Proof.
  induction n as [type hasTest children IH] using Tree_induction.
  intros c. unfold count. simpl nodes. simpl traverse.
  destruct (enter_counts type hasTest c) as [Hc Hf].
  assert (H : forall c0,
             complexity (fold_left (fun c child => traverse child c) children c0)
             = (complexity c0 + length (List.filter scored (flat_map nodes children)))%nat
             /\
             functions (fold_left (fun c child => traverse child c) children c0)
             = (functions c0 + length (List.filter isFunction (flat_map nodes children)))%nat).
  { clear Hc Hf. induction IH as [|child children Hchild _ IHl]; intros c0; simpl.
    - split; lia.
    - destruct (IHl (traverse child c0)) as [H1 H2].
      destruct (Hchild c0) as [H3 H4]. unfold count in H3, H4.
      rewrite H1, H2, H3, H4, !List.filter_app, !length_app. split; lia. }
  destruct (H (enter type hasTest c)) as [H1 H2].
  rewrite H1, H2, Hc, Hf.
  change ((type, hasTest) :: flat_map nodes children)
    with ([(type, hasTest)] ++ flat_map nodes children).
  rewrite !List.filter_app, !length_app. split; lia.
Qed.

Lemma function_is_scored (n : string * bool) : isFunction n = true -> scored n = true.
Proof.
  unfold scored, isFunction. intros ->. now rewrite orb_true_r.
Qed.

Lemma filter_length_mono {A : Type} (p q : A -> bool) (l : list A) :
  (forall x, p x = true -> q x = true) ->
  (length (List.filter p l) <= length (List.filter q l))%nat.
Proof.
  intros H. induction l as [|x l IH]; simpl; [lia|].
  destruct (p x) eqn:Hp.
  - rewrite (H x Hp). simpl. lia.
  - destruct (q x); simpl; lia.
Qed.

Lemma split_length_pos (sep : ascii) (s : string) :
  (1 <= length (JsString.split sep s))%nat.
Proof.
  pose proof (split_nonempty sep s) as H.
  destruct (JsString.split sep s); [congruence|simpl; lia].
Qed.

Variable babel_parse : string -> SourceType -> list string -> option Tree.

(** X17 (what the complexity of a file is): when a file can be read and
    parsed, its complexity is the number of nodes that are an if, for, while
    or do-while statement, a conditional or logical expression, a catch
    clause, a switch case with a test, or a function declaration, function
    expression or arrow function; its function count is the number of the
    last three.  So the functions never outnumber the complexity, no other
    node adds anything, and the line count is at least one. *)
Theorem complexity_counts_scored_nodes
    (fs : FS) (filePath code : string) (ast : Tree) :
  Fs.readFileSync fs filePath = Some code ->
  (babel_parse code SourceModule (pluginsFor filePath) = Some ast \/
   babel_parse code SourceModule (pluginsFor filePath) = None /\
   babel_parse code SourceUnambiguous (pluginsFor filePath) = Some ast) ->
  exists c,
    analyzeFile babel_parse fs filePath = Some c /\
    cc_file c = filePath /\
    cc_complexity c = count scored ast /\
    cc_functions c = count isFunction ast /\
    cc_loc c = length (JsString.split JsString.newline code) /\
    (cc_functions c <= cc_complexity c)%nat /\
    (1 <= cc_loc c)%nat.
Proof.
  intros Hread Hparse. unfold analyzeFile. rewrite Hread.
  assert (Hast : match babel_parse code SourceModule (pluginsFor filePath) with
                 | Some ast => Some ast
                 | None => babel_parse code SourceUnambiguous (pluginsFor filePath)
                 end = Some ast).
  { destruct Hparse as [->|[-> ->]]; reflexivity. }
  cbv zeta. rewrite Hast.
  destruct (traverse_counts ast (mkCounters 0 0)) as [Hc Hf]. simpl in Hc, Hf.
  eexists. split; [reflexivity|]. simpl.
  rewrite Hc, Hf. repeat split.
  - apply filter_length_mono, function_is_scored.
  - apply split_length_pos.
Qed.

(** X18 (files that cannot be analysed): a file that cannot be read, or that
    the parser rejects under both source types, has no complexity record,
    and the project-wide analysis is the same as without it. *)
Theorem unanalysable_file_is_left_out
    (fs : FS) (before after : list string) (file : string) :
  (Fs.readFileSync fs file = None \/
   exists code,
     Fs.readFileSync fs file = Some code /\
     babel_parse code SourceModule (pluginsFor file) = None /\
     babel_parse code SourceUnambiguous (pluginsFor file) = None) ->
  analyzeFile babel_parse fs file = None /\
  analyze babel_parse fs (before ++ file :: after)
  = analyze babel_parse fs (before ++ after).
Proof.
  intros H.
  assert (Hnone : analyzeFile babel_parse fs file = None).
  { unfold analyzeFile. destruct H as [->|[code [-> [H1 H2]]]]; [reflexivity|].
    cbv zeta. now rewrite H1, H2. }
  split; [assumption|].
  unfold analyze, analyzeEach. rewrite !fold_left_app. simpl.
  now rewrite Hnone.
Qed.

End ComplexityProperties.

Lemma complexity_counts_scored_nodes_witness :
  exists c,
    Complexity.analyzeFile Counted.parse Counted.fs "/p/src/loop.js" = Some c /\
    cc_file c = "/p/src/loop.js" /\
    cc_complexity c = 3%nat /\
    cc_functions c = 1%nat /\
    cc_loc c = 1%nat /\
    (cc_functions c <= cc_complexity c)%nat /\
    (1 <= cc_loc c)%nat.
Proof.
  exact (complexity_counts_scored_nodes Counted.parse Counted.fs
           "/p/src/loop.js" "loop" Counted.loopAst eq_refl (or_introl eq_refl)).
Defined.

Lemma unanalysable_file_is_left_out_witness :
  Complexity.analyze Counted.parse Counted.fs
    ["/p/src/flat.js"; "/p/src/bad.js"; "/p/src/loop.js"]
  = Complexity.analyze Counted.parse Counted.fs ["/p/src/flat.js"; "/p/src/loop.js"].
Proof.
  apply (proj2 (unanalysable_file_is_left_out Counted.parse Counted.fs
                  ["/p/src/flat.js"] ["/p/src/loop.js"] "/p/src/bad.js"
                  (or_intror (ex_intro _ "(" (conj eq_refl (conj eq_refl eq_refl)))))).
Defined.


Section ComplexityOrder.
Import Complexity Counted.

Lemma insertByComplexity_perm (x : CodeComplexity) (l : list CodeComplexity) :
  Permutation (x :: l) (insertByComplexity x l).
Proof.
  induction l as [|y l IH]; simpl; [reflexivity|].
  destruct (cc_complexity x <? cc_complexity y)%nat; [|reflexivity].
  rewrite perm_swap. now constructor.
Qed.

Lemma sortByComplexity_perm (l : list CodeComplexity) :
  Permutation l (sortByComplexity l).
Proof.
  induction l as [|x l IH]; simpl; [constructor|].
  rewrite <- insertByComplexity_perm. now constructor.
Qed.

Lemma insertByComplexity_sorted (x : CodeComplexity) (l : list CodeComplexity) :
  StronglySorted descending l -> StronglySorted descending (insertByComplexity x l).
Proof.
  induction l as [|y l IH]; intros Hs; simpl.
  - constructor; constructor.
  - inversion Hs as [|? ? Hl Hy]; subst.
    destruct (Nat.ltb_spec (cc_complexity x) (cc_complexity y)) as [Hlt|Hge].
    + constructor; [now apply IH|].
      apply List.Forall_forall. intros z Hz.
      apply (Permutation_in _ (Permutation_sym (insertByComplexity_perm x l))) in Hz.
      destruct Hz as [<-|Hz].
      * unfold descending. lia.
      * now apply (proj1 (List.Forall_forall _ _) Hy).
    + constructor; [assumption|].
      constructor; [exact Hge|].
      apply List.Forall_forall. intros z Hz.
      pose proof (proj1 (List.Forall_forall _ _) Hy z Hz) as H.
      unfold descending in *. lia.
Qed.

Lemma sortByComplexity_sorted (l : list CodeComplexity) :
  StronglySorted descending (sortByComplexity l).
Proof.
  induction l as [|x l IH]; simpl; [constructor|].
  now apply insertByComplexity_sorted.
Qed.

Lemma insertByComplexity_stable (k : nat) (x : CodeComplexity) (l : list CodeComplexity) :
  List.filter (ofComplexity k) (insertByComplexity x l)
  = List.filter (ofComplexity k) (x :: l).
Proof.
  induction l as [|y l IH]; [reflexivity|].
  cbn [insertByComplexity].
  destruct (Nat.ltb_spec (cc_complexity x) (cc_complexity y)) as [Hlt|Hge];
    [|reflexivity].
  cbn [List.filter] in *. rewrite IH. unfold ofComplexity.
  destruct (Nat.eqb_spec (cc_complexity y) k) as [Hy|Hy];
    destruct (Nat.eqb_spec (cc_complexity x) k) as [Hx|Hx];
    try reflexivity.
  lia.
Qed.

Lemma sortByComplexity_stable (k : nat) (l : list CodeComplexity) :
  List.filter (ofComplexity k) (sortByComplexity l) = List.filter (ofComplexity k) l.
Proof.
  induction l as [|x l IH]; [reflexivity|].
  cbn [sortByComplexity fold_right]. rewrite insertByComplexity_stable.
  cbn [List.filter]. fold (sortByComplexity l). now rewrite IH.
Qed.

Lemma sorted_filter_prefix (p : CodeComplexity -> bool) (l : list CodeComplexity) :
  (forall a b, p b = true -> descending a b -> p a = true) ->
  StronglySorted descending l ->
  List.filter p l = firstn (length (List.filter p l)) l.
Proof.
  intros Hmono Hs. induction Hs as [|x l Hl IH Hx]; [reflexivity|].
  cbn [List.filter]. destruct (p x) eqn:Hp.
  - cbn [length firstn]. now rewrite <- IH.
  - assert (Hnone : List.filter p l = []).
    { apply filter_none. intros y Hy.
      destruct (p y) eqn:Hpy; [|reflexivity].
      rewrite (Hmono x y Hpy (proj1 (List.Forall_forall _ _) Hx y Hy)) in Hp.
      discriminate. }
    rewrite Hnone. reflexivity.
Qed.

Variable babel_parse : string -> SourceType -> list string -> option Tree.

Lemma analyzeEach_flat (fs : FS) (files : list string) :
  analyzeEach babel_parse fs files
  = flat_map (fun f => match analyzeFile babel_parse fs f with
                       | Some c => [c]
                       | None => []
                       end) files.
Proof.
  unfold analyzeEach.
  assert (H : forall acc,
             fold_left
               (fun results file =>
                  match analyzeFile babel_parse fs file with
                  | Some complexity => results ++ [complexity]
                  | None => results
                  end) files acc
             = acc ++ flat_map (fun f => match analyzeFile babel_parse fs f with
                                         | Some c => [c]
                                         | None => []
                                         end) files).
  { induction files as [|f files IH]; intros acc; simpl; [now rewrite app_nil_r|].
    rewrite IH. destruct (analyzeFile babel_parse fs f); [|reflexivity].
    now rewrite <- app_assoc. }
  apply (H []).
Qed.

(** X19 (order of the complexity report): the analysis holds exactly the
    records of the files that could be analysed, once per listing of the
    file, ordered by descending complexity, and files of equal complexity
    keep the order in which the file list named them. *)
Theorem analysis_is_a_stable_descending_sort (fs : FS) (files : list string) :
  StronglySorted descending (analyze babel_parse fs files)
  /\
  Permutation (analyzeEach babel_parse fs files) (analyze babel_parse fs files)
  /\
  (forall c,
     In c (analyze babel_parse fs files) <->
     exists f, In f files /\ analyzeFile babel_parse fs f = Some c)
  /\
  (forall k,
     List.filter (ofComplexity k) (analyze babel_parse fs files)
     = flat_map (fun f => match analyzeFile babel_parse fs f with
                          | Some c => if ofComplexity k c then [c] else []
                          | None => []
                          end) files).
Proof.
  unfold analyze. split; [|split; [|split; [intros c; split|intros k]]].
  - apply sortByComplexity_sorted.
  - apply sortByComplexity_perm.
  - intros Hc.
    apply (Permutation_in _ (Permutation_sym (sortByComplexity_perm _))) in Hc.
    rewrite analyzeEach_flat in Hc. apply in_flat_map in Hc.
    destruct Hc as [f [Hf Hc]]. exists f. split; [assumption|].
    destruct (analyzeFile babel_parse fs f); [|destruct Hc].
    destruct Hc as [->|[]]. reflexivity.
  - intros [f [Hf Hc]].
    apply (Permutation_in _ (sortByComplexity_perm _)).
    rewrite analyzeEach_flat. apply in_flat_map. exists f.
    split; [assumption|]. rewrite Hc. now left.
  - rewrite sortByComplexity_stable, analyzeEach_flat.
    induction files as [|f files IH]; [reflexivity|].
    simpl. rewrite List.filter_app, IH. f_equal.
    destruct (analyzeFile babel_parse fs f); [|reflexivity].
    simpl. reflexivity.
Qed.

Lemma Qltb_lt (a b : Q) : Qltb a b = true <-> (a < b)%Q.
Proof.
  unfold Qltb. rewrite negb_true_iff. split.
  - intros H. apply Qnot_le_lt. intros Hle.
    apply Qle_bool_iff in Hle. congruence.
  - intros H. destruct (Qle_bool b a) eqn:E; [|reflexivity].
    apply Qle_bool_iff in E. exfalso. exact (Qlt_not_le _ _ H E).
Qed.

Lemma hotspot_monotone (threshold : Q) (a b : CodeComplexity) :
  Qltb threshold (inject_Z (Z.of_nat (cc_complexity b))) = true ->
  descending a b ->
  Qltb threshold (inject_Z (Z.of_nat (cc_complexity a))) = true.
Proof.
  intros Hb Hab. apply Qltb_lt. apply Qltb_lt in Hb.
  apply (Qlt_le_trans _ _ _ Hb). rewrite <- Zle_Qle. unfold descending in Hab. lia.
Qed.

(** X20 (hotspots of a report): whatever the threshold, the hotspots of an
    analysis are its leading records, so the first few records of a report
    with hotspots are hotspots. *)
Theorem hotspots_lead_the_analysis
    (complexityThreshold : option Q) (fs : FS) (files : list string) :
  let report := analyze babel_parse fs files in
  let hot := getHotspots complexityThreshold report in
  hot = firstn (length hot) report
  /\
  (forall i c, nth_error report i = Some c ->
     (i < length hot)%nat <-> In c hot).
Proof.
  intros report hot.
  assert (Hprefix : hot = firstn (length hot) report).
  { apply sorted_filter_prefix.
    - intros a b. apply hotspot_monotone.
    - apply sortByComplexity_sorted. }
  split; [exact Hprefix|].
  intros i c Hi. split.
  - intros Hlt. rewrite Hprefix. apply (nth_error_In (firstn (length hot) report) i).
    rewrite nth_error_firstn.
    destruct (Nat.ltb_spec i (length hot)); [assumption|lia].
  - intros Hin. unfold hot, getHotspots in Hin. apply filter_In in Hin.
    destruct Hin as [_ Hc].
    destruct (Nat.lt_ge_cases i (length hot)) as [Hlt|Hge]; [assumption|].
    exfalso.
    assert (Hsplit : report = firstn (length hot) report ++ skipn (length hot) report)
      by (symmetry; apply firstn_skipn).
    assert (Hskip : In c (skipn (length hot) report)).
    { apply (nth_error_In (skipn (length hot) report) (i - length hot)).
      rewrite nth_error_skipn. replace (length hot + (i - length hot))%nat with i by lia.
      assumption. }
    assert (Hnot : List.filter
                     (fun c => Qltb (thresholdOf complexityThreshold)
                                 (inject_Z (Z.of_nat (cc_complexity c))))
                     (skipn (length hot) report) = []).
    { assert (Hf : hot = hot ++ List.filter
                     (fun c => Qltb (thresholdOf complexityThreshold)
                                 (inject_Z (Z.of_nat (cc_complexity c))))
                     (skipn (length hot) report)).
      { unfold hot at 1. unfold getHotspots. cbv zeta.
        rewrite Hsplit at 1. rewrite List.filter_app. f_equal.
        rewrite <- Hprefix. unfold hot, getHotspots. cbv zeta.
        apply filter_all. intros x Hx. apply filter_In in Hx. apply Hx. }
      apply (f_equal (@length _)) in Hf. rewrite length_app in Hf.
      apply length_zero_iff_nil. lia. }
    assert (Hin' : In c (List.filter
                     (fun c => Qltb (thresholdOf complexityThreshold)
                                 (inject_Z (Z.of_nat (cc_complexity c))))
                     (skipn (length hot) report))).
    { apply filter_In. split; assumption. }
    rewrite Hnot in Hin'. destruct Hin'.
Qed.

Lemma Qltb_nat (a b : nat) :
  Qltb (inject_Z (Z.of_nat a)) (inject_Z (Z.of_nat b)) = (a <? b)%nat.
Proof.
  destruct (Nat.ltb_spec a b) as [H|H].
  - apply Qltb_lt. rewrite <- Zlt_Qlt. lia.
  - destruct (Qltb _ _) eqn:E; [|reflexivity].
    apply Qltb_lt in E. rewrite <- Zlt_Qlt in E. lia.
Qed.

(** X21 (the hotspot threshold): a threshold that is unset or zero is
    replaced by 10, so that the hotspots are the records of complexity 11
    and more; any other threshold, negative ones included, is taken as it
    is. *)
Theorem zero_threshold_falls_back_to_ten (l : list CodeComplexity) :
  getHotspots None l = List.filter (fun c => (10 <? cc_complexity c)%nat) l
  /\
  (forall q, (q == 0)%Q -> getHotspots (Some q) l = getHotspots None l)
  /\
  (forall q c, ~ (q == 0)%Q ->
     In c (getHotspots (Some q) l) <->
     In c l /\ (q < inject_Z (Z.of_nat (cc_complexity c)))%Q).
Proof.
  assert (Hten : getHotspots None l
                 = List.filter (fun c => (10 <? cc_complexity c)%nat) l).
  { unfold getHotspots, thresholdOf. cbv zeta. apply filter_ext. intros c.
    apply (Qltb_nat 10 (cc_complexity c)). }
  split; [exact Hten|]. split.
  - intros q Hq. unfold getHotspots, thresholdOf.
    apply Qeq_bool_iff in Hq. now rewrite Hq.
  - intros q c Hq. unfold getHotspots, thresholdOf.
    destruct (Qeq_bool q 0) eqn:E.
    + apply Qeq_bool_iff in E. contradiction.
    + cbv zeta. rewrite filter_In, Qltb_lt. reflexivity.
Qed.

Lemma sum_fold (f : CodeComplexity -> nat) (l : list CodeComplexity) (a : nat) :
  fold_left (fun sum c => sum + f c)%nat l a = (a + list_sum (map f l))%nat.
Proof.
  revert a. induction l as [|x l IH]; intros a; simpl; [lia|].
  rewrite IH. lia.
Qed.

Lemma sum_upper (f : CodeComplexity -> nat) (l : list CodeComplexity) (hi : nat) :
  (forall c, In c l -> f c <= hi)%nat ->
  (list_sum (map f l) <= length l * hi)%nat.
Proof.
  induction l as [|x l IH]; intros H; simpl; [lia|].
  pose proof (H x (or_introl eq_refl)).
  pose proof (IH (fun c Hc => H c (or_intror Hc))). lia.
Qed.

Lemma sum_lower (f : CodeComplexity -> nat) (l : list CodeComplexity) (lo : nat) :
  (forall c, In c l -> lo <= f c)%nat ->
  (length l * lo <= list_sum (map f l))%nat.
Proof.
  induction l as [|x l IH]; intros H; simpl; [lia|].
  pose proof (H x (or_introl eq_refl)).
  pose proof (IH (fun c Hc => H c (or_intror Hc))). lia.
Qed.

Lemma max_bounds (l : list nat) :
  (forall x, In x l -> x <= fold_right Nat.max 0 l)%nat /\
  (l <> [] -> In (fold_right Nat.max 0%nat l) l).
Proof.
  induction l as [|x l [IH1 IH2]]; split.
  - intros x [].
  - congruence.
  - intros y [<-|Hy]; simpl; [lia|]. specialize (IH1 y Hy). lia.
  - intros _. simpl. destruct l as [|z l].
    + left. simpl. lia.
    + destruct (Nat.max_spec x (fold_right Nat.max 0%nat (z :: l))) as [[_ ->]|[_ ->]].
      * right. apply IH2. discriminate.
      * now left.
Qed.

Lemma roundDiv_bounds (total n lo hi : nat) :
  (0 < n)%nat -> (n * lo <= total)%nat -> (total <= n * hi)%nat ->
  (lo <= roundDiv total n <= hi)%nat.
Proof.
  intros Hn Hlo Hhi. unfold roundDiv. split.
  - apply Nat.div_le_lower_bound; nia.
  - apply Nat.lt_succ_r. apply Nat.Div0.div_lt_upper_bound. nia.
Qed.

(** X22 (summary of a report): for a report that is not empty, the maximum
    is the complexity of one of its records and bounds all of them, the
    rounded average lies between the least and the greatest complexity, the
    hotspots are counted among the files, and records of at least one line
    each make the line total at least the number of files.  The summary of
    an empty report is all zeros. *)
Theorem stats_summarise_the_report
    (complexityThreshold : option Q) (l : list CodeComplexity) :
  getStats complexityThreshold [] = mkStats 0 0 0 0 0
  /\
  (l <> [] ->
   let s := getStats complexityThreshold l in
   s_totalFiles s = length l /\
   (forall c, In c l -> cc_complexity c <= s_maxComplexity s)%nat /\
   (exists c, In c l /\ cc_complexity c = s_maxComplexity s) /\
   (forall lo, (forall c, In c l -> lo <= cc_complexity c)%nat ->
               (lo <= s_averageComplexity s)%nat) /\
   (s_averageComplexity s <= s_maxComplexity s)%nat /\
   (s_hotspots s <= s_totalFiles s)%nat /\
   s_hotspots s = length (getHotspots complexityThreshold l) /\
   ((forall c, In c l -> 1 <= cc_loc c)%nat -> (s_totalFiles s <= s_totalLOC s)%nat)).
Proof.
  split; [reflexivity|].
  intros Hne. destruct l as [|x l']; [congruence|].
  set (l := x :: l') in *.
  unfold getStats. fold l. cbv zeta. cbn [s_totalFiles s_maxComplexity
    s_averageComplexity s_hotspots s_totalLOC].
  change (match l with [] => _ | _ :: _ => ?s end) with s.
  destruct (max_bounds (map cc_complexity l)) as [Hmax Hatt].
  assert (Hall : forall c, In c l ->
            (cc_complexity c <= fold_right Nat.max 0 (map cc_complexity l))%nat).
  { intros c Hc. apply Hmax. now apply in_map. }
  assert (Hlen : (0 < length l)%nat) by (unfold l; simpl; lia).
  rewrite !sum_fold. cbn [Nat.add].
  repeat split.
  - exact Hall.
  - assert (Hin : In (fold_right Nat.max 0%nat (map cc_complexity l))
                    (map cc_complexity l)).
    { apply Hatt. unfold l. discriminate. }
    apply in_map_iff in Hin. destruct Hin as [c [Hc Hin]]. now exists c.
  - intros lo Hlo.
    apply (roundDiv_bounds _ (length l) lo
             (fold_right Nat.max 0%nat (map cc_complexity l)) Hlen).
    + now apply sum_lower.
    + now apply sum_upper.
  - apply (roundDiv_bounds _ (length l) 0
             (fold_right Nat.max 0%nat (map cc_complexity l)) Hlen).
    + lia.
    + now apply sum_upper.
  - unfold getHotspots. apply filter_length_le.
  - intros Hloc. cbn [s_totalFiles s_totalLOC].
    pose proof (sum_lower cc_loc l 1 Hloc). lia.
Qed.

End ComplexityOrder.

Lemma zero_threshold_falls_back_to_ten_witness :
  Complexity.getHotspots (Some (0 # 3)%Q)
    [mkCodeComplexity "a" 11 1 0; mkCodeComplexity "b" 10 1 0]
  = Complexity.getHotspots None
      [mkCodeComplexity "a" 11 1 0; mkCodeComplexity "b" 10 1 0]
  /\
  (In (mkCodeComplexity "b" 10 1 0)
     (Complexity.getHotspots (Some (-1 # 1)%Q)
        [mkCodeComplexity "a" 11 1 0; mkCodeComplexity "b" 10 1 0])
   <->
   In (mkCodeComplexity "b" 10 1 0)
     [mkCodeComplexity "a" 11 1 0; mkCodeComplexity "b" 10 1 0]
   /\ (-1 # 1 < inject_Z (Z.of_nat 10))%Q).
Proof.
  split.
  - apply (proj1 (proj2 (zero_threshold_falls_back_to_ten
                           [mkCodeComplexity "a" 11 1 0; mkCodeComplexity "b" 10 1 0]))).
    reflexivity.
  - apply (proj2 (proj2 (zero_threshold_falls_back_to_ten
                           [mkCodeComplexity "a" 11 1 0; mkCodeComplexity "b" 10 1 0]))).
    intros H. discriminate H.
Defined.

Lemma stats_summarise_the_report_witness :
  Complexity.s_maxComplexity
    (Complexity.getStats None
       [mkCodeComplexity "a" 11 3 0; mkCodeComplexity "b" 2 1 0]) = 11%nat
  /\
  (2 <= Complexity.s_averageComplexity
          (Complexity.getStats None
             [mkCodeComplexity "a" 11 3 0; mkCodeComplexity "b" 2 1 0]))%nat.
Proof.
  destruct (proj2 (stats_summarise_the_report None
                     [mkCodeComplexity "a" 11 3 0; mkCodeComplexity "b" 2 1 0])
              ltac:(discriminate)) as [_ [_ [_ [Hlo _]]]].
  split; [reflexivity|].
  apply Hlo. intros c [<-|[<-|[]]]; simpl; lia.
Defined.


(** ** The analyzer and the clean command *)

Section AnalyzerProperties.

Variable babel_parse : string -> SourceType -> list string -> option Ast.Node.
Variable complexity_parse : string -> SourceType -> list string -> option Complexity.Tree.
Variable JSON_parse : string -> option PackageJson.

Lemma read_exists (fs : FS) (p text : string) :
  Fs.readFileSync fs p = Some text -> Fs.existsSync fs p = true.
Proof.
  unfold Fs.readFileSync, Fs.existsSync.
  destruct (fs !! p) as [e|]; [reflexivity|discriminate].
Qed.

Lemma ceilTenth_bounds (n : nat) :
  (n <= 10 * ceilTenth n)%nat /\ (10 * ceilTenth n < n + 10)%nat.
Proof.
  unfold ceilTenth.
  pose proof (Nat.div_mod_eq (n + 9) 10) as H.
  pose proof (Nat.mod_upper_bound (n + 9) 10 ltac:(lia)) as Hm.
  lia.
Qed.

Lemma analysis_without_manifest
    (config : AnalyzerConfig) (fs : FS) (projectRoot : string)
    (files configFiles : list string) :
  analyzeUnusedDependencies config = true ->
  Fs.existsSync fs (Path.join projectRoot "package.json") = false ->
  Analyzer_analyze babel_parse complexity_parse JSON_parse config fs projectRoot
    files configFiles = Throw (Error "package.json not found").
Proof.
  intros Hon Hnone. unfold Analyzer_analyze, UnusedDependenciesDetector_detect.
  now rewrite Hon, Hnone.
Qed.

(** X23 (when the analysis fails): the analysis returns a report exactly
    when dependency analysis is switched off or the manifest can be read
    and parsed; with dependency analysis on and no manifest it throws
    [package.json not found], whatever the import analysis found. *)
Theorem analysis_fails_only_on_the_manifest
    (config : AnalyzerConfig) (fs : FS) (projectRoot : string)
    (files configFiles : list string) :
  ((exists report,
      Analyzer_analyze babel_parse complexity_parse JSON_parse config fs projectRoot
        files configFiles = Ok report)
   <->
   analyzeUnusedDependencies config = false \/
   exists text pj,
     Fs.readFileSync fs (Path.join projectRoot "package.json") = Some text /\
     JSON_parse text = Some pj)
  /\
  (analyzeUnusedDependencies config = true ->
   Fs.existsSync fs (Path.join projectRoot "package.json") = false ->
   Analyzer_analyze babel_parse complexity_parse JSON_parse config fs projectRoot
     files configFiles = Throw (Error "package.json not found")).
Proof.
  unfold Analyzer_analyze. split; [split|].
  - intros [report H].
    destruct (analyzeUnusedDependencies config); [|now left]. right.
    destruct (UnusedDependenciesDetector_detect JSON_parse fs projectRoot files configFiles)
      as [deps|e] eqn:Hdet; [|discriminate].
    exact (detect_inv JSON_parse fs projectRoot files configFiles deps Hdet).
  - intros [Hoff|[text [pj [Hread Hparse]]]].
    + rewrite Hoff. eauto.
    + destruct (analyzeUnusedDependencies config); [|eauto].
      unfold UnusedDependenciesDetector_detect.
      rewrite (read_exists fs _ text Hread), Hread, Hparse. cbn [negb]. eauto.
  - apply analysis_without_manifest.
Qed.

Lemma analyze_length (fs : FS) (files : list string) :
  (length (Complexity.analyze complexity_parse fs files) <= length files)%nat.
Proof.
  unfold Complexity.analyze.
  rewrite <- (Permutation_length (sortByComplexity_perm _)), analyzeEach_flat.
  induction files as [|f l IH]; simpl; [lia|].
  rewrite length_app.
  destruct (Complexity.analyzeFile complexity_parse fs f); simpl; lia.
Qed.

(** X24 (totals and estimates of a report): the report counts the files
    whose complexity could be measured, never more than the files found,
    and the findings of the two detectors; an analysis that is switched off
    finds nothing; unused exports and unused files are never reported; the
    size estimate is one unit per import and fifty per dependency; the time
    estimate is a tenth of the imports, rounded up, plus two per dependency,
    and is zero exactly when nothing was found. *)
Theorem report_totals_and_estimates
    (config : AnalyzerConfig) (fs : FS) (projectRoot : string)
    (files configFiles : list string) (report : Report) :
  Analyzer_analyze babel_parse complexity_parse JSON_parse config fs projectRoot
    files configFiles = Ok report ->
  r_complexity report = Complexity.analyze complexity_parse fs files /\
  r_totalFiles report = length (r_complexity report) /\
  (r_totalFiles report <= length files)%nat /\
  r_totalImports report = length (r_unusedImports report) /\
  r_totalDependencies report = length (r_unusedDependencies report) /\
  (analyzeUnusedImports config = false -> r_unusedImports report = []) /\
  (analyzeUnusedDependencies config = false -> r_unusedDependencies report = []) /\
  r_unusedExports report = [] /\
  r_unusedFiles report = [] /\
  r_estimatedBundleSizeReduction report
  = (r_totalImports report + 50 * r_totalDependencies report)%nat /\
  (r_totalImports report
   <= 10 * (r_estimatedCleanupTime report - 2 * r_totalDependencies report)
   < r_totalImports report + 10)%nat /\
  (2 * r_totalDependencies report <= r_estimatedCleanupTime report)%nat /\
  (r_estimatedCleanupTime report = 0%nat <->
   r_unusedImports report = [] /\ r_unusedDependencies report = []).
Proof.
  unfold Analyzer_analyze. intros H.
  destruct (if analyzeUnusedDependencies config
            then UnusedDependenciesDetector_detect JSON_parse fs projectRoot files
                   configFiles
            else Ok []) as [deps|e] eqn:Hdeps; [|discriminate].
  cbv zeta in H. injection H as <-.
  cbn [r_unusedImports r_unusedDependencies r_unusedExports r_unusedFiles
       r_complexity r_totalFiles r_totalImports r_totalDependencies
       r_estimatedBundleSizeReduction r_estimatedCleanupTime].
  set (imps := if analyzeUnusedImports config
               then UnusedImportsDetector_detect babel_parse fs files else []).
  pose proof (ceilTenth_bounds (length imps)) as [Hc1 Hc2].
  pose proof (analyze_length fs files) as Hlen.
  split; [reflexivity|]. split; [reflexivity|]. split; [exact Hlen|].
  split; [reflexivity|]. split; [reflexivity|].
  split; [intros Hoff; unfold imps; now rewrite Hoff|].
  split; [intros Hoff; rewrite Hoff in Hdeps; now injection Hdeps as <-|].
  split; [reflexivity|]. split; [reflexivity|].
  split; [lia|]. split; [lia|]. split; [lia|].
  split.
  - intros H. split.
    + destruct imps; [reflexivity|]. simpl length in *. exfalso. lia.
    + destruct deps; [reflexivity|]. simpl length in *. exfalso. lia.
  - intros [Hi Hd]. rewrite Hi, Hd. reflexivity.
Qed.

Variable JSON_stringify : PackageJson -> string.
Variable runTests : FS -> bool.

(** X25 (what the clean command touches): a dry run, a declined prompt, a
    clean code base and a failed analysis all leave every file as it was; in
    particular, with dependency analysis on and no manifest nothing is
    removed, unused imports included.  When the command does run the fixer,
    the analysis had returned a report with at least one finding and the
    files are exactly what the fixer made of them. *)
Theorem clean_changes_files_only_through_the_fixer
    (config : AnalyzerConfig) (options : CleanOptions) (proceed : bool)
    (cwd : string) (files configFiles : list string) (fs : FS) :
  let out :=
    clean babel_parse complexity_parse JSON_parse JSON_stringify runTests
      config options proceed cwd files configFiles fs in
  (dryRun options = true -> fst out = fs) /\
  (interactive options = true -> proceed = false -> fst out = fs) /\
  (analyzeUnusedDependencies config = true ->
   Fs.existsSync fs (Path.join cwd "package.json") = false ->
   out = (fs, AnalysisFailed (Error "package.json not found"))) /\
  ((forall fixResult, snd out <> Fixed fixResult) -> fst out = fs) /\
  (forall fixResult,
     snd out = Fixed fixResult ->
     dryRun options = false /\
     (interactive options = true -> proceed = true) /\
     exists report,
       Analyzer_analyze babel_parse complexity_parse JSON_parse config fs cwd
         files configFiles = Ok report /\
       (r_unusedImports report <> [] \/ r_unusedDependencies report <> []) /\
       (fst out, fixResult)
       = AutoFixer_fix JSON_parse JSON_stringify runTests cwd
           (mkFixerOptions (safe options) (verifyTests options))
           (forFixer report) fs).
Proof.
  intros out. unfold clean in out.
  split; [|split; [|split; [|split]]].
  - intros Hdry. unfold out.
    destruct (Analyzer_analyze _ _ _ _ _ _ _ _) as [report|e]; [|reflexivity].
    destruct (_ && _); [reflexivity|].
    cbv zeta. destruct (negb _); [reflexivity|]. now rewrite Hdry.
  - intros Hint ->. unfold out.
    destruct (Analyzer_analyze _ _ _ _ _ _ _ _) as [report|e]; [|reflexivity].
    destruct (_ && _); [reflexivity|]. now rewrite Hint.
  - intros Hon Hnone. unfold out.
    now rewrite (analysis_without_manifest config fs cwd files configFiles Hon Hnone).
  - intros Hnot. unfold out in *.
    destruct (Analyzer_analyze _ _ _ _ _ _ _ _) as [report|e]; [|reflexivity].
    destruct (_ && _); [reflexivity|].
    cbv zeta in *. destruct (negb (if interactive options then proceed else true));
      [reflexivity|].
    destruct (negb (dryRun options)); [|reflexivity].
    exfalso. exact (Hnot _ eq_refl).
  - intros fixResult Hfixed. unfold out in *.
    destruct (Analyzer_analyze _ _ _ _ _ _ _ _) as [report|e]; [|discriminate].
    destruct (_ && _) eqn:Hnone; [discriminate|].
    cbv zeta in *.
    destruct (negb (if interactive options then proceed else true)) eqn:Hgo;
      [discriminate|].
    destruct (dryRun options) eqn:Hdry; [discriminate|].
    cbn [negb snd fst] in *. injection Hfixed as <-.
    split; [reflexivity|]. split.
    + intros Hint. rewrite Hint in Hgo. now destruct proceed.
    + exists report. split; [reflexivity|]. split.
      * apply andb_false_iff in Hnone.
        destruct Hnone as [H|H]; [left|right]; intros Hnil; rewrite Hnil in H;
          discriminate.
      * now destruct (AutoFixer_fix _ _ _ _ _ _ _).
Qed.

End AnalyzerProperties.


Lemma analysis_fails_only_on_the_manifest_witness :
  (exists report,
     Analyzer_analyze Cases.parse Counted.parse Cases3.parseManifest
       Cases4.importsOnly Cases.fs "/p" Cases4.files [] = Ok report)
  /\
  Analyzer_analyze Cases.parse Counted.parse Cases3.parseManifest
    Cases4.everything Cases.fs "/p" Cases4.files []
  = Throw (Error "package.json not found").
Proof.
  destruct (analysis_fails_only_on_the_manifest Cases.parse Counted.parse
              Cases3.parseManifest Cases4.importsOnly Cases.fs "/p" Cases4.files [])
    as [[_ Hok] _].
  destruct (analysis_fails_only_on_the_manifest Cases.parse Counted.parse
              Cases3.parseManifest Cases4.everything Cases.fs "/p" Cases4.files [])
    as [_ Hthrow].
  split; [apply Hok; now left|apply Hthrow; reflexivity].
Defined.

Lemma report_totals_and_estimates_witness :
  Analyzer_analyze Cases.parse Counted.parse Cases3.parseManifest
    Cases4.importsOnly Cases.fs "/p" Cases4.files [] = Ok Cases4.report
  /\
  (r_totalFiles Cases4.report <= length Cases4.files)%nat
  /\
  r_estimatedCleanupTime Cases4.report <> 0%nat.
Proof.
  assert (H : Analyzer_analyze Cases.parse Counted.parse Cases3.parseManifest
                Cases4.importsOnly Cases.fs "/p" Cases4.files [] = Ok Cases4.report)
    by reflexivity.
  destruct (report_totals_and_estimates Cases.parse Counted.parse
              Cases3.parseManifest Cases4.importsOnly Cases.fs "/p" Cases4.files []
              Cases4.report H)
    as [_ [_ [Hfiles [_ [_ [_ [_ [_ [_ [_ [_ [_ Hzero]]]]]]]]]]]].
  split; [exact H|]. split; [exact Hfiles|].
  intros Hz. apply Hzero in Hz. destruct Hz as [Hz _]. discriminate Hz.
Defined.

Lemma clean_changes_files_only_through_the_fixer_witness :
  clean Cases.parse Counted.parse Cases3.parseManifest Samples.stringify
    runTests_stub Cases4.everything (mkCleanOptions false true false false) true
    "/p" Cases4.files [] Cases.fs
  = (Cases.fs, AnalysisFailed (Error "package.json not found")).
Proof.
  apply (proj1 (proj2 (proj2
           (clean_changes_files_only_through_the_fixer Cases.parse Counted.parse
              Cases3.parseManifest Samples.stringify runTests_stub
              Cases4.everything (mkCleanOptions false true false false) true
              "/p" Cases4.files [] Cases.fs)))); reflexivity.
Defined.

(** ** Paths in the console report *)

Lemma drop_append (a b : string) : JsString.drop (String.length a) (a +:+ b) = b.
Proof.
  induction a as [|c a IH]; simpl; [now destruct b|assumption].
Qed.

(** X26 (shortened paths): from a path that starts with the working
    directory, [shortenPath] removes the directory and the one character
    that follows it, whatever that character is: a separator, so that
    [cwd/rest] is shown as [rest], or the next character of a sibling
    directory or, when the working directory is the root, of the path
    itself.  The working directory itself is shown as the empty string, and
    a path that does not start with it is shown as it is. *)
Theorem shortenPath_strips_the_working_directory (cwd : string) :
  (forall rest, shortenPath cwd (cwd +:+ "/" +:+ rest) = rest)
  /\
  (forall c rest, shortenPath cwd (cwd +:+ String c rest) = rest)
  /\
  shortenPath cwd cwd = ""
  /\
  (forall filePath,
     JsString.startsWith filePath cwd = false -> shortenPath cwd filePath = filePath).
Proof.
  assert (H : forall c rest, shortenPath cwd (cwd +:+ String c rest) = rest).
  { intros c rest. unfold shortenPath, JsString.startsWith.
    rewrite prefix_append.
    replace (String.length cwd + 1)%nat with (S (String.length cwd)) by lia.
    clear. induction cwd as [|x cwd IH]; simpl; [reflexivity|].
    exact IH. }
  split; [|split; [|split]].
  - intros rest. apply (H "/"%char rest).
  - exact H.
  - unfold shortenPath, JsString.startsWith. rewrite prefix_refl.
    clear. induction cwd as [|x cwd IH]; simpl; [reflexivity|]. exact IH.
  - intros filePath Hno. unfold shortenPath. now rewrite Hno.
Qed.

Lemma shortenPath_strips_the_working_directory_witness :
  shortenPath "/p" "/p/src/a.js" = "src/a.js"
  /\ shortenPath "/p" "/project/a.js" = "oject/a.js"
  /\ shortenPath "/" "/src/a.js" = "rc/a.js"
  /\ shortenPath "/p" "/q/a.js" = "/q/a.js".
Proof.
  destruct (shortenPath_strips_the_working_directory "/p") as [H1 [H2 [_ H4]]].
  destruct (shortenPath_strips_the_working_directory "/") as [_ [H2' _]].
  split; [exact (H1 "src/a.js")|].
  split; [exact (H2 "r"%char "oject/a.js")|].
  split; [exact (H2' "s"%char "rc/a.js")|].
  apply H4. reflexivity.
Defined.


Lemma analysis_is_a_stable_descending_sort_witness :
  In (mkCodeComplexity "/p/src/loop.js" 3 1 1)
    (Complexity.analyze Counted.parse Counted.fs
       ["/p/src/flat.js"; "/p/src/bad.js"; "/p/src/loop.js"]).
Proof.
  apply (proj1 (proj2 (proj2
           (analysis_is_a_stable_descending_sort Counted.parse Counted.fs
              ["/p/src/flat.js"; "/p/src/bad.js"; "/p/src/loop.js"])))).
  exists "/p/src/loop.js". split; [simpl; tauto|reflexivity].
Defined.

Lemma hotspots_lead_the_analysis_witness :
  In (mkCodeComplexity "/p/src/loop.js" 3 1 1)
    (Complexity.getHotspots (Some (2 # 1)%Q)
       (Complexity.analyze Counted.parse Counted.fs
          ["/p/src/flat.js"; "/p/src/bad.js"; "/p/src/loop.js"])).
Proof.
  apply (proj2 (hotspots_lead_the_analysis Counted.parse (Some (2 # 1)%Q) Counted.fs
                  ["/p/src/flat.js"; "/p/src/bad.js"; "/p/src/loop.js"])
           0%nat (mkCodeComplexity "/p/src/loop.js" 3 1 1) eq_refl).
  vm_compute. lia.
Defined.


(** ** Project detection and the configuration file *)

Section ConfigProperties.
Import Config.

Variable JSON_parse : string -> option PackageJson.
Variable readdirSync : FS -> string -> option (list string).
Variable JSON_stringify : CodeGuardianConfig -> string.

Lemma getProjectInfo_listing (fs : FS) (projectRoot : string) (info : ProjectInfo) :
  getProjectInfo JSON_parse readdirSync fs projectRoot = Ok info ->
  exists files, readdirSync fs projectRoot = Some files.
Proof.
  unfold getProjectInfo, detectBuildTool. cbv zeta.
  destruct (readdirSync fs projectRoot) as [files|]; [eauto|discriminate].
Qed.

(** X27 (the configuration file is written once): [initConfig] refuses to
    run when the configuration file exists, and writes nothing when the
    project root cannot be listed; when it succeeds, the file did not exist,
    it now holds the printed defaults completed by the detected framework,
    build tool and package manager, no other path has changed, and a second
    call is refused. *)
Theorem initConfig_writes_once (fs : FS) (projectRoot : string) :
  let configPath := Path.join projectRoot ".codeguardianrc.json" in
  (Fs.existsSync fs configPath = true ->
   initConfig JSON_parse readdirSync JSON_stringify fs projectRoot
   = Throw (Error "Config file already exists"))
  /\
  (Fs.existsSync fs configPath = false ->
   readdirSync fs projectRoot = None ->
   initConfig JSON_parse readdirSync JSON_stringify fs projectRoot
   = Throw (SystemError projectRoot))
  /\
  (forall fs',
     initConfig JSON_parse readdirSync JSON_stringify fs projectRoot = Ok fs' ->
     fs !! configPath = None /\
     (exists info,
        getProjectInfo JSON_parse readdirSync fs projectRoot = Ok info /\
        fs' !! configPath
        = Some (mkEntry (JSON_stringify (configFor info)) true true) /\
        framework (configFor info) = Some (pi_framework info) /\
        buildTool (configFor info) = Some (pi_buildTool info) /\
        packageManager (configFor info) = Some (pi_packageManager info)) /\
     (forall p, p <> configPath -> fs' !! p = fs !! p) /\
     (forall readdirSync' JSON_stringify',
        initConfig JSON_parse readdirSync' JSON_stringify' fs' projectRoot
        = Throw (Error "Config file already exists"))).
Proof.
  intros configPath. unfold initConfig. fold configPath. split; [|split].
  - intros ->. reflexivity.
  - intros -> Hnone. unfold getProjectInfo, detectBuildTool. cbv zeta.
    now rewrite Hnone.
  - intros fs' H.
    destruct (Fs.existsSync fs configPath) eqn:Hex; [discriminate|].
    destruct (getProjectInfo JSON_parse readdirSync fs projectRoot) as [info|e] eqn:Hinfo;
      [|discriminate].
    unfold Fs.existsSync in Hex. unfold Fs.writeFileSync in H. cbv zeta in H.
    destruct (fs !! configPath) eqn:Hlook; [discriminate|].
    injection H as <-.
    split; [reflexivity|]. split; [|split].
    + exists info. split; [reflexivity|].
      split; [apply lookup_insert_eq|]. repeat split.
    + intros p Hp. now apply lookup_insert_ne.
    + intros readdirSync' JSON_stringify'. unfold Fs.existsSync.
      now rewrite lookup_insert_eq.
Qed.

(** X28 (project information without a usable manifest): when the manifest
    is missing, unreadable or not valid JSON, the project is called
    [unknown], version [0.0.0], of unknown framework and without tests,
    while build tool and package manager still come from the listing of the
    project root.  If the root cannot be listed there is no project
    information at all, whatever the manifest says; and the package manager
    reported is never the unknown one. *)
Theorem project_info_without_usable_manifest (fs : FS) (projectRoot : string) :
  (forall files,
     readdirSync fs projectRoot = Some files ->
     Fs.existsSync fs (Path.join projectRoot "package.json") = false \/
     Fs.readFileSync fs (Path.join projectRoot "package.json") = None \/
     (exists text,
        Fs.readFileSync fs (Path.join projectRoot "package.json") = Some text /\
        JSON_parse text = None) ->
     exists buildTool packageManager,
       detectBuildTool readdirSync fs projectRoot = Ok buildTool /\
       detectPackageManager readdirSync fs projectRoot = Ok packageManager /\
       getProjectInfo JSON_parse readdirSync fs projectRoot
       = Ok (mkProjectInfo "unknown" "0.0.0" UnknownFramework buildTool packageManager
               false None))
  /\
  (readdirSync fs projectRoot = None ->
   getProjectInfo JSON_parse readdirSync fs projectRoot = Throw (SystemError projectRoot))
  /\
  (forall info,
     getProjectInfo JSON_parse readdirSync fs projectRoot = Ok info ->
     pi_packageManager info <> UnknownPackageManager /\
     (hasTests info = true <-> testFramework info <> None) /\
     testFramework info = detectTestFramework JSON_parse fs projectRoot /\
     pi_framework info = detectFramework JSON_parse fs projectRoot).
Proof.
  split; [|split].
  - intros files Hfiles Hbad.
    unfold getProjectInfo, detectBuildTool, detectPackageManager, detectTestFramework,
      detectFramework.
    rewrite Hfiles. cbv zeta. eexists. eexists.
    split; [reflexivity|]. split; [reflexivity|].
    destruct Hbad as [Hno|[Hno|[text [Hread Hparse]]]].
    + rewrite Hno. reflexivity.
    + rewrite Hno. now destruct (Fs.existsSync fs _).
    + rewrite Hread, Hparse, (read_exists fs _ text Hread). reflexivity.
  - intros Hnone. unfold getProjectInfo, detectBuildTool. cbv zeta.
    now rewrite Hnone.
  - intros info. unfold getProjectInfo, detectBuildTool, detectPackageManager.
    cbv zeta. destruct (readdirSync fs projectRoot) as [files|]; [|discriminate].
    intros H. injection H as <-. cbn [pi_packageManager hasTests testFramework pi_framework].
    split; [|split; [|split; reflexivity]].
    + repeat match goal with
             | |- context [if ?b then _ else _] => destruct b
             end; discriminate.
    + destruct (detectTestFramework JSON_parse fs projectRoot); split;
        congruence.
Qed.

End ConfigProperties.

Lemma initConfig_writes_once_witness :
  Config.initConfig Cases3.parseManifest Config.listing Config.print
    (<[Path.join "/p" ".codeguardianrc.json" := mkEntry "{}" true true]> Cases3.fs) "/p"
  = Throw (Error "Config file already exists").
Proof.
  apply (proj1 (initConfig_writes_once Cases3.parseManifest Config.listing Config.print
                  (<[Path.join "/p" ".codeguardianrc.json" := mkEntry "{}" true true]>
                     Cases3.fs) "/p")).
  reflexivity.
Defined.

Lemma project_info_without_usable_manifest_witness :
  exists buildTool packageManager,
    Config.detectBuildTool Config.listing Cases.fs "/p" = Ok buildTool /\
    Config.detectPackageManager Config.listing Cases.fs "/p" = Ok packageManager /\
    Config.getProjectInfo Cases3.parseManifest Config.listing Cases.fs "/p"
    = Ok (Config.mkProjectInfo "unknown" "0.0.0" Config.UnknownFramework buildTool
            packageManager false None).
Proof.
  apply (proj1 (project_info_without_usable_manifest Cases3.parseManifest Config.listing
                  Cases.fs "/p") ["src"; "yarn.lock"; "vite.config.ts"] eq_refl).
  left. reflexivity.
Defined.
